(** * MCP_Postgres: guards, pool lifecycle and bearer check

    A shallow embedding of [mcp_server.py], [main.py] and [app.py].

    Python [str] values are modelled as [string]: a sequence of code points
    below 256 (the Latin-1 range), each an [ascii].  On that range
    [str.lower], [str.strip], [str.isspace] and [int()] are written out in
    full; code points above 255 are outside the model.

    Stateful code is a state-and-exception monad over a [World] that holds
    the module globals, the process environment, the state of the database
    server and a log of every call made to the outside. *)

From Stdlib Require Import String Ascii List ZArith Lia Bool.
From Stdlib Require Import DecimalString.
Import ListNotations.
Local Open Scope list_scope.
Local Open Scope string_scope.

(** ** Python strings *)

Module PyStr.

Definition code (c : ascii) : N := N_of_ascii c.

Definition between (lo hi : N) (c : ascii) : bool :=
  (N.leb lo (code c) && N.leb (code c) hi)%bool.

(** [str.isspace] on one code point below 256: TAB..CR, FS..US, SPACE,
    NEL (0x85) and NBSP (0xA0). *)
Definition isspace (c : ascii) : bool :=
  (between 9 13 c || between 28 32 c
   || N.eqb (code c) 133 || N.eqb (code c) 160)%bool.

(** Code points that [str.lower] changes: A..Z and the Latin-1 capitals
    0xC0..0xDE except the multiplication sign 0xD7. *)
Definition isupper (c : ascii) : bool :=
  (between 65 90 c || between 192 214 c || between 216 222 c)%bool.

Definition lower_char (c : ascii) : ascii :=
  if isupper c then ascii_of_N (code c + 32) else c.

(** [s.lower()] *)
Fixpoint lower (s : string) : string :=
  match s with
  | EmptyString => EmptyString
  | String c s' => String (lower_char c) (lower s')
  end.

Definition is_empty (s : string) : bool :=
  match s with EmptyString => true | String _ _ => false end.

(** [s.lstrip()], [s.rstrip()], [s.strip()] *)
Fixpoint lstrip (s : string) : string :=
  match s with
  | EmptyString => EmptyString
  | String c s' => if isspace c then lstrip s' else s
  end.

Fixpoint rstrip (s : string) : string :=
  match s with
  | EmptyString => EmptyString
  | String c s' =>
      let r := rstrip s' in
      if (isspace c && is_empty r)%bool then EmptyString else String c r
  end.

Definition strip (s : string) : string := rstrip (lstrip s).

(** [s.startswith(p)] *)
Fixpoint startswith (s p : string) : bool :=
  match p, s with
  | EmptyString, _ => true
  | String _ _, EmptyString => false
  | String a p', String b s' => (Ascii.eqb a b && startswith s' p')%bool
  end.

(** [sub in s] *)
Fixpoint contains (s sub : string) : bool :=
  (startswith s sub
   || match s with
      | EmptyString => false
      | String _ s' => contains s' sub
      end)%bool.

(** [any(x in s for x in toks)] *)
Definition any_in (toks : list string) (s : string) : bool :=
  existsb (contains s) toks.

(** [s.split()]: the maximal runs of non-space code points. *)
Fixpoint split_from (s cur : string) : list string :=
  match s with
  | EmptyString => if is_empty cur then [] else [cur]
  | String c s' =>
      if isspace c
      then (if is_empty cur then split_from s' EmptyString
            else cur :: split_from s' EmptyString)
      else split_from s' (cur ++ String c EmptyString)
  end.

Definition split (s : string) : list string := split_from s EmptyString.

(** [int(s)] in base 10, as CPython 3.11 parses a [str] with the default
    limit of 4300 digits.  White space outside ASCII is first turned into
    a blank; then come leading white space of the C locale (FS..US are
    not among it), an optional sign, a run of digits with single
    underscores between them, and trailing white space.  A run that is
    well formed but longer than the limit is refused as too long before
    what follows it is looked at; everything else that does not fit is
    an invalid literal. *)
Definition isdigit (c : ascii) : bool := between 48 57 c.

(** [Py_ISSPACE] *)
Definition c_isspace (c : ascii) : bool :=
  (between 9 13 c || N.eqb (code c) 32)%bool.

Definition int_char (c : ascii) : ascii :=
  if (N.leb 127 (code c) && isspace c)%bool then " "%char else c.

Fixpoint map_chars (f : ascii -> ascii) (s : string) : string :=
  match s with
  | EmptyString => EmptyString
  | String c s' => String (f c) (map_chars f s')
  end.

Fixpoint skip_blanks (s : string) : string :=
  match s with
  | EmptyString => EmptyString
  | String c s' => if c_isspace c then skip_blanks s' else s
  end.

(** The run of digits and underscores at the head of [s]: its value, the
    number of its digits and what follows it; [None] for two underscores
    in a row or an underscore at its end. *)
Fixpoint scan_digits (s : string) (acc : Z) (count : nat)
  (after_underscore : bool) : option (Z * nat * string) :=
  match s with
  | EmptyString => if after_underscore then None else Some (acc, count, s)
  | String c s' =>
      if isdigit c
      then scan_digits s' (10 * acc + (Z.of_N (code c) - 48)) (S count) false
      else if Ascii.eqb c "_"
           then (if after_underscore then None
                 else scan_digits s' acc count true)
           else if after_underscore then None else Some (acc, count, s)
  end.

Definition max_str_digits : nat := 4300.

Inductive int_result :=
| IntValue (z : Z)
| IntInvalid
| IntTooLong (ndigits : nat).

Definition int_unsigned (negative : bool) (body : string) : int_result :=
  match body with
  | String "_" _ => IntInvalid
  | _ =>
      match scan_digits body 0 0 false with
      | None => IntInvalid
      | Some (v, n, rest) =>
          if Nat.ltb max_str_digits n then IntTooLong n
          else if Nat.eqb n 0 then IntInvalid
          else if is_empty (skip_blanks rest)
               then IntValue (if negative then Z.opp v else v)
               else IntInvalid
      end
  end.

Definition int (s : string) : int_result :=
  match skip_blanks (map_chars int_char s) with
  | String "-" body => int_unsigned true body
  | String "+" body => int_unsigned false body
  | body => int_unsigned false body
  end.

(** [repr(s)]: the quote is the double quote when [s] holds single quotes
    and no double quote, and the single quote otherwise; the quote and
    the backslash are escaped, TAB, LF and CR are written [\t], [\n],
    [\r], and every other code point that is not printable is written
    [\xhh]. *)
Definition squote : ascii := "039"%char.
Definition dquote : ascii := "034"%char.
Definition backslash : ascii := "092"%char.

Definition isprintable (c : ascii) : bool :=
  negb (between 0 31 c || between 127 160 c || N.eqb (code c) 173)%bool.

Definition hex_digit (n : N) : ascii :=
  if N.ltb n 10 then ascii_of_N (48 + n) else ascii_of_N (87 + n).

Fixpoint has_char (a : ascii) (s : string) : bool :=
  match s with
  | EmptyString => false
  | String c s' => (Ascii.eqb a c || has_char a s')%bool
  end.

Definition repr_char (quote c : ascii) : string :=
  if (Ascii.eqb c quote || Ascii.eqb c backslash)%bool
  then String backslash (String c EmptyString)
  else if N.eqb (code c) 9 then String backslash "t"
  else if N.eqb (code c) 10 then String backslash "n"
  else if N.eqb (code c) 13 then String backslash "r"
  else if isprintable c then String c EmptyString
  else String backslash
         (String "x" (String (hex_digit (N.div (code c) 16))
                        (String (hex_digit (N.modulo (code c) 16))
                           EmptyString))).

Fixpoint repr_body (quote : ascii) (s : string) : string :=
  match s with
  | EmptyString => String quote EmptyString
  | String c s' => repr_char quote c ++ repr_body quote s'
  end.

Definition repr (s : string) : string :=
  let quote := if (has_char squote s && negb (has_char dquote s))%bool
               then dquote else squote in
  String quote (repr_body quote s).

(** [str(n)] for an integer. *)
Definition str_of_int (z : Z) : string :=
  NilZero.string_of_int (Z.to_int z).

(** The last code point of a non-empty string. *)
Fixpoint last_char (s : string) : option ascii :=
  match s with
  | EmptyString => None
  | String c EmptyString => Some c
  | String _ s' => last_char s'
  end.

Definition first_char (s : string) : option ascii :=
  match s with EmptyString => None | String c _ => Some c end.

Definition solid (c : option ascii) : bool :=
  match c with Some a => negb (isspace a) | None => false end.

(** The token is empty or ends with a non-space code point. *)
Definition ends_solid (tok : string) : bool :=
  match last_char tok with
  | Some c => negb (isspace c)
  | None => true
  end.

End PyStr.

(** ** Values, rows, exceptions *)

Inductive value :=
| VNone
| VInt (z : Z)
| VStr (s : string)
| VBool (b : bool).

(** A result row as the driver hands it over: the (column, value) items in
    column order. *)
Definition Row := list (string * value).

(** A Python [dict] with string keys: insertion-ordered, one entry per key. *)
Definition Dict := list (string * value).

Fixpoint dict_set (k : string) (v : value) (d : Dict) : Dict :=
  match d with
  | [] => [(k, v)]
  | (k', v') :: d' =>
      if String.eqb k k' then (k', v) :: d' else (k', v') :: dict_set k v d'
  end.

(** [dict(r)] *)
Definition dict (r : Row) : Dict :=
  fold_left (fun d kv => dict_set (fst kv) (snd kv) d) r [].

Fixpoint dict_get (k : string) (d : Dict) : option value :=
  match d with
  | [] => None
  | (k', v) :: d' => if String.eqb k k' then Some v else dict_get k d'
  end.

(** The value of column [k] in a row: with a repeated column name, the
    last one. *)
Fixpoint row_get (k : string) (r : Row) : option value :=
  match r with
  | [] => None
  | (k', v) :: r' =>
      match row_get k r' with
      | Some v' => Some v'
      | None => if String.eqb k k' then Some v else None
      end
  end.

Inductive exn :=
| ValueError (msg : string)
| AttributeError (msg : string)
| IndexError (msg : string)
| DriverError (msg : string)
| HTTPException (status_code : Z) (detail : string)
                (headers : list (string * string)).

(** [str(e)] *)
Definition exn_message (e : exn) : string :=
  match e with
  | ValueError msg | AttributeError msg | IndexError msg | DriverError msg => msg
  | HTTPException _ detail _ => detail
  end.

(** The keyword arguments handed to [asyncpg.create_pool] and
    [psycopg2.connect] ([database] is [dbname] in [main.py]). *)
Record DbConfig := {
  host : option string;
  port : Z;
  database : option string;
  user : option string;
  password : option string }.

(** Every call that leaves the process, in program order. *)
Inductive event :=
| CreatePool (cfg : DbConfig)
| Acquire
| Release
| Fetch (q : string) (args : list value)
| Execute (q : string)
| Connect (cfg : DbConfig)
| CursorExecute (q : string) (args : list value)
| Commit
| Rollback
| Print (line : string)
| NewTransport (listen_port : Z)
| Serve (listen_port : Z)
| HandleRequest.

(** ** State and exceptions *)

Definition M (W A : Type) : Type := W -> (exn + A) * W.

Definition ret {W A} (a : A) : M W A := fun w => (inr a, w).
Definition raise {W A} (e : exn) : M W A := fun w => (inl e, w).
Definition bind {W A B} (m : M W A) (k : A -> M W B) : M W B :=
  fun w =>
    match m w with
    | (inl e, w') => (inl e, w')
    | (inr a, w') => k a w'
    end.

Notation "x <- c1 ;; c2" := (bind c1 (fun x => c2))
  (at level 61, c1 at next level, right associativity).
Notation "c1 ;; c2" := (bind c1 (fun _ => c2))
  (at level 61, right associativity).

(** A list comprehension whose element expression may raise. *)
Fixpoint for_each {W A B} (f : A -> M W B) (xs : list A) : M W (list B) :=
  match xs with
  | [] => ret []
  | x :: xs' => y <- f x ;; ys <- for_each f xs' ;; ret (y :: ys)
  end.

(** Every exception [m] can raise satisfies [ok]. *)
Definition raises_only {W A} (ok : exn -> Prop) (m : M W A) : Prop :=
  forall w e w', m w = (inl e, w') -> ok e.

(** [os.getenv(name)] and [int(os.getenv(name, default))]. *)
Fixpoint getenv (environ : list (string * string)) (name : string)
  : option string :=
  match environ with
  | [] => None
  | (k, v) :: rest => if String.eqb name k then Some v else getenv rest name
  end.

(** The two [ValueError]s of [int()]; the first shows at most 200 code
    points of [repr(s)]. *)
Definition invalid_literal (s : string) : exn :=
  ValueError ("invalid literal for int() with base 10: "
              ++ substring 0 200 (PyStr.repr s)).

Definition too_many_digits (n : nat) : exn :=
  ValueError ("Exceeds the limit (4300 digits) for integer string conversion: value has "
              ++ PyStr.str_of_int (Z.of_nat n)
              ++ " digits; use sys.set_int_max_str_digits() to increase the limit").

(** [int(s)] with the exception it raises. *)
Definition py_int (s : string) : exn + Z :=
  match PyStr.int s with
  | PyStr.IntValue z => inr z
  | PyStr.IntInvalid => inl (invalid_literal s)
  | PyStr.IntTooLong n => inl (too_many_digits n)
  end.

Definition getenv_int (environ : list (string * string)) (name : string)
  (default : Z) : exn + Z :=
  match getenv environ name with
  | None => inr default
  | Some s => py_int s
  end.

Definition nl : string := String "010" EmptyString.

(** The two guards' vocabulary. *)
Definition blocked : list string := ["drop"; "alter"; "truncate"; "create"].

(** ** asyncpg, as far as [mcp_server.py] uses it.  A driver failure is
    reported as its message and raised as [DriverError]. *)
Class Asyncpg := {
  Server : Type;
  Pool : Type;
  Connection : Type;
  create_pool : DbConfig -> Server -> (string + Pool) * Server;
  pool_acquire : Pool -> Server -> (string + Connection) * Server;
  pool_release : Pool -> Connection -> Server -> Server;
  conn_fetch : Connection -> string -> list value -> Server
               -> (string + list Row) * Server;
  conn_execute : Connection -> string -> Server -> (string + string) * Server }.

(** ** mcp_server.py *)

Module McpServer.
Section WithDriver.
Context {D : Asyncpg}.

(** [db_pool] is the module global; [pools] records every pool instance
    [create_pool] has returned so far. *)
Record World := {
  db_pool : option Pool;
  environ : list (string * string);
  server : Server;
  pools : list Pool;
  trace : list event }.

Definition log (e : event) : M World unit := fun w =>
  (inr tt, {| db_pool := db_pool w; environ := environ w;
              server := server w; pools := pools w;
              trace := (trace w ++ [e])%list |}).

Definition set_server (s : Server) (w : World) : World :=
  {| db_pool := db_pool w; environ := environ w; server := s;
     pools := pools w; trace := trace w |}.

Definition set_db_pool (p : Pool) (w : World) : World :=
  {| db_pool := Some p; environ := environ w; server := server w;
     pools := (pools w ++ [p])%list; trace := trace w |}.

(** One call into the driver: logged, then run on the server. *)
Definition call {A} (e : event) (f : Server -> (string + A) * Server)
  : M World A := fun w =>
  match log e w with
  | (_, w1) =>
      match f (server w1) with
      | (inl msg, s) => (inl (DriverError msg), set_server s w1)
      | (inr a, s) => (inr a, set_server s w1)
      end
  end.

Definition liftE {A} (r : exn + A) : M World A := fun w => (r, w).

Definition DB_CONFIG (env : list (string * string)) : exn + DbConfig :=
  match getenv_int env "DB_PORT" 5432 with
  | inl e => inl e
  | inr p => inr {| host := getenv env "DB_HOST";
                    port := p;
                    database := getenv env "DB_NAME";
                    user := getenv env "DB_USER";
                    password := getenv env "DB_PASSWORD" |}
  end.

Definition initialize_db_pool : M World unit := fun w =>
  match db_pool w with
  | Some _ => (inr tt, w)
  | None =>
      match DB_CONFIG (environ w) with
      | inl e => (inl e, w)
      | inr cfg =>
          match call (CreatePool cfg) (create_pool cfg) w with
          | (inr p, w1) =>
              log (Print "INFO: PostgreSQL Connection Pool initialized successfully.")
                  (set_db_pool p w1)
          | (inl e, w1) =>
              (log (Print ("ERROR: Failed to connect to PostgreSQL: "
                           ++ exn_message e)) ;;
               raise e) w1
          end
      end
  end.

(** [async with db_pool.acquire() as conn: body]; the connection goes
    back to the pool however the body ends. *)
Definition with_acquire {A} (body : Connection -> M World A) : M World A :=
  fun w =>
    match db_pool w with
    | None =>
        (inl (AttributeError "'NoneType' object has no attribute 'acquire'"), w)
    | Some p =>
        match call Acquire (pool_acquire p) w with
        | (inl e, w1) => (inl e, w1)
        | (inr conn, w1) =>
            match body conn w1 with
            | (r, w2) =>
                (r, snd (log Release
                           (set_server (pool_release p conn (server w2)) w2)))
            end
        end
    end.

Definition fetch (conn : Connection) (q : string) (args : list value)
  : M World (list Row) := call (Fetch q args) (conn_fetch conn q args).

Definition execute (conn : Connection) (q : string) : M World string :=
  call (Execute q) (conn_execute conn q).

(** [row[0]] *)
Definition first_value (row : Row) : M World value :=
  match row with
  | [] => raise (IndexError "record index out of range")
  | (_, v) :: _ => ret v
  end.

Definition list_tables_query : string :=
  "SELECT table_name FROM information_schema.tables WHERE table_schema='public' ORDER BY table_name;".

Definition list_tables : M World (list value) :=
  initialize_db_pool ;;
  with_acquire (fun conn =>
    records <- fetch conn list_tables_query [] ;;
    for_each first_value records).

Definition describe_table_query : string :=
  nl ++ "        SELECT column_name, data_type, is_nullable, column_default"
  ++ nl ++ "        FROM information_schema.columns"
  ++ nl ++ "        WHERE table_name=$1"
  ++ nl ++ "        ORDER BY ordinal_position;"
  ++ nl ++ "    ".

Definition describe_table (table_name : string) : M World (list Dict) :=
  initialize_db_pool ;;
  with_acquire (fun conn =>
    records <- fetch conn describe_table_query [VStr table_name] ;;
    ret (map dict records)).

Definition run_select (query : string) : M World (list Dict) :=
  initialize_db_pool ;;
  if negb (PyStr.contains (PyStr.lower (PyStr.strip query)) "select")
  then raise (ValueError "Only SELECT queries allowed for data retrieval.")
  else
    with_acquire (fun conn =>
      records <- fetch conn query [] ;;
      ret (map dict records)).

(** [result.split()[-1]] *)
Definition last_word (result : string) : M World string :=
  match rev (PyStr.split result) with
  | [] => raise (IndexError "list index out of range")
  | x :: _ => ret x
  end.

Definition run_sql (query : string) : M World string :=
  initialize_db_pool ;;
  if PyStr.any_in blocked (PyStr.lower query)
  then raise (ValueError "DDL commands not allowed.")
  else if PyStr.startswith (PyStr.lower (PyStr.strip query)) "select"
  then raise (ValueError "Use run_select() for SELECT queries.")
  else
    with_acquire (fun conn =>
      result <- execute conn query ;;
      rows_affected <- last_word result ;;
      ret ("Executed successfully. Rows affected: " ++ rows_affected)).

Definition preview_query (table : string) : string :=
  "SELECT * FROM " ++ table ++ " LIMIT 10".

Definition preview_table (table : string) : M World (list Dict) :=
  initialize_db_pool ;;
  with_acquire (fun conn =>
    records <- fetch conn (preview_query table) [] ;;
    ret (map dict records)).

Definition sql_prompt (nl_request : string) : string :=
  "Convert the following natural language request into an SQL query. "
  ++ "Return only SQL." ++ nl ++ nl ++ "Request:" ++ nl ++ nl_request.

End WithDriver.
End McpServer.

(** ** psycopg2, as far as [main.py] uses it *)

(** What a cursor holds after [execute]: the rows when the statement
    produced a result set, and [rowcount]. *)
Record Cursor := {
  result_set : option (list Row);
  rowcount : Z }.

Class Psycopg2 := {
  PgServer : Type;
  PgConnection : Type;
  pg_connect : DbConfig -> PgServer -> (string + PgConnection) * PgServer;
  cur_execute : PgConnection -> string -> list value -> PgServer
                -> (string + Cursor) * PgServer;
  pg_commit : PgConnection -> PgServer -> (string + unit) * PgServer;
  pg_rollback : PgConnection -> PgServer -> PgServer }.

(** ** main.py *)

Module MainPy.
Section WithDriver.
Context {P : Psycopg2}.

(** [DB_CONFIG] is built once, when the module is imported. *)
Record World := {
  DB_CONFIG : DbConfig;
  server : PgServer;
  trace : list event }.

(** [load_dotenv()] as [main.py] calls it, with its defaults: every entry
    of the [.env] file whose name is not yet in the environment is added
    to it; a variable the process already has keeps its value.
    [entries] is what the file holds, and [[]] when there is no file. *)
Definition load_dotenv (entries env : list (string * string))
  : list (string * string) :=
  fold_left (fun e kv => match getenv e (fst kv) with
                         | Some _ => e
                         | None => (e ++ [kv])%list
                         end) entries env.

(** Lines 9 to 15, read from the environment [load_dotenv] has left. *)
Definition load_config (env : list (string * string)) : exn + DbConfig :=
  match getenv_int env "DB_PORT" 5432 with
  | inl e => inl e
  | inr p => inr {| host := match getenv env "DB_HOST" with
                            | Some h => Some h
                            | None => Some "localhost"
                            end;
                    port := p;
                    database := getenv env "DB_NAME";
                    user := getenv env "DB_USER";
                    password := getenv env "DB_PASSWORD" |}
  end.

Definition log (e : event) : M World unit := fun w =>
  (inr tt, {| DB_CONFIG := DB_CONFIG w; server := server w;
              trace := (trace w ++ [e])%list |}).

Definition set_server (s : PgServer) (w : World) : World :=
  {| DB_CONFIG := DB_CONFIG w; server := s; trace := trace w |}.

Definition call {A} (e : event) (f : PgServer -> (string + A) * PgServer)
  : M World A := fun w =>
  match log e w with
  | (_, w1) =>
      match f (server w1) with
      | (inl msg, s) => (inl (DriverError msg), set_server s w1)
      | (inr a, s) => (inr a, set_server s w1)
      end
  end.

Definition get_conn : M World PgConnection := fun w =>
  call (Connect (DB_CONFIG w)) (pg_connect (DB_CONFIG w)) w.

(** [with get_conn() as conn: body]: connect, run the body, then commit
    when the body returned and roll back when it raised. *)
Definition with_conn {A} (body : PgConnection -> M World A) : M World A :=
  fun w =>
    match get_conn w with
    | (inl e, w1) => (inl e, w1)
    | (inr conn, w1) =>
        match body conn w1 with
        | (inr a, w2) => (call Commit (pg_commit conn) ;; ret a) w2
        | (inl e, w2) =>
            (inl e, snd (log Rollback
                           (set_server (pg_rollback conn (server w2)) w2)))
        end
    end.

Definition cursor_execute (conn : PgConnection) (q : string)
  (args : list value) : M World Cursor :=
  call (CursorExecute q args) (cur_execute conn q args).

(** [cur.fetchall()] *)
Definition fetchall (cur : Cursor) : M World (list Row) :=
  match result_set cur with
  | Some rows => ret rows
  | None => raise (DriverError "no results to fetch")
  end.

Definition first_value (row : Row) : M World value :=
  match row with
  | [] => raise (IndexError "tuple index out of range")
  | (_, v) :: _ => ret v
  end.

Definition list_tables_query : string :=
  nl ++ "        SELECT table_name"
  ++ nl ++ "        FROM information_schema.tables"
  ++ nl ++ "        WHERE table_schema='public'"
  ++ nl ++ "        ORDER BY table_name;"
  ++ nl ++ "    ".

Definition list_tables : M World (list value) :=
  with_conn (fun conn =>
    cur <- cursor_execute conn list_tables_query [] ;;
    rows <- fetchall cur ;;
    for_each first_value rows).

Definition describe_table_query : string :=
  nl ++ "        SELECT column_name, data_type, is_nullable, column_default"
  ++ nl ++ "        FROM information_schema.columns"
  ++ nl ++ "        WHERE table_name=%s"
  ++ nl ++ "        ORDER BY ordinal_position;"
  ++ nl ++ "    ".

Definition describe_table (table_name : string) : M World (list Dict) :=
  with_conn (fun conn =>
    cur <- cursor_execute conn describe_table_query [VStr table_name] ;;
    rows <- fetchall cur ;;
    ret (map dict rows)).

Definition run_select (query : string) : M World (list Dict) :=
  if negb (PyStr.contains (PyStr.lower query) "select")
  then raise (ValueError "Only SELECT queries allowed.")
  else
    with_conn (fun conn =>
      cur <- cursor_execute conn query [] ;;
      rows <- fetchall cur ;;
      ret (map dict rows)).

Definition run_sql (query : string) : M World string :=
  if PyStr.any_in blocked (PyStr.lower query)
  then raise (ValueError "DDL commands not allowed.")
  else if PyStr.startswith (PyStr.strip (PyStr.lower query)) "select"
  then raise (ValueError "Use run_select() for SELECT.")
  else
    with_conn (fun conn =>
      cur <- cursor_execute conn query [] ;;
      call Commit (pg_commit conn) ;;
      ret ("Executed successfully. Rows affected: "
           ++ PyStr.str_of_int (rowcount cur))).

Definition preview_query (table : string) : string :=
  "SELECT * FROM " ++ table ++ " LIMIT 10".

Definition preview_table (table : string) : M World (list Dict) :=
  with_conn (fun conn =>
    cur <- cursor_execute conn (preview_query table) [] ;;
    rows <- fetchall cur ;;
    ret (map dict rows)).

Definition sql_prompt (nl_request : string) : string :=
  "Convert the following natural language request into an SQL query. "
  ++ "Return only SQL." ++ nl ++ nl ++ "Request:" ++ nl ++ nl_request.

End WithDriver.
End MainPy.

(** ** app.py *)

Module App.
Section WithDriver.
Context {D : Asyncpg}.
Import McpServer.

Definition check_auth (credentials : string) : M World bool := fun w =>
  match getenv (environ w) "MCP_API_KEY" with
  | None | Some EmptyString =>
      (log (Print "SECURITY ERROR: MCP_API_KEY is not set in environment variables!") ;;
       raise (HTTPException 500
                "Server Misconfiguration: Authentication key missing." [])) w
  | Some expected_key =>
      if negb (String.eqb credentials expected_key)
      then (inl (HTTPException 401
                   "Unauthorized access. Invalid MCP_API_KEY."
                   [("WWW-Authenticate", "Bearer")]), w)
      else (inr true, w)
  end.

(** A request to [/mcp].  [Depends(check_auth)] runs before the body of
    the endpoint, and [check_auth] itself depends on [security], the
    [HTTPBearer] scheme, which either raises or yields the credentials
    of the [Authorization] header; the scheme is a parameter here. *)
Definition protected_mcp_endpoint
  (security : option string -> exn + string)
  (authorization : option string) : M World unit :=
  credentials <- liftE (security authorization) ;;
  check_auth credentials ;;
  log HandleRequest.

Definition start_server : M World unit :=
  initialize_db_pool ;;
  port <- (fun w => (getenv_int (environ w) "PORT" 8080, w)) ;;
  log (NewTransport port) ;;
  log (Print ("INFO: Starting secured Render-Postgres-Assistant on port "
              ++ PyStr.str_of_int port ++ "...")) ;;
  log (Serve port).

End WithDriver.
End App.

(** ** The process as a sequence of tool calls *)

Module Process.
Section WithDriver.
Context {D : Asyncpg}.
Import McpServer.

Inductive op :=
| InitializeDbPool
| ListTables
| DescribeTable (table_name : string)
| RunSelect (query : string)
| RunSql (query : string)
| PreviewTable (table : string).

(** The world after one call, whatever it returned or raised. *)
Definition step (o : op) (w : World) : World :=
  match o with
  | InitializeDbPool => snd (initialize_db_pool w)
  | ListTables => snd (list_tables w)
  | DescribeTable t => snd (describe_table t w)
  | RunSelect q => snd (run_select q w)
  | RunSql q => snd (run_sql q w)
  | PreviewTable t => snd (preview_table t w)
  end.

Definition run (ops : list op) (w : World) : World :=
  fold_left (fun w o => step o w) ops w.

(** The state of a process that has just imported [mcp_server]. *)
Definition at_import (env : list (string * string)) (s : Server) : World :=
  {| db_pool := None; environ := env; server := s; pools := [];
     trace := [] |}.


(** A computation that leaves the globals and the environment alone. *)
Definition keeps {A} (m : M World A) : Prop :=
  forall w, db_pool (snd (m w)) = db_pool w
            /\ pools (snd (m w)) = pools w
            /\ environ (snd (m w)) = environ w.

(** The events logged between two worlds of one run. *)
Definition added (w w' : World) : list event :=
  skipn (length (trace w)) (trace w').

(** What a call can add to the log before it first needs a connection. *)
Definition startup_event (e : event) : bool :=
  match e with
  | CreatePool _ | Print _ => true
  | _ => false
  end.

End WithDriver.
End Process.

(** ** A small database to run the model on *)

Module Demo.

Definition rows : list Row :=
  [[("id", VInt 1); ("created_at", VStr "2024-05-01")];
   [("id", VInt 2); ("created_at", VStr "2024-05-02")]].

(** The server is reachable when a host is configured; its state is the
    list of statements it has run. *)
Definition asyncpg : Asyncpg := {|
  Server := list string;
  Pool := nat;
  Connection := nat;
  create_pool cfg s :=
    match host cfg with
    | Some _ => (inr 1%nat, s)
    | None => (inl "connection refused", s)
    end;
  pool_acquire p s := (inr 7%nat, s);
  pool_release p c s := s;
  conn_fetch c q args s := (inr rows, (s ++ [q])%list);
  conn_execute c q s := (inr "UPDATE 1", (s ++ [q])%list) |}.

Definition psycopg2 : Psycopg2 := {|
  PgServer := list string;
  PgConnection := nat;
  pg_connect cfg s :=
    match database cfg with
    | Some _ => (inr 3%nat, s)
    | None => (inl "connection refused", s)
    end;
  cur_execute c q args s :=
    (inr {| result_set := Some rows; rowcount := 2 |}, (s ++ [q])%list);
  pg_commit c s := (inr tt, s);
  pg_rollback c s := s |}.

Definition env : list (string * string) :=
  [("DB_HOST", "db.internal"); ("DB_PORT", "5432"); ("DB_NAME", "shop");
   ("DB_USER", "svc"); ("DB_PASSWORD", "pw"); ("MCP_API_KEY", "s3cret");
   ("PORT", "10000")].

Definition config : DbConfig :=
  {| host := Some "db.internal"; port := 5432; database := Some "shop";
     user := Some "svc"; password := Some "pw" |}.

(** Just imported, database reachable. *)
Definition fresh : @McpServer.World asyncpg :=
  @Process.at_import asyncpg env [].

(** Just imported, nothing configured: the database cannot be reached. *)
Definition offline : @McpServer.World asyncpg :=
  @Process.at_import asyncpg [] [].

(** After a successful [initialize_db_pool]. *)
Definition ready : @McpServer.World asyncpg :=
  @McpServer.Build_World asyncpg (Some 1%nat) env [] [1%nat] [].

Definition main_world : @MainPy.World psycopg2 :=
  @MainPy.Build_World psycopg2 config [] [].

(** [str.partition(" ")]: what stands before the first blank and what
    stands after it. *)
Fixpoint partition_blank (s : string) : string * string :=
  match s with
  | EmptyString => (EmptyString, EmptyString)
  | String c s' =>
      if Ascii.eqb c " " then (EmptyString, s')
      else (String c (fst (partition_blank s')), snd (partition_blank s'))
  end.

(** A bearer scheme to run the endpoint on, after FastAPI's [HTTPBearer]
    with [auto_error]: the header is split at its first blank into scheme
    and credentials; a missing or empty header, an empty scheme and empty
    credentials are turned down, and so is a scheme other than "bearer"
    in any letter case.  The status shown is the 403 of the releases that
    answer so; the properties of the endpoint hold for every scheme. *)
Definition bearer (authorization : option string) : exn + string :=
  match authorization with
  | None => inl (HTTPException 403 "Not authenticated" [])
  | Some h =>
      if (PyStr.is_empty (fst (partition_blank h))
          || PyStr.is_empty (snd (partition_blank h)))%bool
      then inl (HTTPException 403 "Not authenticated" [])
      else if String.eqb (PyStr.lower (fst (partition_blank h))) "bearer"
           then inr (snd (partition_blank h))
           else inl (HTTPException 403 "Invalid authentication credentials" [])
  end.

Definition overlap_query : string :=
  "UPDATE t SET note = 'please select carefully'".

End Demo.

(** ** Overlapping calls of [initialize_db_pool] *)

Module Overlap.
Section WithDriver.
Context {D : Asyncpg}.
Import McpServer.









End WithDriver.
End Overlap.

(** ** What a call may send *)

Module Effects.

(** A computation that leaves the world as it found it. *)
Definition silent {W A} (m : M W A) : Prop := forall w, snd (m w) = w.

(** Any exception but a [ValueError]. *)
Definition not_value_error (e : exn) : Prop :=
  forall msg, e <> ValueError msg.

(** The first value of a row, if it has one. *)
Definition row_first (r : Row) : option value := option_map snd (hd_error r).

(** The first value of every row, when every row has one. *)
Fixpoint first_values (rows : list Row) : option (list value) :=
  match rows with
  | [] => Some []
  | r :: rest =>
      match row_first r, first_values rest with
      | Some v, Some vs => Some (v :: vs)
      | _, _ => None
      end
  end.

(** No white space anywhere in the string. *)
Fixpoint no_space (s : string) : bool :=
  match s with
  | EmptyString => true
  | String c s' => (negb (PyStr.isspace c) && no_space s')%bool
  end.

(** Both tests of [run_sql] let the statement through. *)
Definition passes_write_guards (query : string) : bool :=
  (negb (PyStr.any_in blocked (PyStr.lower query))
   && negb (PyStr.startswith (PyStr.strip (PyStr.lower query)) "select"))%bool.

Definition column_names (r : list (string * value)) : list string :=
  map fst r.

Section WithDriver.
Context {D : Asyncpg}.
Import McpServer Process.

(** The one statement a call sends once it holds a connection, when its
    tests let it get that far. *)
Definition statement_of (o : op) : option event :=
  match o with
  | InitializeDbPool => None
  | ListTables => Some (Fetch list_tables_query [])
  | DescribeTable t => Some (Fetch describe_table_query [VStr t])
  | RunSelect q =>
      if PyStr.contains (PyStr.lower q) "select"
      then Some (Fetch q []) else None
  | RunSql q => if passes_write_guards q then Some (Execute q) else None
  | PreviewTable t => Some (Fetch (preview_query t) [])
  end.

(** What a call can log once the pool is there: nothing, a lone
    acquisition that failed, or acquisition, statement and release. *)
Definition tail_of (e : option event) (tail : list event) : Prop :=
  tail = [] \/ tail = [Acquire]
  \/ exists ev, e = Some ev /\ tail = [Acquire; ev; Release].

Definition sends {A} (e : option event) (m : M World A) : Prop :=
  forall w, exists tail,
    trace (snd (m w)) = (trace w ++ tail)%list /\ tail_of e tail.

End WithDriver.
End Effects.

(** ** More databases to run the model on *)

Module Edge.

(** A server that answers every statement with an empty status and with
    one row that has no column. *)
Definition blank : Asyncpg := {|
  Server := list string;
  Pool := nat;
  Connection := nat;
  create_pool cfg s := (inr 1%nat, s);
  pool_acquire p s := (inr 7%nat, s);
  pool_release p c s := s;
  conn_fetch c q args s := (inr [[]], (s ++ [q])%list);
  conn_execute c q s := (inr "", (s ++ [q])%list) |}.

Definition blank_ready : @McpServer.World blank :=
  @McpServer.Build_World blank (Some 1%nat) [] [] [1%nat] [].

(** A server whose statements produce no result set. *)
Definition no_rows : Psycopg2 := {|
  PgServer := list string;
  PgConnection := nat;
  pg_connect cfg s := (inr 3%nat, s);
  cur_execute c q args s :=
    (inr {| result_set := None; rowcount := 1 |}, (s ++ [q])%list);
  pg_commit c s := (inr tt, s);
  pg_rollback c s := [] |}.

Definition no_rows_world : @MainPy.World no_rows :=
  @MainPy.Build_World no_rows Demo.config [] [].

(** A server that refuses every statement. *)
Definition refusing : Psycopg2 := {|
  PgServer := list string;
  PgConnection := nat;
  pg_connect cfg s := (inr 3%nat, s);
  cur_execute c q args s := (inl "syntax error", s);
  pg_commit c s := (inr tt, s);
  pg_rollback c s := s |}.

Definition refusing_world : @MainPy.World refusing :=
  @MainPy.Build_World refusing Demo.config [] [].



(** An environment whose port settings are not integers. *)
Definition bad_ports : list (string * string) :=
  [("DB_HOST", "db.internal"); ("DB_PORT", "54'32"); ("PORT", "http")].

Definition bad_db_port : @McpServer.World Demo.asyncpg :=
  @Process.at_import Demo.asyncpg bad_ports [].


End Edge.

(** * Properties *)

(** ** Sanity checks of the string model *)

Example lower_ex : PyStr.lower "  DROP Table x " = "  drop table x ".
Proof. reflexivity. Qed.
Example strip_ex : PyStr.strip ("  select 1 " ++ String "010" "") = "select 1".
Proof. vm_compute. reflexivity. Qed.
Example int_ex :
  PyStr.int " 5_432 " = PyStr.IntValue 5432
  /\ PyStr.int "54__32" = PyStr.IntInvalid
  /\ PyStr.int "-7" = PyStr.IntValue (-7)
  /\ PyStr.int (String "028" "5432") = PyStr.IntInvalid
  /\ PyStr.int (String "160" "5432") = PyStr.IntValue 5432.
Proof. vm_compute. auto. Qed.
Example split_ex : PyStr.split "UPDATE  1 " = ["UPDATE"; "1"].
Proof. vm_compute. reflexivity. Qed.
Example ddl_before_select_ex :
  fst (@MainPy.run_sql Demo.psycopg2 "SELECT 1; DROP TABLE users" Demo.main_world)
  = inl (ValueError "DDL commands not allowed.")
  /\ fst (@McpServer.run_sql Demo.asyncpg "select created_at from t" Demo.ready)
     = inl (ValueError "DDL commands not allowed.").
Proof. vm_compute. auto. Qed.
Example str_ex : PyStr.str_of_int (-1) = "-1" /\ PyStr.str_of_int 0 = "0" /\ PyStr.str_of_int 12 = "12".
Proof. vm_compute. auto. Qed.

(** ** Facts about the string operations *)

Module PyStrFacts.
Import PyStr.

Lemma isspace_lower_char (c : ascii) : isspace (lower_char c) = isspace c.
Proof. destruct c as [[] [] [] [] [] [] [] []]; reflexivity. Qed.

Lemma is_empty_lower (s : string) : is_empty (lower s) = is_empty s.
Proof. destruct s; reflexivity. Qed.

Lemma lower_lstrip (s : string) : lower (lstrip s) = lstrip (lower s).
Proof.
  induction s as [|c s IH]; simpl; [reflexivity|].
  rewrite isspace_lower_char.
  destruct (isspace c); [exact IH | reflexivity].
Qed.

Lemma lower_rstrip (s : string) : lower (rstrip s) = rstrip (lower s).
Proof.
  induction s as [|c s IH]; simpl; [reflexivity|].
  rewrite isspace_lower_char, <- IH, is_empty_lower.
  destruct (isspace c && is_empty (rstrip s))%bool; reflexivity.
Qed.

(** Trimming and lowercasing commute, so [mcp_server.py]'s
    [query.strip().lower()] and [main.py]'s [query.lower().strip()] are
    the same string. *)
Lemma lower_strip (s : string) : lower (strip s) = strip (lower s).
Proof. unfold strip. now rewrite lower_rstrip, lower_lstrip. Qed.

Lemma startswith_nil (p : string) :
  startswith EmptyString p = is_empty p.
Proof. destruct p; reflexivity. Qed.

Lemma contains_nil (p : string) : contains EmptyString p = is_empty p.
Proof. destruct p; reflexivity. Qed.

Lemma eqb_space_solid (a c : ascii) :
  isspace c = true -> isspace a = false -> Ascii.eqb a c = false.
Proof.
  intros Hc Ha. destruct (Ascii.eqb_spec a c); [congruence | reflexivity].
Qed.

(** A token that begins with a non-space code point cannot begin at a
    white-space position. *)
Lemma startswith_at_space (c : ascii) (s tok : string) :
  isspace c = true -> solid (first_char tok) = true ->
  startswith (String c s) tok = false.
Proof.
  intros Hc Ht. destruct tok as [|a tok]; [discriminate|].
  simpl in *. rewrite (eqb_space_solid a c Hc); [reflexivity|].
  now destruct (isspace a).
Qed.

Lemma contains_lstrip (s tok : string) :
  solid (first_char tok) = true ->
  contains (lstrip s) tok = contains s tok.
Proof.
  intros Ht. induction s as [|c s IH]; [reflexivity|].
  cbn [lstrip]. destruct (isspace c) eqn:Hc; [|reflexivity].
  rewrite IH. cbn [contains].
  now rewrite (startswith_at_space c s tok Hc Ht).
Qed.

Lemma ends_solid_tail (a : ascii) (tok : string) :
  ends_solid (String a tok) = true -> ends_solid tok = true.
Proof. unfold ends_solid. destruct tok; [reflexivity | exact (fun H => H)]. Qed.

Lemma startswith_blank (s : string) :
  rstrip s = EmptyString ->
  forall tok, is_empty tok = false -> ends_solid tok = true ->
  startswith s tok = false.
Proof.
  induction s as [|c s IH]; intros Hs tok Hne Hend.
  - now rewrite startswith_nil, Hne.
  - destruct tok as [|a tok]; [discriminate|].
    cbn [rstrip] in Hs.
    destruct (isspace c) eqn:Hc; [|discriminate].
    destruct (rstrip s) eqn:Hr; [|discriminate].
    cbn [startswith]. destruct tok as [|b tok].
    + unfold ends_solid in Hend. cbn in Hend.
      rewrite (eqb_space_solid a c Hc); [reflexivity|].
      now destruct (isspace a).
    + rewrite (IH eq_refl (String b tok) eq_refl (ends_solid_tail _ _ Hend)).
      apply andb_false_r.
Qed.

Lemma startswith_rstrip (s : string) :
  forall tok, ends_solid tok = true ->
  startswith (rstrip s) tok = startswith s tok.
Proof.
  induction s as [|c s IH]; intros tok Hend; [reflexivity|].
  destruct tok as [|a tok]; [now destruct (rstrip (String c s))|].
  destruct (rstrip (String c s)) eqn:Hr.
  - symmetry. now apply startswith_blank.
  - cbn [rstrip] in Hr.
    destruct (isspace c && is_empty (rstrip s))%bool; [discriminate|].
    injection Hr as <- <-. cbn [startswith].
    now rewrite (IH tok (ends_solid_tail _ _ Hend)).
Qed.

Lemma contains_rstrip (s tok : string) :
  is_empty tok = false -> ends_solid tok = true ->
  contains (rstrip s) tok = contains s tok.
Proof.
  intros Hne Hend. induction s as [|c s IH]; [reflexivity|].
  change (contains (String c s) tok)
    with (startswith (String c s) tok || contains s tok)%bool.
  rewrite <- IH, <- (startswith_rstrip (String c s) tok Hend).
  cbn [rstrip].
  destruct (isspace c && is_empty (rstrip s))%bool eqn:Hb.
  - apply andb_prop in Hb as [_ Hb].
    destruct (rstrip s); [|discriminate].
    destruct tok; [discriminate | reflexivity].
  - reflexivity.
Qed.

(** A non-empty token with non-space ends occurs in the trimmed string
    exactly when it occurs in the string. *)
Lemma contains_strip (s tok : string) :
  solid (first_char tok) = true -> ends_solid tok = true ->
  contains (strip s) tok = contains s tok.
Proof.
  intros Hf Hl. unfold strip.
  rewrite contains_rstrip, contains_lstrip; auto.
  now destruct tok.
Qed.

Lemma select_in_trimmed (q : string) :
  contains (lower (strip q)) "select" = contains (lower q) "select".
Proof. rewrite lower_strip. now apply contains_strip. Qed.

Lemma select_prefix_order (q : string) :
  startswith (lower (strip q)) "select"
  = startswith (strip (lower q)) "select".
Proof. now rewrite lower_strip. Qed.

(** A string that starts with a token contains it. *)
Lemma startswith_contains (s tok : string) :
  startswith s tok = true -> contains s tok = true.
Proof. intros H. destruct s; cbn [contains]; now rewrite H. Qed.

End PyStrFacts.

(** ** Facts shared by both modules *)

Module MonadFacts.

Lemma raises_only_ret {W A} (ok : exn -> Prop) (a : A) :
  raises_only ok (@ret W A a).
Proof. intros w e w' H. discriminate. Qed.

Lemma raises_only_raise {W A} (ok : exn -> Prop) (e : exn) :
  ok e -> raises_only ok (@raise W A e).
Proof. intros He w e' w' H. now injection H as <- _. Qed.

Lemma raises_only_bind {W A B} (ok : exn -> Prop) (m : M W A)
      (k : A -> M W B) :
  raises_only ok m -> (forall a, raises_only ok (k a)) ->
  raises_only ok (bind m k).
Proof.
  intros Hm Hk w e w' H. unfold bind in H.
  destruct (m w) as [[e1|a] w1] eqn:E.
  - injection H as <- _. exact (Hm _ _ _ E).
  - exact (Hk a _ _ _ H).
Qed.

Lemma raises_only_for_each {W A B} (ok : exn -> Prop) (f : A -> M W B)
      (xs : list A) :
  (forall a, raises_only ok (f a)) -> raises_only ok (for_each f xs).
Proof.
  intros Hf. induction xs as [|x xs IH]; cbn [for_each].
  - apply raises_only_ret.
  - apply raises_only_bind; [apply Hf | intros y].
    apply raises_only_bind; [exact IH | intros ys; apply raises_only_ret].
Qed.

Lemma dict_get_set (k k' : string) (v : value) (d : Dict) :
  dict_get k (dict_set k' v d)
  = if String.eqb k k' then Some v else dict_get k d.
Proof.
  induction d as [|[k0 v0] d IH]; cbn [dict_set dict_get].
  - reflexivity.
  - destruct (String.eqb_spec k' k0) as [->|Hne]; cbn [dict_get].
    + now destruct (String.eqb k k0).
    + rewrite IH. destruct (String.eqb_spec k k0) as [->|]; [|reflexivity].
      destruct (String.eqb_spec k0 k'); [congruence | reflexivity].
Qed.

Lemma dict_get_fold (k : string) (r : Row) (d : Dict) :
  dict_get k (fold_left (fun d kv => dict_set (fst kv) (snd kv) d) r d)
  = match row_get k r with
    | Some v => Some v
    | None => dict_get k d
    end.
Proof.
  revert d. induction r as [|[k' v] r IH]; intros d; cbn [fold_left row_get].
  - reflexivity.
  - rewrite IH. destruct (row_get k r); [reflexivity|].
    cbn [fst snd]. rewrite dict_get_set. now destruct (String.eqb k k').
Qed.

(** [dict(r)] maps every column name of the row to its value. *)
Lemma dict_get_dict (k : string) (r : Row) :
  dict_get k (dict r) = row_get k r.
Proof.
  unfold dict. rewrite dict_get_fold. now destruct (row_get k r).
Qed.

End MonadFacts.

(** ** Facts about [mcp_server.py] *)

Module McpFacts.
Section WithDriver.
Context {D : Asyncpg}.
Import McpServer Process.

Lemma keeps_ret {A} (a : A) : keeps (ret a).
Proof. intros w; cbn; auto. Qed.

Lemma keeps_raise {A} (e : exn) : keeps (@raise World A e).
Proof. intros w; cbn; auto. Qed.

Lemma keeps_log (e : event) : keeps (log e).
Proof. intros w; cbn; auto. Qed.

Lemma keeps_call {A} (e : event) (f : Server -> (string + A) * Server) :
  keeps (call e f).
Proof.
  intros w; unfold call; cbn.
  destruct (f (server w)) as [[msg|a] s]; cbn; auto.
Qed.

Lemma keeps_bind {A B} (m : M World A) (k : A -> M World B) :
  keeps m -> (forall a, keeps (k a)) -> keeps (bind m k).
Proof.
  intros Hm Hk w. unfold bind. specialize (Hm w).
  destruct (m w) as [[e|a] w1]; cbn in *; [exact Hm|].
  destruct (Hk a w1) as (H1 & H2 & H3), Hm as (G1 & G2 & G3).
  repeat split; congruence.
Qed.

Lemma keeps_for_each {A B} (f : A -> M World B) (xs : list A) :
  (forall a, keeps (f a)) -> keeps (for_each f xs).
Proof.
  intros Hf. induction xs as [|x xs IH]; cbn [for_each].
  - apply keeps_ret.
  - apply keeps_bind; [apply Hf|]. intros y.
    apply keeps_bind; [exact IH|]. intros ys. apply keeps_ret.
Qed.

Lemma keeps_with_acquire {A} (body : Connection -> M World A) :
  (forall conn, keeps (body conn)) -> keeps (with_acquire body).
Proof.
  intros Hb w. unfold with_acquire.
  destruct (db_pool w) as [p|] eqn:Hp.
  2:{ cbn. rewrite Hp. auto. }
  pose proof (keeps_call Acquire (pool_acquire p) w) as Hc.
  rewrite Hp in Hc.
  destruct (call Acquire (pool_acquire p) w) as [[e|conn] w1];
    cbn [snd] in *; [exact Hc|].
  pose proof (Hb conn w1) as Hb1.
  destruct (body conn w1) as [r w2]; cbn in *.
  destruct Hb1 as (H1 & H2 & H3), Hc as (G1 & G2 & G3).
  repeat split; congruence.
Qed.

Lemma added_app (w w' : World) (new : list event) :
  trace w' = (trace w ++ new)%list -> added w w' = new.
Proof.
  intros H. unfold added. rewrite H, skipn_app, Nat.sub_diag, skipn_all.
  reflexivity.
Qed.

(** *** [initialize_db_pool] *)

Lemma init_when_ready (w : World) :
  db_pool w <> None -> initialize_db_pool w = (inr tt, w).
Proof.
  intros H. unfold initialize_db_pool.
  destruct (db_pool w); [reflexivity | congruence].
Qed.

(** The three ways [initialize_db_pool] can go from a world without a
    pool, with the world each leaves behind. *)
Lemma init_cases (w : World) :
  db_pool w = None ->
  (exists e, DB_CONFIG (environ w) = inl e
             /\ initialize_db_pool w = (inl e, w))
  \/ (exists cfg msg s,
        DB_CONFIG (environ w) = inr cfg
        /\ create_pool cfg (server w) = (inl msg, s)
        /\ initialize_db_pool w
           = (inl (DriverError msg),
              {| db_pool := None; environ := environ w; server := s;
                 pools := pools w;
                 trace := (trace w ++
                   [CreatePool cfg;
                    Print ("ERROR: Failed to connect to PostgreSQL: " ++ msg)])%list |}))
  \/ (exists cfg p s,
        DB_CONFIG (environ w) = inr cfg
        /\ create_pool cfg (server w) = (inr p, s)
        /\ initialize_db_pool w
           = (inr tt,
              {| db_pool := Some p; environ := environ w; server := s;
                 pools := (pools w ++ [p])%list;
                 trace := (trace w ++
                   [CreatePool cfg;
                    Print "INFO: PostgreSQL Connection Pool initialized successfully."])%list |})).
Proof.
  intros Hn. unfold initialize_db_pool. rewrite Hn.
  destruct (DB_CONFIG (environ w)) as [e|cfg]; [left; eauto|].
  right. unfold call; cbn.
  destruct (create_pool cfg (server w)) as [[msg|p] s] eqn:Hc; cbn.
  - left. exists cfg, msg, s. rewrite Hn. repeat split; trivial.
    unfold raise. do 2 f_equal. symmetry. apply (app_assoc _ [_] [_]).
  - right. exists cfg, p, s. repeat split; trivial.
    unfold log, set_db_pool, set_server; cbn.
    do 2 f_equal. symmetry. apply (app_assoc _ [_] [_]).
Qed.

Lemma init_success (w w1 : World) (u : unit) :
  initialize_db_pool w = (inr u, w1) -> db_pool w1 <> None.
Proof.
  intros H. destruct (db_pool w) as [p|] eqn:Hp.
  - rewrite init_when_ready in H by congruence.
    injection H as _ <-. congruence.
  - destruct (init_cases w Hp) as [(e & _ & E) | [(c & m & s & _ & _ & E)
                                 | (c & p & s & _ & _ & E)]];
      rewrite E in H; try discriminate.
    injection H as _ <-. discriminate.
Qed.

Lemma init_failure (w w1 : World) (e : exn) :
  initialize_db_pool w = (inl e, w1) ->
  db_pool w = None /\ db_pool w1 = None /\ pools w1 = pools w
  /\ environ w1 = environ w.
Proof.
  intros H. destruct (db_pool w) as [p|] eqn:Hp.
  - rewrite init_when_ready in H by congruence. discriminate.
  - destruct (init_cases w Hp) as [(e' & _ & E) | [(c & m & s & _ & _ & E)
                                 | (c & p & s & _ & _ & E)]];
      rewrite E in H; try discriminate; injection H as _ <-; auto.
Qed.

(** Whatever [initialize_db_pool] logs is a pool creation or a print. *)
Lemma init_startup_only (w : World) :
  exists new, trace (snd (initialize_db_pool w)) = (trace w ++ new)%list
              /\ forallb startup_event new = true.
Proof.
  destruct (db_pool w) as [p|] eqn:Hp.
  - rewrite init_when_ready by congruence. exists []. cbn.
    now rewrite app_nil_r.
  - destruct (init_cases w Hp) as [(e' & _ & E) | [(c & m & s & _ & _ & E)
                                 | (c & p & s & _ & _ & E)]]; rewrite E; cbn.
    + exists []. now rewrite app_nil_r.
    + eexists; split; [reflexivity | reflexivity].
    + eexists; split; [reflexivity | reflexivity].
Qed.



Lemma after_init_failure {A} (rest : M World A) (w w1 : World) (e : exn) :
  initialize_db_pool w = (inl e, w1) ->
  (initialize_db_pool ;; rest) w = (inl e, w1).
Proof. intros H. unfold bind. now rewrite H. Qed.

Lemma after_init_ready {A} (rest : M World A) (w : World) :
  db_pool w <> None -> (initialize_db_pool ;; rest) w = rest w.
Proof. intros H. unfold bind. now rewrite init_when_ready. Qed.

Lemma after_init_raise {A} (e : exn) (w : World) :
  (initialize_db_pool ;; @raise World A e) w
  = match initialize_db_pool w with
    | (inl e', w1) => (inl e', w1)
    | (inr _, w1) => (inl e, w1)
    end.
Proof. unfold bind. now destruct (initialize_db_pool w) as [[e'|u] w1]. Qed.

Lemma after_init_raise_startup {A} (e : exn) (w : World) :
  forallb startup_event
    (added w (snd ((initialize_db_pool ;; @raise World A e) w))) = true.
Proof.
  rewrite after_init_raise.
  destruct (init_startup_only w) as (new & Ht & Hs).
  destruct (initialize_db_pool w) as [[e'|u] w1]; cbn [snd] in *;
    now rewrite (added_app _ _ _ Ht).
Qed.

(** *** What the tools do once a pool and a connection are to hand *)

Lemma run_select_admits (query : string) (w : World) (p : Pool)
      (conn : Connection) (s1 : Server) :
  db_pool w = Some p ->
  pool_acquire p (server w) = (inr conn, s1) ->
  PyStr.contains (PyStr.lower query) "select" = true ->
  trace (snd (run_select query w))
    = (trace w ++ [Acquire; Fetch query []; Release])%list
  /\ fst (run_select query w)
     = match fst (conn_fetch conn query [] s1) with
       | inl msg => inl (DriverError msg)
       | inr records => inr (map dict records)
       end
  /\ server (snd (run_select query w))
     = pool_release p conn (snd (conn_fetch conn query [] s1)).
Proof.
  intros Hp Ha Hs. unfold run_select.
  rewrite after_init_ready by congruence.
  rewrite PyStrFacts.select_in_trimmed, Hs. cbn [negb].
  unfold with_acquire, fetch, call, bind, log, set_server, ret.
  rewrite Hp. cbn [server trace db_pool environ pools fst snd].
  rewrite Ha. cbn [server trace db_pool environ pools fst snd].
  destruct (conn_fetch conn query [] s1) as [[msg|records] s2];
    cbn [server trace db_pool environ pools fst snd];
    rewrite <- !app_assoc; auto.
Qed.

Lemma run_select_refuses (query : string) (w : World) :
  PyStr.contains (PyStr.lower query) "select" = false ->
  run_select query w
  = (initialize_db_pool ;;
     raise (ValueError "Only SELECT queries allowed for data retrieval.")) w.
Proof.
  intros Hs. unfold run_select.
  now rewrite PyStrFacts.select_in_trimmed, Hs.
Qed.

Lemma run_sql_admits (query : string) (w : World) (p : Pool)
      (conn : Connection) (s1 : Server) :
  db_pool w = Some p ->
  pool_acquire p (server w) = (inr conn, s1) ->
  PyStr.any_in blocked (PyStr.lower query) = false ->
  PyStr.startswith (PyStr.lower (PyStr.strip query)) "select" = false ->
  trace (snd (run_sql query w))
    = (trace w ++ [Acquire; Execute query; Release])%list
  /\ fst (run_sql query w)
     = match fst (conn_execute conn query s1) with
       | inl msg => inl (DriverError msg)
       | inr result =>
           match rev (PyStr.split result) with
           | [] => inl (IndexError "list index out of range")
           | x :: _ => inr ("Executed successfully. Rows affected: " ++ x)
           end
       end.
Proof.
  intros Hp Ha Hb Hs. unfold run_sql.
  rewrite after_init_ready by congruence.
  rewrite Hb, Hs.
  unfold with_acquire, execute, call, bind, log, set_server, ret.
  rewrite Hp. cbn [server trace db_pool environ pools fst snd].
  rewrite Ha. cbn [server trace db_pool environ pools fst snd].
  destruct (conn_execute conn query s1) as [[msg|result] s2];
    cbn [server trace db_pool environ pools fst snd].
  - rewrite <- !app_assoc; auto.
  - unfold last_word, raise, ret.
    destruct (rev (PyStr.split result));
      cbn [server trace db_pool environ pools fst snd];
      rewrite <- !app_assoc; auto.
Qed.

Lemma run_sql_blocked (query : string) (w : World) :
  PyStr.any_in blocked (PyStr.lower query) = true ->
  run_sql query w
  = (initialize_db_pool ;; raise (ValueError "DDL commands not allowed.")) w.
Proof. intros Hb. unfold run_sql. now rewrite Hb. Qed.

Lemma run_sql_select (query : string) (w : World) :
  PyStr.any_in blocked (PyStr.lower query) = false ->
  PyStr.startswith (PyStr.lower (PyStr.strip query)) "select" = true ->
  run_sql query w
  = (initialize_db_pool ;;
     raise (ValueError "Use run_select() for SELECT queries.")) w.
Proof. intros Hb Hs. unfold run_sql. now rewrite Hb, Hs. Qed.

(** *** Which exceptions can come from where *)

Lemma raises_only_call {A} (ok : exn -> Prop) (e : event)
      (f : Server -> (string + A) * Server) :
  (forall msg, ok (DriverError msg)) -> raises_only ok (call e f).
Proof.
  intros Hok w e' w' H. unfold call in H. cbn in H.
  destruct (f (server w)) as [[msg|a] s]; [|discriminate].
  injection H as <- _. apply Hok.
Qed.

Lemma raises_only_with_acquire {A} (ok : exn -> Prop)
      (body : Connection -> M World A) :
  (forall msg, ok (DriverError msg)) ->
  (forall msg, ok (AttributeError msg)) ->
  (forall conn, raises_only ok (body conn)) ->
  raises_only ok (with_acquire body).
Proof.
  intros Hd Ha Hb w e w' H. unfold with_acquire in H.
  destruct (db_pool w) as [p|]; [|injection H as <- _; apply Ha].
  destruct (call Acquire (pool_acquire p) w) as [[e1|conn] w1] eqn:E.
  - injection H as <- _. exact (raises_only_call ok _ _ Hd _ _ _ E).
  - destruct (body conn w1) as [[e2|a] w2] eqn:Eb; [|discriminate].
    injection H as <- _. exact (Hb conn _ _ _ Eb).
Qed.

(** [initialize_db_pool] raises the [ValueError] of [int()] or what the
    driver raised, nothing else. *)
Lemma init_raises (w w1 : World) (e : exn) :
  initialize_db_pool w = (inl e, w1) ->
  (exists s, e = invalid_literal s) \/ (exists n, e = too_many_digits n)
  \/ (exists msg, e = DriverError msg).
Proof.
  intros H. destruct (init_failure _ _ _ H) as (Hp & _).
  destruct (init_cases w Hp) as [(e' & Hc & E) | [(c & m & s & _ & _ & E)
                               | (c & p & s & _ & _ & E)]];
    rewrite E in H; try discriminate; injection H as <- _.
  - unfold DB_CONFIG, getenv_int, py_int in Hc.
    destruct (getenv (environ w) "DB_PORT") as [v|]; [|discriminate].
    destruct (PyStr.int v) as [z| |n]; [discriminate| |];
      injection Hc as <-.
    + left. now exists v.
    + right. left. now exists n.
  - right. right. now exists m.
Qed.

Lemma invalid_literal_is_no_mismatch (s msg : string) :
  PyStr.startswith msg "i" = false -> invalid_literal s <> ValueError msg.
Proof.
  intros Hm E. unfold invalid_literal in E. injection E as <-.
  discriminate.
Qed.

Lemma too_many_digits_is_no_mismatch (n : nat) (msg : string) :
  PyStr.startswith msg "E" = false -> too_many_digits n <> ValueError msg.
Proof.
  intros Hm E. unfold too_many_digits in E. injection E as <-.
  discriminate.
Qed.

Lemma run_select_mismatch_iff (query : string) (w : World) :
  (exists w', run_select query w
              = (inl (ValueError "Only SELECT queries allowed for data retrieval."), w'))
  <-> (PyStr.contains (PyStr.lower query) "select" = false
       /\ exists w1, initialize_db_pool w = (inr tt, w1)).
Proof.
  split.
  - intros [w' H]. unfold run_select, bind in H.
    rewrite PyStrFacts.select_in_trimmed in H.
    destruct (initialize_db_pool w) as [[e|[]] w1] eqn:E.
    + injection H as -> _.
      destruct (init_raises _ _ _ E) as [[s Hs]|[[n Hn]|[msg Hm]]];
        [| |discriminate].
      * symmetry in Hs. now apply invalid_literal_is_no_mismatch in Hs.
      * symmetry in Hn. now apply too_many_digits_is_no_mismatch in Hn.
    + destruct (PyStr.contains (PyStr.lower query) "select");
        [|split; eauto]. cbn [negb] in H. exfalso.
      refine (raises_only_with_acquire
                (fun e => e <> ValueError "Only SELECT queries allowed for data retrieval.")
                _ _ _ _ _ _ _ H eq_refl); try discriminate.
      intros conn. apply MonadFacts.raises_only_bind.
      * apply raises_only_call. discriminate.
      * intros. apply MonadFacts.raises_only_ret.
  - intros [Hs [w1 E]]. exists w1.
    rewrite run_select_refuses, after_init_raise by exact Hs.
    now rewrite E.
Qed.

End WithDriver.
End McpFacts.

(** ** Facts about [main.py] *)

Module MainFacts.
Section WithDriver.
Context {P : Psycopg2}.
Import MainPy MonadFacts.

Lemma main_raises_only_call {A} (ok : exn -> Prop) (e : event)
      (f : PgServer -> (string + A) * PgServer) :
  (forall msg, ok (DriverError msg)) -> raises_only ok (call e f).
Proof.
  intros Hok w e' w' H. unfold call in H. cbn in H.
  destruct (f (server w)) as [[msg|a] s]; [|discriminate].
  injection H as <- _. apply Hok.
Qed.

Lemma raises_only_with_conn {A} (ok : exn -> Prop)
      (body : PgConnection -> M World A) :
  (forall msg, ok (DriverError msg)) ->
  (forall conn, raises_only ok (body conn)) ->
  raises_only ok (with_conn body).
Proof.
  intros Hok Hb w e w' H. unfold with_conn, get_conn in H.
  destruct (call (Connect (DB_CONFIG w)) (pg_connect (DB_CONFIG w)) w)
    as [[e1|conn] w1] eqn:E.
  - injection H as <- _. exact (main_raises_only_call ok _ _ Hok _ _ _ E).
  - destruct (body conn w1) as [[e2|a] w2] eqn:Eb.
    + injection H as <- _. exact (Hb conn _ _ _ Eb).
    + revert H. apply raises_only_bind;
        [now apply main_raises_only_call | intros; apply raises_only_ret].
Qed.

Lemma raises_only_fetchall (ok : exn -> Prop) (cur : Cursor) :
  (forall msg, ok (DriverError msg)) -> raises_only ok (fetchall cur).
Proof.
  intros Hok. unfold fetchall. destruct (result_set cur).
  - apply raises_only_ret.
  - apply raises_only_raise, Hok.
Qed.

(** Past its guard, [run_select] raises nothing but driver errors. *)
Lemma select_body_raises (ok : exn -> Prop) (query : string) :
  (forall msg, ok (DriverError msg)) ->
  raises_only ok
    (with_conn (fun conn =>
       cur <- cursor_execute conn query [] ;;
       rows <- fetchall cur ;;
       ret (map dict rows))).
Proof.
  intros Hok. apply raises_only_with_conn; [exact Hok | intros conn].
  apply raises_only_bind; [now apply main_raises_only_call | intros cur].
  apply raises_only_bind; [now apply raises_only_fetchall | intros rows].
  apply raises_only_ret.
Qed.

Lemma main_run_select_refuses (query : string) (m : World) :
  PyStr.contains (PyStr.lower query) "select" = false ->
  run_select query m = (inl (ValueError "Only SELECT queries allowed."), m).
Proof. intros H. unfold run_select. now rewrite H. Qed.

Lemma main_run_select_mismatch_iff (query : string) (m : World) :
  (exists m', run_select query m
              = (inl (ValueError "Only SELECT queries allowed."), m'))
  <-> PyStr.contains (PyStr.lower query) "select" = false.
Proof.
  split.
  - intros [m' H]. destruct (PyStr.contains (PyStr.lower query) "select")
      eqn:Hs; [|reflexivity].
    unfold run_select in H. rewrite Hs in H. cbn [negb] in H.
    assert (Hok : forall msg,
               DriverError msg <> ValueError "Only SELECT queries allowed.")
      by discriminate.
    exfalso.
    exact (select_body_raises
             (fun e => e <> ValueError "Only SELECT queries allowed.")
             query Hok _ _ _ H eq_refl).
  - intros H. exists m. now apply main_run_select_refuses.
Qed.

(** With the server reachable, an admitted statement is sent as given,
    and its rows come back as [dict]s once the commit went through. *)
Lemma main_run_select_admits (query : string) (m : World)
      (conn : PgConnection) (s1 : PgServer) :
  pg_connect (DB_CONFIG m) (server m) = (inr conn, s1) ->
  PyStr.contains (PyStr.lower query) "select" = true ->
  (exists closing,
      trace (snd (run_select query m))
      = (trace m ++ [Connect (DB_CONFIG m); CursorExecute query []; closing])%list
      /\ (closing = Commit \/ closing = Rollback))
  /\ fst (run_select query m)
     = match cur_execute conn query [] s1 with
       | (inl msg, _) => inl (DriverError msg)
       | (inr cur, s2) =>
           match result_set cur with
           | None => inl (DriverError "no results to fetch")
           | Some rows =>
               match fst (pg_commit conn s2) with
               | inl msg => inl (DriverError msg)
               | inr _ => inr (map dict rows)
               end
           end
       end.
Proof.
  intros Hc Hs. unfold run_select. rewrite Hs. cbn [negb].
  unfold with_conn, get_conn, cursor_execute, call, bind, log, set_server, ret.
  cbn [server trace DB_CONFIG fst snd]. rewrite Hc.
  cbn [server trace DB_CONFIG fst snd].
  destruct (cur_execute conn query [] s1) as [[msg|cur] s2];
    cbn [server trace DB_CONFIG fst snd].
  - split; [exists Rollback; split; [now rewrite <- !app_assoc | auto]
           | reflexivity].
  - unfold fetchall, raise, ret. destruct (result_set cur) as [rows|];
      cbn [server trace DB_CONFIG fst snd].
    + destruct (pg_commit conn s2) as [[msg|[]] s3];
        cbn [server trace DB_CONFIG fst snd];
        (split; [exists Commit; split; [now rewrite <- !app_assoc | auto]
                | reflexivity]).
    + split; [exists Rollback; split; [now rewrite <- !app_assoc | auto]
             | reflexivity].
Qed.

Lemma main_run_sql_blocked (query : string) (m : World) :
  PyStr.any_in blocked (PyStr.lower query) = true ->
  run_sql query m = (inl (ValueError "DDL commands not allowed."), m).
Proof. intros H. unfold run_sql. now rewrite H. Qed.

Lemma main_run_sql_select (query : string) (m : World) :
  PyStr.any_in blocked (PyStr.lower query) = false ->
  PyStr.startswith (PyStr.strip (PyStr.lower query)) "select" = true ->
  run_sql query m = (inl (ValueError "Use run_select() for SELECT."), m).
Proof. intros Hb Hs. unfold run_sql. now rewrite Hb, Hs. Qed.

End WithDriver.
End MainFacts.

(** * The statement guards *)

(** C1, as amended.  When the lowercased statement contains "drop",
    "alter", "truncate" or "create", [run_sql] raises
    [ValueError("DDL commands not allowed.")] whatever else the statement
    holds, the starts-with-select test included.  In [main.py] that is the
    first thing it does: the world is left as it was.  In [mcp_server.py]
    [initialize_db_pool] runs first: [run_sql] is then exactly
    "initialise, then raise", so with a pool in place nothing at all
    happens, and without one the only calls made are the creation of the
    pool and a print; no connection is acquired and no statement is sent. *)
Theorem run_sql_rejects_ddl
  (D : Asyncpg) (P : Psycopg2) (w : McpServer.World) (m : MainPy.World)
  (query : string) :
  PyStr.any_in blocked (PyStr.lower query) = true ->
  MainPy.run_sql query m = (inl (ValueError "DDL commands not allowed."), m)
  /\ McpServer.run_sql query w
     = (McpServer.initialize_db_pool ;;
        raise (ValueError "DDL commands not allowed.")) w
  /\ (McpServer.db_pool w <> None ->
      McpServer.run_sql query w
      = (inl (ValueError "DDL commands not allowed."), w))
  /\ forallb Process.startup_event
       (Process.added w (snd (McpServer.run_sql query w))) = true.
Proof.
  intros Hb. split; [now apply MainFacts.main_run_sql_blocked|].
  rewrite (McpFacts.run_sql_blocked query w Hb).
  split; [reflexivity|]. split.
  - intros Hp. now rewrite McpFacts.after_init_ready.
  - apply McpFacts.after_init_raise_startup.
Qed.

Lemma run_sql_rejects_ddl_witness :
  PyStr.any_in blocked (PyStr.lower "DROP TABLE users") = true
  /\ @MainPy.run_sql Demo.psycopg2 "DROP TABLE users" Demo.main_world
     = (inl (ValueError "DDL commands not allowed."), Demo.main_world)
  /\ @McpServer.run_sql Demo.asyncpg "DROP TABLE users" Demo.ready
     = (inl (ValueError "DDL commands not allowed."), Demo.ready).
Proof.
  split; [reflexivity|].
  destruct (run_sql_rejects_ddl Demo.asyncpg Demo.psycopg2 Demo.ready
              Demo.main_world "DROP TABLE users" eq_refl) as (Hm & _ & Hr & _).
  split; [exact Hm | apply Hr; discriminate].
Defined.

(** C1 as stated fails in [mcp_server.py]: in a process without a pool the
    rejection comes after the attempt to create one.  With the database
    out of reach the caller gets the driver's error instead of the DDL
    error; with it in reach a pool is opened before the statement is
    turned down. *)
Lemma run_sql_ddl_check_follows_pool_creation :
  PyStr.any_in blocked (PyStr.lower "DROP TABLE users") = true
  /\ fst (@McpServer.run_sql Demo.asyncpg "DROP TABLE users" Demo.offline)
     = inl (DriverError "connection refused")
  /\ fst (@McpServer.run_sql Demo.asyncpg "DROP TABLE users" Demo.offline)
     <> inl (ValueError "DDL commands not allowed.")
  /\ @McpServer.run_sql Demo.asyncpg "DROP TABLE users" Demo.fresh
     = (inl (ValueError "DDL commands not allowed."),
        @McpServer.Build_World Demo.asyncpg (Some 1%nat) Demo.env [] [1%nat]
          [CreatePool Demo.config;
           Print "INFO: PostgreSQL Connection Pool initialized successfully."]).
Proof. repeat split; try reflexivity. discriminate. Qed.

(** C2, as amended.  [run_select] has no forbidden-word test.  A statement
    that contains "drop", "alter", "truncate" or "create" is turned down
    only when its lowercased form lacks "select"; when it contains
    "select" it is admitted and, with a connection to hand, sent to the
    database exactly as given. *)
Theorem run_select_ignores_ddl_words
  (D : Asyncpg) (P : Psycopg2) (w : McpServer.World) (m : MainPy.World)
  (query : string) :
  PyStr.any_in blocked (PyStr.lower query) = true ->
  (PyStr.contains (PyStr.lower query) "select" = false ->
   MainPy.run_select query m
   = (inl (ValueError "Only SELECT queries allowed."), m)
   /\ McpServer.run_select query w
      = (McpServer.initialize_db_pool ;;
         raise (ValueError "Only SELECT queries allowed for data retrieval.")) w)
  /\ (PyStr.contains (PyStr.lower query) "select" = true ->
      (forall p conn s1,
          McpServer.db_pool w = Some p ->
          pool_acquire p (McpServer.server w) = (inr conn, s1) ->
          McpServer.trace (snd (McpServer.run_select query w))
          = (McpServer.trace w ++ [Acquire; Fetch query []; Release])%list)
      /\ (forall conn s1,
             pg_connect (MainPy.DB_CONFIG m) (MainPy.server m) = (inr conn, s1) ->
             exists closing,
               MainPy.trace (snd (MainPy.run_select query m))
               = (MainPy.trace m
                  ++ [Connect (MainPy.DB_CONFIG m); CursorExecute query [];
                      closing])%list)).
Proof.
  intros _. split.
  - intros Hs. split.
    + now apply MainFacts.main_run_select_refuses.
    + now apply McpFacts.run_select_refuses.
  - intros Hs. split.
    + intros p conn s1 Hp Ha.
      now destruct (McpFacts.run_select_admits query w p conn s1 Hp Ha Hs).
    + intros conn s1 Hc.
      destruct (MainFacts.main_run_select_admits query m conn s1 Hc Hs)
        as [(closing & Ht & _) _].
      now exists closing.
Qed.

Lemma run_select_ignores_ddl_words_witness :
  PyStr.any_in blocked (PyStr.lower "SELECT created_at FROM users") = true
  /\ PyStr.contains (PyStr.lower "SELECT created_at FROM users") "select" = true
  /\ McpServer.trace
       (snd (@McpServer.run_select Demo.asyncpg "SELECT created_at FROM users"
               Demo.ready))
     = [Acquire; Fetch "SELECT created_at FROM users" []; Release]
  /\ (PyStr.any_in blocked (PyStr.lower "DROP TABLE users") = true
      /\ PyStr.contains (PyStr.lower "DROP TABLE users") "select" = false
      /\ @MainPy.run_select Demo.psycopg2 "DROP TABLE users" Demo.main_world
         = (inl (ValueError "Only SELECT queries allowed."), Demo.main_world)).
Proof.
  split; [reflexivity|]. split; [reflexivity|]. split.
  - destruct (run_select_ignores_ddl_words Demo.asyncpg Demo.psycopg2
                Demo.ready Demo.main_world "SELECT created_at FROM users"
                eq_refl) as [_ H].
    destruct (H eq_refl) as [Hm _].
    exact (Hm 1%nat 7%nat [] eq_refl eq_refl).
  - split; [reflexivity|]. split; [reflexivity|].
    destruct (run_select_ignores_ddl_words Demo.asyncpg Demo.psycopg2
                Demo.ready Demo.main_world "DROP TABLE users" eq_refl)
      as [H _].
    now destruct (H eq_refl).
Defined.

(** C2 as stated fails: a statement that contains "create" and "select" is
    run by [run_select], in both modules. *)
Lemma run_select_runs_statement_with_ddl_word :
  PyStr.any_in blocked (PyStr.lower "SELECT created_at FROM users") = true
  /\ @McpServer.run_select Demo.asyncpg "SELECT created_at FROM users" Demo.ready
     = (inr (map dict Demo.rows),
        @McpServer.Build_World Demo.asyncpg (Some 1%nat) Demo.env
          ["SELECT created_at FROM users"] [1%nat]
          [Acquire; Fetch "SELECT created_at FROM users" []; Release])
  /\ @MainPy.run_select Demo.psycopg2 "SELECT created_at FROM users"
       Demo.main_world
     = (inr (map dict Demo.rows),
        @MainPy.Build_World Demo.psycopg2 Demo.config
          ["SELECT created_at FROM users"]
          [Connect Demo.config; CursorExecute "SELECT created_at FROM users" [];
           Commit]).
Proof. repeat split. Qed.

(** C3, as amended.  In [main.py], [run_select] raises
    [ValueError("Only SELECT queries allowed.")] if and only if the
    lowercased statement does not contain "select".  In [mcp_server.py]
    [initialize_db_pool] runs before the test, so [run_select] raises its
    [ValueError] if and only if the lowercased statement does not contain
    "select" and the initialisation went through (a failure to create the
    pool is raised instead).  A statement that contains "select" anywhere
    is admitted: with a connection to hand it is sent as given, and the
    rows the driver returns come back in order, each as a [dict] from
    column name to value. *)
Theorem run_select_guard
  (D : Asyncpg) (P : Psycopg2) (w : McpServer.World) (m : MainPy.World)
  (query : string) :
  ((exists m', MainPy.run_select query m
               = (inl (ValueError "Only SELECT queries allowed."), m'))
   <-> PyStr.contains (PyStr.lower query) "select" = false)
  /\ ((exists w', McpServer.run_select query w
                  = (inl (ValueError "Only SELECT queries allowed for data retrieval."), w'))
      <-> (PyStr.contains (PyStr.lower query) "select" = false
           /\ exists w1, McpServer.initialize_db_pool w = (inr tt, w1)))
  /\ (forall p conn s1,
         McpServer.db_pool w = Some p ->
         pool_acquire p (McpServer.server w) = (inr conn, s1) ->
         PyStr.contains (PyStr.lower query) "select" = true ->
         McpServer.trace (snd (McpServer.run_select query w))
         = (McpServer.trace w ++ [Acquire; Fetch query []; Release])%list
         /\ fst (McpServer.run_select query w)
            = match fst (conn_fetch conn query [] s1) with
              | inl msg => inl (DriverError msg)
              | inr records => inr (map dict records)
              end)
  /\ (forall conn s1,
         pg_connect (MainPy.DB_CONFIG m) (MainPy.server m) = (inr conn, s1) ->
         PyStr.contains (PyStr.lower query) "select" = true ->
         fst (MainPy.run_select query m)
         = match cur_execute conn query [] s1 with
           | (inl msg, _) => inl (DriverError msg)
           | (inr cur, s2) =>
               match result_set cur with
               | None => inl (DriverError "no results to fetch")
               | Some rows =>
                   match fst (pg_commit conn s2) with
                   | inl msg => inl (DriverError msg)
                   | inr _ => inr (map dict rows)
                   end
               end
           end)
  /\ (forall (r : Row) (k : string), dict_get k (dict r) = row_get k r).
Proof.
  split; [apply MainFacts.main_run_select_mismatch_iff|].
  split; [apply McpFacts.run_select_mismatch_iff|].
  split; [|split].
  - intros p conn s1 Hp Ha Hs.
    destruct (McpFacts.run_select_admits query w p conn s1 Hp Ha Hs)
      as (Ht & Hr & _). now split.
  - intros conn s1 Hc Hs.
    now destruct (MainFacts.main_run_select_admits query m conn s1 Hc Hs).
  - intros r k. apply MonadFacts.dict_get_dict.
Qed.

Lemma run_select_guard_witness :
  McpServer.db_pool Demo.ready = Some 1%nat
  /\ PyStr.contains (PyStr.lower "  Select id FROM orders") "select" = true
  /\ McpServer.trace
       (snd (@McpServer.run_select Demo.asyncpg "  Select id FROM orders"
               Demo.ready))
     = [Acquire; Fetch "  Select id FROM orders" []; Release]
  /\ fst (@McpServer.run_select Demo.asyncpg "  Select id FROM orders"
            Demo.ready)
     = inr (map dict Demo.rows)
  /\ fst (@MainPy.run_select Demo.psycopg2 "  Select id FROM orders"
            Demo.main_world)
     = inr (map dict Demo.rows)
  /\ (exists m', @MainPy.run_select Demo.psycopg2 "DELETE FROM orders"
                   Demo.main_world
                 = (inl (ValueError "Only SELECT queries allowed."), m')).
Proof.
  split; [reflexivity|]. split; [reflexivity|].
  destruct (run_select_guard Demo.asyncpg Demo.psycopg2 Demo.ready
              Demo.main_world "  Select id FROM orders")
    as (_ & _ & Hmcp & Hmain & _).
  destruct (Hmcp 1%nat 7%nat [] eq_refl eq_refl eq_refl) as [Ht Hr].
  split; [exact Ht|]. split; [exact Hr|].
  split; [exact (Hmain 3%nat [] eq_refl eq_refl)|].
  destruct (run_select_guard Demo.asyncpg Demo.psycopg2 Demo.ready
              Demo.main_world "DELETE FROM orders") as ([_ H] & _).
  exact (H eq_refl).
Defined.

(** C3 as stated fails in [mcp_server.py]: a statement without "select",
    sent to a process that has no pool and cannot reach the database, is
    turned down with the driver's error, not with the [ValueError] of the
    guard. *)
Lemma run_select_without_pool_raises_driver_error :
  PyStr.contains (PyStr.lower "DELETE FROM orders") "select" = false
  /\ @McpServer.run_select Demo.asyncpg "DELETE FROM orders" Demo.offline
     = (inl (DriverError "connection refused"),
        @McpServer.Build_World Demo.asyncpg None [] [] []
          [CreatePool {| host := None; port := 5432; database := None;
                         user := None; password := None |};
           Print "ERROR: Failed to connect to PostgreSQL: connection refused"])
  /\ ~ (exists w', @McpServer.run_select Demo.asyncpg "DELETE FROM orders"
                     Demo.offline
                   = (inl (ValueError "Only SELECT queries allowed for data retrieval."), w')).
Proof.
  split; [reflexivity|]. split; [reflexivity|].
  intros [w' H]. discriminate H.
Qed.

(** C4, as amended.  A statement with none of the four DDL words whose
    trimmed, lowercased form starts with "select" is never executed by
    [run_sql].  In [main.py] the call raises
    [ValueError("Use run_select() for SELECT.")] and leaves the world as
    it was.  In [mcp_server.py] the call is exactly "initialise the pool,
    then raise [ValueError("Use run_select() for SELECT queries.")]": with
    a pool in place that error is raised and nothing else happens, and
    without one the only calls made are the creation of the pool and a
    print. *)
Theorem run_sql_redirects_select
  (D : Asyncpg) (P : Psycopg2) (w : McpServer.World) (m : MainPy.World)
  (query : string) :
  PyStr.any_in blocked (PyStr.lower query) = false ->
  PyStr.startswith (PyStr.strip (PyStr.lower query)) "select" = true ->
  MainPy.run_sql query m
  = (inl (ValueError "Use run_select() for SELECT."), m)
  /\ McpServer.run_sql query w
     = (McpServer.initialize_db_pool ;;
        raise (ValueError "Use run_select() for SELECT queries.")) w
  /\ (McpServer.db_pool w <> None ->
      McpServer.run_sql query w
      = (inl (ValueError "Use run_select() for SELECT queries."), w))
  /\ forallb Process.startup_event
       (Process.added w (snd (McpServer.run_sql query w))) = true.
Proof.
  intros Hb Hs. split; [now apply MainFacts.main_run_sql_select|].
  rewrite (McpFacts.run_sql_select query w Hb)
    by now rewrite PyStrFacts.select_prefix_order.
  split; [reflexivity|]. split.
  - intros Hp. now rewrite McpFacts.after_init_ready.
  - apply McpFacts.after_init_raise_startup.
Qed.

Lemma run_sql_redirects_select_witness :
  PyStr.any_in blocked (PyStr.lower "  SELECT id FROM orders") = false
  /\ PyStr.startswith (PyStr.strip (PyStr.lower "  SELECT id FROM orders"))
       "select" = true
  /\ @MainPy.run_sql Demo.psycopg2 "  SELECT id FROM orders" Demo.main_world
     = (inl (ValueError "Use run_select() for SELECT."), Demo.main_world)
  /\ @McpServer.run_sql Demo.asyncpg "  SELECT id FROM orders" Demo.ready
     = (inl (ValueError "Use run_select() for SELECT queries."), Demo.ready).
Proof.
  split; [reflexivity|]. split; [reflexivity|].
  destruct (run_sql_redirects_select Demo.asyncpg Demo.psycopg2 Demo.ready
              Demo.main_world "  SELECT id FROM orders" eq_refl eq_refl)
    as (Hm & _ & Hr & _).
  split; [exact Hm | apply Hr; discriminate].
Defined.

(** C4 as stated fails in [mcp_server.py]: without a pool and with the
    database out of reach, [run_sql] on a SELECT raises the driver's error,
    not the [ValueError] that points to [run_select]. *)
Lemma run_sql_select_without_pool_raises_driver_error :
  PyStr.any_in blocked (PyStr.lower "select 1") = false
  /\ PyStr.startswith (PyStr.strip (PyStr.lower "select 1")) "select" = true
  /\ fst (@McpServer.run_sql Demo.asyncpg "select 1" Demo.offline)
     = inl (DriverError "connection refused")
  /\ fst (@McpServer.run_sql Demo.asyncpg "select 1" Demo.offline)
     <> inl (ValueError "Use run_select() for SELECT queries.").
Proof. repeat split; try reflexivity. discriminate. Qed.

(** C5.  The statement
    [UPDATE t SET note = 'please select carefully'] has "select" in it but
    not at its trimmed start, and none of the four DDL words.  With a pool
    and a connection to hand, [run_sql] executes it as a write and
    [run_select] sends the very same text as a read: both guards admit
    it. *)
Theorem guards_overlap
  (D : Asyncpg) (w : McpServer.World) (p : Pool) (conn : Connection)
  (s1 : Server) :
  McpServer.db_pool w = Some p ->
  pool_acquire p (McpServer.server w) = (inr conn, s1) ->
  PyStr.contains (PyStr.lower Demo.overlap_query) "select" = true
  /\ PyStr.startswith (PyStr.lower (PyStr.strip Demo.overlap_query)) "select"
     = false
  /\ PyStr.any_in blocked (PyStr.lower Demo.overlap_query) = false
  /\ McpServer.trace (snd (McpServer.run_sql Demo.overlap_query w))
     = (McpServer.trace w ++ [Acquire; Execute Demo.overlap_query; Release])%list
  /\ McpServer.trace (snd (McpServer.run_select Demo.overlap_query w))
     = (McpServer.trace w ++ [Acquire; Fetch Demo.overlap_query []; Release])%list.
Proof.
  intros Hp Ha. split; [reflexivity|]. split; [reflexivity|].
  split; [reflexivity|]. split.
  - now destruct (McpFacts.run_sql_admits Demo.overlap_query w p conn s1 Hp Ha
                    eq_refl eq_refl).
  - now destruct (McpFacts.run_select_admits Demo.overlap_query w p conn s1
                    Hp Ha eq_refl).
Qed.

Lemma guards_overlap_witness :
  McpServer.db_pool Demo.ready = Some 1%nat
  /\ Demo.overlap_query = "UPDATE t SET note = 'please select carefully'"
  /\ McpServer.trace
       (snd (@McpServer.run_sql Demo.asyncpg Demo.overlap_query Demo.ready))
     = [Acquire; Execute "UPDATE t SET note = 'please select carefully'";
        Release]
  /\ McpServer.trace
       (snd (@McpServer.run_select Demo.asyncpg Demo.overlap_query Demo.ready))
     = [Acquire; Fetch "UPDATE t SET note = 'please select carefully'" [];
        Release].
Proof.
  split; [reflexivity|]. split; [reflexivity|].
  destruct (guards_overlap Demo.asyncpg Demo.ready 1%nat 7%nat []
              eq_refl eq_refl) as (_ & _ & _ & Hw & Hr).
  split; [exact Hw | exact Hr].
Defined.

(** * The pool *)

Module PoolFacts.
Section WithDriver.
Context {D : Asyncpg}.
Import McpServer Process McpFacts.

(** Every call is [initialize_db_pool] followed by code that leaves
    [db_pool] alone. *)
Lemma tool_shape (o : op) :
  exists (A : Type) (rest : M World A),
    keeps rest
    /\ forall w, step o w = snd ((initialize_db_pool ;; rest) w).
Proof.
  destruct o as [| |t|q|q|t].
  - exists unit, (ret tt). split; [apply keeps_ret|].
    intros w. cbn [step]. unfold bind.
    now destruct (initialize_db_pool w) as [[e|[]] w1].
  - eexists _, _. split; [|intros w; reflexivity].
    apply keeps_with_acquire; intros conn.
    apply keeps_bind; [apply keeps_call | intros records].
    apply keeps_for_each. intros [|[k v] r];
      [apply keeps_raise | apply keeps_ret].
  - eexists _, _. split; [|intros w; reflexivity].
    apply keeps_with_acquire; intros conn.
    apply keeps_bind; [apply keeps_call | intros; apply keeps_ret].
  - eexists _, _. split; [|intros w; reflexivity].
    destruct (negb _); [apply keeps_raise|].
    apply keeps_with_acquire; intros conn.
    apply keeps_bind; [apply keeps_call | intros; apply keeps_ret].
  - eexists _, _. split; [|intros w; reflexivity].
    destruct (PyStr.any_in _ _); [apply keeps_raise|].
    destruct (PyStr.startswith _ _); [apply keeps_raise|].
    apply keeps_with_acquire; intros conn.
    apply keeps_bind; [apply keeps_call | intros result].
    apply keeps_bind; [|intros; apply keeps_ret].
    unfold last_word. destruct (rev _);
      [apply keeps_raise | apply keeps_ret].
  - eexists _, _. split; [|intros w; reflexivity].
    apply keeps_with_acquire; intros conn.
    apply keeps_bind; [apply keeps_call | intros; apply keeps_ret].
Qed.


Lemma step_keeps_pool (o : op) (w : World) (p : Pool) :
  db_pool w = Some p ->
  db_pool (step o w) = Some p /\ pools (step o w) = pools w.
Proof.
  intros Hp. destruct (tool_shape o) as (A & rest & Hk & ->).
  rewrite after_init_ready by congruence.
  destruct (Hk w) as (H1 & H2 & _). split; congruence.
Qed.

Lemma step_init_failure (o : op) (w w1 : World) (e : exn) :
  initialize_db_pool w = (inl e, w1) -> step o w = w1.
Proof.
  intros H. destruct (tool_shape o) as (A & rest & Hk & ->).
  now rewrite (after_init_failure rest w w1 e H).
Qed.



End WithDriver.
End PoolFacts.

Module OverlapFacts.
Section WithDriver.
Context {D : Asyncpg}.
Import McpServer Process Overlap.









End WithDriver.
End OverlapFacts.




(** * Start-up and the bearer check *)

Module AppFacts.
Section WithDriver.
Context {D : Asyncpg}.
Import McpServer Process McpFacts App.

Lemma startup_event_excludes (new : list event) (e : event) :
  forallb startup_event new = true -> startup_event e = false ->
  ~ In e new.
Proof.
  intros Hall He Hin. rewrite forallb_forall in Hall.
  specialize (Hall e Hin). congruence.
Qed.

Lemma added_refl (w : World) : added w w = [].
Proof. unfold added. apply skipn_all. Qed.

(** [start_server], case by case. *)
Lemma start_server_cases (w : World) :
  start_server w
  = match initialize_db_pool w with
    | (inl e, w1) => (inl e, w1)
    | (inr _, w1) =>
        match getenv_int (environ w1) "PORT" 8080 with
        | inl e => (inl e, w1)
        | inr listen =>
            (inr tt,
             {| db_pool := db_pool w1; environ := environ w1;
                server := server w1; pools := pools w1;
                trace := (trace w1 ++
                  [NewTransport listen;
                   Print ("INFO: Starting secured Render-Postgres-Assistant on port "
                          ++ PyStr.str_of_int listen ++ "...");
                   Serve listen])%list |})
        end
    end.
Proof.
  unfold start_server, bind.
  destruct (initialize_db_pool w) as [[e|u] w1]; [reflexivity|].
  destruct (getenv_int (environ w1) "PORT" 8080) as [e|listen];
    [reflexivity|].
  unfold log. cbn [db_pool environ server pools trace].
  do 2 f_equal. now rewrite <- !app_assoc.
Qed.

Lemma check_auth_cases (credentials : string) (w : World) :
  match getenv (environ w) "MCP_API_KEY" with
  | None | Some EmptyString =>
      fst (check_auth credentials w)
      = inl (HTTPException 500
               "Server Misconfiguration: Authentication key missing." [])
      /\ added w (snd (check_auth credentials w))
         = [Print "SECURITY ERROR: MCP_API_KEY is not set in environment variables!"]
  | Some k =>
      check_auth credentials w
      = (if String.eqb credentials k
         then inr true
         else inl (HTTPException 401
                     "Unauthorized access. Invalid MCP_API_KEY."
                     [("WWW-Authenticate", "Bearer")]), w)
  end.
Proof.
  unfold check_auth.
  destruct (getenv (environ w) "MCP_API_KEY") as [[|c k]|].
  - split; [reflexivity | now apply added_app].
  - now destruct (String.eqb credentials (String c k)).
  - split; [reflexivity | now apply added_app].
Qed.

End WithDriver.
End AppFacts.

(** C7.  [start_server] runs [initialize_db_pool] to its end before
    anything else.  If that raises, [start_server] raises the same
    exception in the same world, having created no transport and started
    no server.  Whenever [start_server] does start the HTTP server, the
    initialisation had succeeded, a pool is in place, and the transport
    and the server come after everything the initialisation logged. *)
Theorem server_starts_after_pool (D : Asyncpg) (w : McpServer.World) :
  (forall e w1,
      McpServer.initialize_db_pool w = (inl e, w1) ->
      App.start_server w = (inl e, w1)
      /\ McpServer.db_pool w1 = None
      /\ forall listen,
           ~ In (Serve listen) (Process.added w w1)
           /\ ~ In (NewTransport listen) (Process.added w w1))
  /\ (forall listen,
         In (Serve listen) (Process.added w (snd (App.start_server w))) ->
         exists w1,
           McpServer.initialize_db_pool w = (inr tt, w1)
           /\ McpServer.db_pool w1 <> None
           /\ McpServer.db_pool (snd (App.start_server w)) = McpServer.db_pool w1
           /\ McpServer.trace (snd (App.start_server w))
              = (McpServer.trace w1 ++
                   [NewTransport listen;
                    Print ("INFO: Starting secured Render-Postgres-Assistant on port "
                           ++ PyStr.str_of_int listen ++ "...");
                    Serve listen])%list).
Proof.
  destruct (McpFacts.init_startup_only w) as (new & Ht & Hs).
  split.
  - intros e w1 H. rewrite AppFacts.start_server_cases, H.
    split; [reflexivity|].
    split; [now destruct (McpFacts.init_failure _ _ _ H) as (_ & ? & _)|].
    rewrite H in Ht. cbn [snd] in Ht.
    rewrite (McpFacts.added_app _ _ _ Ht).
    intros listen.
    split; now apply AppFacts.startup_event_excludes.
  - intros listen. rewrite AppFacts.start_server_cases.
    destruct (McpServer.initialize_db_pool w) as [[e|[]] w1] eqn:E;
      cbn [snd] in Ht.
    + cbn [snd]. rewrite (McpFacts.added_app _ _ _ Ht). intros Hin.
      now apply AppFacts.startup_event_excludes in Hin.
    + destruct (getenv_int (McpServer.environ w1) "PORT" 8080) as [e|l];
        cbn [snd].
      * rewrite (McpFacts.added_app _ _ _ Ht). intros Hin.
        now apply AppFacts.startup_event_excludes in Hin.
      * cbn [McpServer.trace McpServer.db_pool].
        rewrite (McpFacts.added_app _ _ (new ++ [NewTransport l; Print _; Serve l]))
          by (cbn [McpServer.trace]; now rewrite Ht, <- app_assoc).
        intros Hin. apply in_app_or in Hin as [Hin|Hin].
        { now apply (AppFacts.startup_event_excludes _ _ Hs) in Hin. }
        assert (l = listen) as ->.
        { cbn in Hin. destruct Hin as [Hin|[Hin|[Hin|[]]]];
            try discriminate. now injection Hin. }
        exists w1. split; [reflexivity|].
        split; [exact (McpFacts.init_success _ _ _ E) | now split].
Qed.

Lemma server_starts_after_pool_witness :
  @McpServer.initialize_db_pool Demo.asyncpg Demo.offline
  = (inl (DriverError "connection refused"),
     snd (@McpServer.initialize_db_pool Demo.asyncpg Demo.offline))
  /\ fst (@App.start_server Demo.asyncpg Demo.offline)
     = inl (DriverError "connection refused")
  /\ In (Serve 10000)
       (Process.added Demo.fresh (snd (@App.start_server Demo.asyncpg Demo.fresh)))
  /\ McpServer.db_pool (snd (@App.start_server Demo.asyncpg Demo.fresh))
     = Some 1%nat.
Proof.
  split; [reflexivity|].
  destruct (server_starts_after_pool Demo.asyncpg Demo.offline) as [Hfail _].
  destruct (Hfail _ _ eq_refl) as (Hs & _).
  split; [now rewrite Hs|].
  assert (Hin : In (Serve 10000)
                  (Process.added Demo.fresh
                     (snd (@App.start_server Demo.asyncpg Demo.fresh))))
    by (vm_compute; tauto).
  split; [exact Hin|].
  destruct (server_starts_after_pool Demo.asyncpg Demo.fresh) as [_ Hok].
  destruct (Hok 10000%Z Hin) as (w1 & Hi & _ & Hp & _).
  rewrite Hp. injection Hi as <-. reflexivity.
Defined.

(** C8.  [check_auth] raises [HTTPException] 500 when [MCP_API_KEY] is
    unset or empty.  With a key configured it raises 401 with the header
    [WWW-Authenticate: Bearer] when the presented credentials differ from
    the key, and returns [True], changing nothing, when they are equal; so
    it succeeds exactly when a key is configured and the credentials equal
    it.  The body of the protected endpoint runs only for a request whose
    credentials passed the scheme and equal the configured key. *)
Theorem check_auth_outcomes
  (D : Asyncpg) (w : McpServer.World) (credentials : string) :
  ((getenv (McpServer.environ w) "MCP_API_KEY" = None
    \/ getenv (McpServer.environ w) "MCP_API_KEY" = Some "") ->
   fst (App.check_auth credentials w)
   = inl (HTTPException 500
            "Server Misconfiguration: Authentication key missing." []))
  /\ (forall k,
         getenv (McpServer.environ w) "MCP_API_KEY" = Some k -> k <> "" ->
         (credentials <> k ->
          App.check_auth credentials w
          = (inl (HTTPException 401 "Unauthorized access. Invalid MCP_API_KEY."
                    [("WWW-Authenticate", "Bearer")]), w))
         /\ (credentials = k -> App.check_auth credentials w = (inr true, w)))
  /\ ((exists b, fst (App.check_auth credentials w) = inr b)
      <-> exists k, getenv (McpServer.environ w) "MCP_API_KEY" = Some k
                    /\ k <> "" /\ credentials = k)
  /\ (forall security authorization,
         In HandleRequest
            (Process.added w
               (snd (App.protected_mcp_endpoint security authorization w))) ->
         exists k, security authorization = inr k
                   /\ getenv (McpServer.environ w) "MCP_API_KEY" = Some k
                   /\ k <> "").
Proof.
  pose proof (AppFacts.check_auth_cases credentials w) as Hc.
  split; [|split; [|split]].
  - intros [Hk|Hk]; rewrite Hk in Hc; now destruct Hc.
  - intros k Hk Hne. rewrite Hk in Hc. destruct k as [|c k]; [congruence|].
    split; intros H.
    + rewrite Hc. now destruct (String.eqb_spec credentials (String c k)).
    + rewrite Hc, H, String.eqb_refl. reflexivity.
  - split.
    + intros [b Hb].
      destruct (getenv (McpServer.environ w) "MCP_API_KEY") as [[|c k]|].
      * destruct Hc as [Hc _]. congruence.
      * exists (String c k). split; [reflexivity|]. split; [discriminate|].
        rewrite Hc in Hb. cbn [fst] in Hb.
        destruct (String.eqb_spec credentials (String c k)); [assumption|].
        discriminate.
      * destruct Hc as [Hc _]. congruence.
    + intros (k & Hk & Hne & ->). rewrite Hk in Hc.
      destruct k as [|c k]; [congruence|].
      exists true. now rewrite Hc, String.eqb_refl.
  - intros security authorization.
    unfold App.protected_mcp_endpoint, bind, McpServer.liftE.
    destruct (security authorization) as [e|cred] eqn:Hsec;
      [rewrite AppFacts.added_refl; intros []|].
    pose proof (AppFacts.check_auth_cases cred w) as Hk.
    destruct (getenv (McpServer.environ w) "MCP_API_KEY") as [[|c k]|].
    + destruct Hk as [Hf Ha].
      destruct (App.check_auth cred w) as [[e|b] w1]; [|discriminate].
      cbn [snd] in *. rewrite Ha. intros [Hin|[]]. discriminate.
    + rewrite Hk. destruct (String.eqb_spec cred (String c k)) as [Heq|Hne].
      * intros _. exists (String c k). rewrite <- Heq. repeat split.
        rewrite Heq. discriminate.
      * cbn [snd]. rewrite AppFacts.added_refl. intros [].
    + destruct Hk as [Hf Ha].
      destruct (App.check_auth cred w) as [[e|b] w1]; [|discriminate].
      cbn [snd] in *. rewrite Ha. intros [Hin|[]]. discriminate.
Qed.

Lemma check_auth_outcomes_witness :
  getenv (McpServer.environ Demo.ready) "MCP_API_KEY" = Some "s3cret"
  /\ @App.check_auth Demo.asyncpg "s3cret" Demo.ready = (inr true, Demo.ready)
  /\ @App.check_auth Demo.asyncpg "guess" Demo.ready
     = (inl (HTTPException 401 "Unauthorized access. Invalid MCP_API_KEY."
               [("WWW-Authenticate", "Bearer")]), Demo.ready)
  /\ (getenv (McpServer.environ Demo.offline) "MCP_API_KEY" = None
      /\ fst (@App.check_auth Demo.asyncpg "s3cret" Demo.offline)
         = inl (HTTPException 500
                  "Server Misconfiguration: Authentication key missing." []))
  /\ (In HandleRequest
        (Process.added Demo.ready
           (snd (@App.protected_mcp_endpoint Demo.asyncpg Demo.bearer
                   (Some "Bearer s3cret") Demo.ready)))
      /\ exists k, Demo.bearer (Some "Bearer s3cret") = inr k
                   /\ getenv (McpServer.environ Demo.ready) "MCP_API_KEY" = Some k).
Proof.
  split; [reflexivity|].
  destruct (check_auth_outcomes Demo.asyncpg Demo.ready "s3cret")
    as (_ & Hkey & _ & Hreq).
  split; [apply (Hkey "s3cret" eq_refl); [discriminate | reflexivity]|].
  destruct (check_auth_outcomes Demo.asyncpg Demo.ready "guess")
    as (_ & Hbad & _).
  split; [apply (Hbad "s3cret" eq_refl); discriminate|].
  destruct (check_auth_outcomes Demo.asyncpg Demo.offline "s3cret")
    as (Hnone & _).
  split; [split; [reflexivity | apply Hnone; now left]|].
  assert (Hin : In HandleRequest
                  (Process.added Demo.ready
                     (snd (@App.protected_mcp_endpoint Demo.asyncpg Demo.bearer
                             (Some "Bearer s3cret") Demo.ready))))
    by (vm_compute; tauto).
  split; [exact Hin|].
  destruct (Hreq Demo.bearer (Some "Bearer s3cret") Hin) as (k & Hb & Hk & _).
  now exists k.
Defined.

(** * The preview *)

Module PreviewFacts.
Section WithDrivers.
Context {D : Asyncpg} {P : Psycopg2}.

Lemma preview_query_has_select (table : string) :
  PyStr.contains (PyStr.lower (McpServer.preview_query table)) "select"
  = true.
Proof. reflexivity. Qed.

(** Past the guard, [preview_table] is [run_select] on the text it
    builds. *)
Lemma mcp_preview_as_select (table : string) (w : McpServer.World) :
  McpServer.preview_table table w
  = McpServer.run_select (McpServer.preview_query table) w.
Proof.
  unfold McpServer.preview_table, McpServer.run_select.
  now rewrite PyStrFacts.select_in_trimmed, preview_query_has_select.
Qed.

Lemma main_preview_as_select (table : string) (m : MainPy.World) :
  MainPy.preview_table table m
  = MainPy.run_select (MainPy.preview_query table) m.
Proof.
  unfold MainPy.preview_table, MainPy.run_select.
  change (MainPy.preview_query table) with (McpServer.preview_query table).
  now rewrite preview_query_has_select.
Qed.

(** All that [run_select] can add to the log: what the initialisation
    logs, then nothing, or a failed acquisition, or the acquisition, the
    statement as given and the release. *)
Lemma run_select_log (query : string) (w : McpServer.World) :
  exists new extra,
    McpServer.trace (snd (McpServer.run_select query w))
    = (McpServer.trace w ++ new ++ extra)%list
    /\ forallb Process.startup_event new = true
    /\ (extra = [] \/ extra = [Acquire]
        \/ extra = [Acquire; Fetch query []; Release]).
Proof.
  destruct (McpFacts.init_startup_only w) as (new & Ht & Hs).
  exists new. unfold McpServer.run_select, bind.
  destruct (McpServer.initialize_db_pool w) as [[e|u] w1]; cbn [snd] in Ht.
  { exists []. cbn [snd]. rewrite app_nil_r. auto. }
  destruct (negb _).
  { exists []. cbn [snd]. rewrite app_nil_r. auto. }
  unfold McpServer.with_acquire.
  destruct (McpServer.db_pool w1) as [p|].
  2:{ exists []. cbn [snd]. rewrite app_nil_r. auto. }
  unfold McpServer.fetch, McpServer.call, McpServer.log,
    McpServer.set_server, bind, ret.
  cbn [McpServer.server McpServer.trace fst snd].
  destruct (pool_acquire p (McpServer.server w1)) as [[msg|conn] s1];
    cbn [McpServer.server McpServer.trace fst snd].
  { exists [Acquire]. rewrite Ht, <- app_assoc. auto. }
  exists [Acquire; Fetch query []; Release].
  destruct (conn_fetch conn query [] s1) as [[msg|records] s2];
    cbn [McpServer.server McpServer.trace fst snd];
    rewrite Ht, <- !app_assoc; auto.
Qed.

End WithDrivers.
End PreviewFacts.

(** C9.  For every string [table], the only statement [preview_table]
    ever sends is the text ["SELECT * FROM " ++ table ++ " LIMIT 10"], with
    [table] put in as it is and no arguments bound.  With a connection to
    hand it does send it, and returns the rows the driver produced, in
    order, each as a [dict] from column name to value.  No test on
    [table] comes first: the call behaves as [run_select] on that text. *)
Theorem preview_table_interpolates
  (D : Asyncpg) (P : Psycopg2) (w : McpServer.World) (m : MainPy.World)
  (table : string) :
  McpServer.preview_table table w
  = McpServer.run_select ("SELECT * FROM " ++ table ++ " LIMIT 10") w
  /\ MainPy.preview_table table m
     = MainPy.run_select ("SELECT * FROM " ++ table ++ " LIMIT 10") m
  /\ (exists new extra,
         McpServer.trace (snd (McpServer.preview_table table w))
         = (McpServer.trace w ++ new ++ extra)%list
         /\ forallb Process.startup_event new = true
         /\ (extra = [] \/ extra = [Acquire]
             \/ extra = [Acquire;
                         Fetch ("SELECT * FROM " ++ table ++ " LIMIT 10") [];
                         Release]))
  /\ (forall p conn s1,
         McpServer.db_pool w = Some p ->
         pool_acquire p (McpServer.server w) = (inr conn, s1) ->
         McpServer.trace (snd (McpServer.preview_table table w))
         = (McpServer.trace w
            ++ [Acquire; Fetch ("SELECT * FROM " ++ table ++ " LIMIT 10") [];
                Release])%list
         /\ fst (McpServer.preview_table table w)
            = match fst (conn_fetch conn
                           ("SELECT * FROM " ++ table ++ " LIMIT 10") [] s1) with
              | inl msg => inl (DriverError msg)
              | inr records => inr (map dict records)
              end)
  /\ (forall conn s1,
         pg_connect (MainPy.DB_CONFIG m) (MainPy.server m) = (inr conn, s1) ->
         (exists closing,
             MainPy.trace (snd (MainPy.preview_table table m))
             = (MainPy.trace m
                ++ [Connect (MainPy.DB_CONFIG m);
                    CursorExecute ("SELECT * FROM " ++ table ++ " LIMIT 10") [];
                    closing])%list
             /\ (closing = Commit \/ closing = Rollback))
         /\ fst (MainPy.preview_table table m)
            = match cur_execute conn
                      ("SELECT * FROM " ++ table ++ " LIMIT 10") [] s1 with
              | (inl msg, _) => inl (DriverError msg)
              | (inr cur, s2) =>
                  match result_set cur with
                  | None => inl (DriverError "no results to fetch")
                  | Some rows =>
                      match fst (pg_commit conn s2) with
                      | inl msg => inl (DriverError msg)
                      | inr _ => inr (map dict rows)
                      end
                  end
              end).
Proof.
  change ("SELECT * FROM " ++ table ++ " LIMIT 10")
    with (McpServer.preview_query table).
  rewrite PreviewFacts.mcp_preview_as_select,
    PreviewFacts.main_preview_as_select.
  change (MainPy.preview_query table) with (McpServer.preview_query table).
  split; [reflexivity|]. split; [reflexivity|].
  split; [apply PreviewFacts.run_select_log|]. split.
  - intros p conn s1 Hp Ha.
    destruct (McpFacts.run_select_admits (McpServer.preview_query table)
                w p conn s1 Hp Ha (PreviewFacts.preview_query_has_select table))
      as (Ht & Hr & _).
    now split.
  - intros conn s1 Hc.
    exact (MainFacts.main_run_select_admits (McpServer.preview_query table)
             m conn s1 Hc (PreviewFacts.preview_query_has_select table)).
Qed.

Lemma preview_table_interpolates_witness :
  McpServer.db_pool Demo.ready = Some 1%nat
  /\ McpServer.trace
       (snd (@McpServer.preview_table Demo.asyncpg
               "orders; DELETE FROM orders --" Demo.ready))
     = [Acquire;
        Fetch "SELECT * FROM orders; DELETE FROM orders -- LIMIT 10" [];
        Release]
  /\ fst (@McpServer.preview_table Demo.asyncpg
            "orders; DELETE FROM orders --" Demo.ready)
     = inr (map dict Demo.rows)
  /\ fst (@MainPy.preview_table Demo.psycopg2 "orders" Demo.main_world)
     = inr (map dict Demo.rows).
Proof.
  split; [reflexivity|].
  destruct (preview_table_interpolates Demo.asyncpg Demo.psycopg2 Demo.ready
              Demo.main_world "orders; DELETE FROM orders --")
    as (_ & _ & _ & Hmcp & _).
  destruct (Hmcp 1%nat 7%nat [] eq_refl eq_refl) as [Ht Hr].
  split; [exact Ht|]. split; [exact Hr|].
  destruct (preview_table_interpolates Demo.asyncpg Demo.psycopg2 Demo.ready
              Demo.main_world "orders") as (_ & _ & _ & _ & Hmain).
  exact (proj2 (Hmain 3%nat [] eq_refl)).
Defined.

(** * A failed creation *)

(** C10.  Calls are taken one at a time.  When [create_pool] fails inside
    [initialize_db_pool], the driver's exception is the one the caller
    gets, [db_pool] is still [None], no pool has been recorded and the
    environment is as before; whatever makes [initialize_db_pool] raise,
    [db_pool] is [None] afterwards.  The next [initialize_db_pool]
    therefore calls [create_pool] again with the same configuration, and
    a tool called in that state stops at the same failure without
    acquiring anything. *)
Theorem failed_creation_leaves_no_pool
  (D : Asyncpg) (w : McpServer.World) (cfg : DbConfig) (msg : string)
  (s : Server) :
  McpServer.db_pool w = None ->
  McpServer.DB_CONFIG (McpServer.environ w) = inr cfg ->
  create_pool cfg (McpServer.server w) = (inl msg, s) ->
  fst (McpServer.initialize_db_pool w) = inl (DriverError msg)
  /\ McpServer.db_pool (snd (McpServer.initialize_db_pool w)) = None
  /\ McpServer.pools (snd (McpServer.initialize_db_pool w)) = McpServer.pools w
  /\ McpServer.environ (snd (McpServer.initialize_db_pool w))
     = McpServer.environ w
  /\ (exists line,
         McpServer.trace
           (snd (McpServer.initialize_db_pool
                   (snd (McpServer.initialize_db_pool w))))
         = (McpServer.trace (snd (McpServer.initialize_db_pool w))
            ++ [CreatePool cfg; Print line])%list)
  /\ (forall o,
         Process.step o w = snd (McpServer.initialize_db_pool w)
         /\ ~ In Acquire (Process.added w (Process.step o w)))
  /\ (forall e w1,
         McpServer.initialize_db_pool w = (inl e, w1) ->
         McpServer.db_pool w1 = None).
Proof.
  intros Hn Hc Hf.
  destruct (McpServer.initialize_db_pool w) as [r w1] eqn:E.
  assert (Hr : r = inl (DriverError msg) /\ McpServer.db_pool w1 = None
               /\ McpServer.pools w1 = McpServer.pools w
               /\ McpServer.environ w1 = McpServer.environ w
               /\ McpServer.server w1 = s).
  { destruct (McpFacts.init_cases w Hn)
      as [(e & Hc' & _) | [(c & m' & s' & Hc' & Hf' & E')
                          | (c & p & s' & Hc' & Hf' & _)]];
      try congruence.
    rewrite E' in E. injection E as <- <-. cbn.
    rewrite Hc in Hc'. injection Hc' as <-. rewrite Hf in Hf'.
    injection Hf' as <- <-. auto. }
  destruct Hr as (-> & Hp1 & Hpools & Henv & Hsrv). cbn [fst snd].
  split; [reflexivity|]. split; [exact Hp1|]. split; [exact Hpools|].
  split; [exact Henv|]. split; [|split].
  - destruct (McpFacts.init_cases w1 Hp1)
      as [(e & Hc' & _) | [(c & m' & s' & Hc' & _ & E')
                          | (c & p & s' & Hc' & _ & E')]].
    + rewrite Henv in Hc'. congruence.
    + rewrite Henv, Hc in Hc'. injection Hc' as <-. rewrite E'.
      eexists. reflexivity.
    + rewrite Henv, Hc in Hc'. injection Hc' as <-. rewrite E'.
      eexists. reflexivity.
  - intros o. rewrite (PoolFacts.step_init_failure o w w1 _ E).
    split; [reflexivity|].
    destruct (McpFacts.init_startup_only w) as (new & Ht & Hs).
    rewrite E in Ht. cbn [snd] in Ht.
    rewrite (McpFacts.added_app _ _ _ Ht).
    now apply AppFacts.startup_event_excludes.
  - intros e w' H. injection H as _ <-. exact Hp1.
Qed.

Lemma failed_creation_leaves_no_pool_witness :
  McpServer.db_pool Demo.offline = None
  /\ @create_pool Demo.asyncpg
       {| host := None; port := 5432; database := None; user := None;
          password := None |} []
     = (inl "connection refused", [])
  /\ fst (@McpServer.initialize_db_pool Demo.asyncpg Demo.offline)
     = inl (DriverError "connection refused")
  /\ McpServer.db_pool (snd (@McpServer.initialize_db_pool Demo.asyncpg Demo.offline))
     = None
  /\ McpServer.pools (snd (@McpServer.initialize_db_pool Demo.asyncpg Demo.offline))
     = [].
Proof.
  split; [reflexivity|]. split; [reflexivity|].
  destruct (failed_creation_leaves_no_pool Demo.asyncpg Demo.offline
              {| host := None; port := 5432; database := None; user := None;
                 password := None |} "connection refused" []
              eq_refl eq_refl eq_refl) as (Hr & Hp & Hl & _).
  split; [exact Hr|]. split; [exact Hp | exact Hl].
Defined.

(** * What each call sends *)

Module EffectFacts.
Section WithDriver.
Context {D : Asyncpg}.
Import McpServer Process Effects.

Lemma silent_ret {W A} (a : A) : silent (@ret W A a).
Proof. intros w. reflexivity. Qed.

Lemma silent_raise {W A} (e : exn) : silent (@raise W A e).
Proof. intros w. reflexivity. Qed.

Lemma silent_bind {W A B} (m : M W A) (k : A -> M W B) :
  silent m -> (forall a, silent (k a)) -> silent (bind m k).
Proof.
  intros Hm Hk w. unfold bind. specialize (Hm w).
  destruct (m w) as [[e|a] w1]; cbn [snd] in *; [exact Hm|].
  rewrite Hk. exact Hm.
Qed.

Lemma silent_for_each {W A B} (f : A -> M W B) (xs : list A) :
  (forall a, silent (f a)) -> silent (for_each f xs).
Proof.
  intros Hf. induction xs as [|x xs IH]; cbn [for_each].
  - apply silent_ret.
  - apply silent_bind; [apply Hf | intros y].
    apply silent_bind; [exact IH | intros ys; apply silent_ret].
Qed.

Lemma silent_first_value (r : Row) : silent (first_value r).
Proof.
  destruct r as [|[k v] r]; [apply silent_raise | apply silent_ret].
Qed.

Lemma silent_last_word (result : string) : silent (last_word result).
Proof.
  unfold last_word. destruct (rev (PyStr.split result));
    [apply silent_raise | apply silent_ret].
Qed.

(** One driver call under [with_acquire], followed by code that touches
    nothing: what is logged, in each of the three ways it can go. *)
Lemma with_acquire_call {A B} (ev : event)
      (f : Connection -> Server -> (string + A) * Server)
      (k : A -> M World B) (w : World) :
  (forall a, silent (k a)) ->
  match db_pool w with
  | None =>
      trace (snd (with_acquire (fun conn => x <- call ev (f conn) ;; k x) w))
      = trace w
  | Some p =>
      match pool_acquire p (server w) with
      | (inl _, _) =>
          trace (snd (with_acquire (fun conn => x <- call ev (f conn) ;; k x) w))
          = (trace w ++ [Acquire])%list
      | (inr conn, s1) =>
          trace (snd (with_acquire (fun conn => x <- call ev (f conn) ;; k x) w))
          = (trace w ++ [Acquire; ev; Release])%list
          /\ server (snd (with_acquire
                            (fun conn => x <- call ev (f conn) ;; k x) w))
             = pool_release p conn (snd (f conn s1))
      end
  end.
Proof.
  intros Hk. unfold with_acquire.
  destruct (db_pool w) as [p|]; [|reflexivity].
  unfold call, bind, log, set_server.
  cbn [server trace db_pool environ pools fst snd].
  destruct (pool_acquire p (server w)) as [[msg|conn] s1];
    cbn [server trace db_pool environ pools fst snd]; [reflexivity|].
  destruct (f conn s1) as [[msg|a] s2];
    cbn [server trace db_pool environ pools fst snd].
  - rewrite <- !app_assoc. auto.
  - match goal with |- context [k a ?w2] =>
      pose proof (Hk a w2) as Hs; destruct (k a w2) as [r w3] end.
    cbn [snd] in Hs. subst w3.
    cbn [server trace db_pool environ pools fst snd].
    rewrite <- !app_assoc. auto.
Qed.

Lemma sends_with_acquire {A B} (ev : event)
      (f : Connection -> Server -> (string + A) * Server)
      (k : A -> M World B) :
  (forall a, silent (k a)) ->
  sends (Some ev) (with_acquire (fun conn => x <- call ev (f conn) ;; k x)).
Proof.
  intros Hk w. pose proof (with_acquire_call ev f k w Hk) as H.
  destruct (db_pool w) as [p|].
  - destruct (pool_acquire p (server w)) as [[msg|conn] s1].
    + exists [Acquire]. split; [exact H | right; now left].
    + exists [Acquire; ev; Release]. split; [apply H|].
      right; right. now exists ev.
  - exists []. rewrite app_nil_r. split; [exact H | now left].
Qed.

Lemma sends_raise {A} (o : option event) (e : exn) :
  sends o (@raise World A e).
Proof. intros w. exists []. cbn. rewrite app_nil_r. split; [|left]; auto. Qed.

Lemma exact_with_acquire {A B} (ev : event)
      (f : Connection -> Server -> (string + A) * Server)
      (k : A -> M World B) (w : World) (p : Pool) (conn : Connection)
      (s1 : Server) :
  (forall a, silent (k a)) ->
  db_pool w = Some p -> pool_acquire p (server w) = (inr conn, s1) ->
  trace (snd (with_acquire (fun conn => x <- call ev (f conn) ;; k x) w))
  = (trace w ++ [Acquire; ev; Release])%list.
Proof.
  intros Hk Hp Ha. pose proof (with_acquire_call ev f k w Hk) as H.
  rewrite Hp, Ha in H. apply H.
Qed.

(** Every call is [initialize_db_pool] followed by code that sends its
    one statement or nothing. *)
Lemma op_shape (o : op) :
  exists (A : Type) (rest : M World A),
    sends (statement_of o) rest
    /\ (forall w p conn s1,
           db_pool w = Some p ->
           pool_acquire p (server w) = (inr conn, s1) ->
           trace (snd (rest w))
           = (trace w ++ match statement_of o with
                         | Some ev => [Acquire; ev; Release]
                         | None => []
                         end)%list)
    /\ forall w, step o w = snd ((initialize_db_pool ;; rest) w).
Proof.
  destruct o as [| |t|q|q|t]; cbn [statement_of].
  - exists unit, (ret tt). split; [|split].
    + intros w. exists []. cbn. rewrite app_nil_r. split; [|left]; auto.
    + intros. cbn. now rewrite app_nil_r.
    + intros w. cbn [step]. unfold bind.
      now destruct (initialize_db_pool w) as [[e|[]] w1].
  - eexists _, _. split; [|split; [|intros w; reflexivity]].
    + apply sends_with_acquire. intros rows.
      apply silent_for_each, silent_first_value.
    + intros w p conn s1. apply exact_with_acquire. intros rows.
      apply silent_for_each, silent_first_value.
  - eexists _, _. split; [|split; [|intros w; reflexivity]].
    + apply sends_with_acquire. intros rows. apply silent_ret.
    + intros w p conn s1. apply exact_with_acquire. intros rows.
      apply silent_ret.
  - eexists _, _. split; [|split; [|intros w; reflexivity]];
      rewrite PyStrFacts.select_in_trimmed;
      destruct (PyStr.contains (PyStr.lower q) "select"); cbn [negb].
    + apply sends_with_acquire. intros rows. apply silent_ret.
    + apply sends_raise.
    + intros w p conn s1. apply exact_with_acquire. intros rows.
      apply silent_ret.
    + intros. cbn. now rewrite app_nil_r.
  - eexists _, _. split; [|split; [|intros w; reflexivity]];
      unfold passes_write_guards;
      rewrite PyStrFacts.select_prefix_order;
      destruct (PyStr.any_in blocked (PyStr.lower q)); cbn [negb andb];
      try destruct (PyStr.startswith (PyStr.strip (PyStr.lower q)) "select");
      cbn [negb].
    all: first
      [ apply sends_raise
      | apply sends_with_acquire; intros result;
        apply silent_bind; [apply silent_last_word | intros; apply silent_ret]
      | intros w p conn s1; apply exact_with_acquire; intros result;
        apply silent_bind; [apply silent_last_word | intros; apply silent_ret]
      | intros; cbn; now rewrite app_nil_r ].
  - eexists _, _. split; [|split; [|intros w; reflexivity]].
    + apply sends_with_acquire. intros rows. apply silent_ret.
    + intros w p conn s1. apply exact_with_acquire. intros rows.
      apply silent_ret.
Qed.

Lemma step_log (o : op) (w : World) :
  exists init tail,
    trace (step o w) = (trace w ++ init ++ tail)%list
    /\ forallb startup_event init = true
    /\ (db_pool w <> None -> init = [])
    /\ tail_of (statement_of o) tail.
Proof.
  destruct (op_shape o) as (A & rest & Hs & _ & ->).
  destruct (McpFacts.init_startup_only w) as (init & Ht & Hi).
  unfold bind.
  destruct (initialize_db_pool w) as [[e|u] w1] eqn:E; cbn [snd] in *.
  - exists init, []. rewrite app_nil_r. repeat split; auto.
    + intros Hp. rewrite McpFacts.init_when_ready in E by exact Hp.
      discriminate.
    + now left.
  - destruct (Hs w1) as (tail & Htail & Hof).
    exists init, tail. rewrite Htail, Ht, <- app_assoc.
    repeat split; auto.
    intros Hp. rewrite McpFacts.init_when_ready in E by exact Hp.
    injection E as _ <-. apply (app_inv_head (trace w)).
    rewrite app_nil_r. now symmetry.
Qed.

Lemma tail_members (e : option event) (tail : list event) (x : event) :
  tail_of e tail -> In x tail -> x = Acquire \/ x = Release \/ e = Some x.
Proof.
  intros [->|[->|(ev & -> & ->)]] Hin; cbn in Hin.
  - destruct Hin.
  - destruct Hin as [<-|[]]. now left.
  - destruct Hin as [<-|[<-|[<-|[]]]]; auto.
Qed.

Lemma step_execute (o : op) (w : World) (q : string) :
  In (Execute q) (trace (step o w)) ->
  In (Execute q) (trace w)
  \/ (o = RunSql q /\ passes_write_guards q = true).
Proof.
  intros Hin. destruct (step_log o w) as (init & tail & Ht & Hi & _ & Hof).
  rewrite Ht in Hin. apply in_app_or in Hin as [Hin|Hin]; [now left|].
  apply in_app_or in Hin as [Hin|Hin].
  - now apply (AppFacts.startup_event_excludes _ _ Hi) in Hin.
  - right. destruct (tail_members _ _ _ Hof Hin) as [H|[H|H]];
      try discriminate.
    destruct o as [| |t|q'|q'|t]; cbn [statement_of] in H; try discriminate.
    + destruct (PyStr.contains _ _); discriminate.
    + destruct (passes_write_guards q') eqn:Hg; [|discriminate].
      injection H as ->. auto.
Qed.

Lemma step_create_pool (o : op) (w : World) (cfg : DbConfig) :
  db_pool w <> None ->
  In (CreatePool cfg) (trace (step o w)) -> In (CreatePool cfg) (trace w).
Proof.
  intros Hp Hin.
  destruct (step_log o w) as (init & tail & Ht & _ & Hnil & Hof).
  rewrite Ht, (Hnil Hp) in Hin. cbn [app] in Hin.
  apply in_app_or in Hin as [Hin|Hin]; [exact Hin|].
  destruct (tail_members _ _ _ Hof Hin) as [H|[H|H]]; try discriminate.
  destruct o as [| |t|q'|q'|t]; cbn [statement_of] in H; try discriminate.
  - destruct (PyStr.contains _ _); discriminate.
  - destruct (passes_write_guards q'); discriminate.
Qed.

End WithDriver.
End EffectFacts.

(** X1.  What one call can add to the log, for each of the five tools and
    for [initialize_db_pool]: first what the initialisation logs (a pool
    creation and a print, and nothing at all when a pool exists); then
    nothing, or one acquisition that failed, or an acquisition, one
    statement and the release.  The statement is the tool's own:
    [list_tables] and [describe_table] send their fixed catalogue
    queries, the latter with the table name as its one bound argument;
    [run_select] sends the query as given, and only if its lowercased
    form contains "select"; [run_sql] executes the query as given, and
    only if it has no blocked word and does not start with "select";
    [preview_table] sends its interpolated text. *)
Theorem tool_footprint (D : Asyncpg) (o : Process.op) (w : McpServer.World) :
  exists init tail,
    McpServer.trace (Process.step o w)
    = (McpServer.trace w ++ init ++ tail)%list
    /\ forallb Process.startup_event init = true
    /\ (McpServer.db_pool w <> None -> init = [])
    /\ (tail = [] \/ tail = [Acquire]
        \/ exists ev, Effects.statement_of o = Some ev
                      /\ tail = [Acquire; ev; Release]).
Proof.
  destruct (EffectFacts.step_log o w) as (init & tail & Ht & Hi & Hn & Hof).
  exists init, tail. repeat split; assumption.
Qed.

Lemma tool_footprint_witness :
  McpServer.db_pool Demo.ready <> None
  /\ exists tail,
       McpServer.trace
         (@Process.step Demo.asyncpg (Process.DescribeTable "orders") Demo.ready)
       = (McpServer.trace Demo.ready ++ tail)%list
       /\ (tail = [] \/ tail = [Acquire]
           \/ tail = [Acquire;
                      Fetch McpServer.describe_table_query [VStr "orders"];
                      Release]).
Proof.
  split; [discriminate|].
  destruct (tool_footprint Demo.asyncpg (Process.DescribeTable "orders")
              Demo.ready) as (init & tail & Ht & _ & Hnil & Hof).
  rewrite (Hnil ltac:(discriminate)) in Ht. exists tail. split; [exact Ht|].
  destruct Hof as [H|[H|(ev & He & H)]]; auto.
Defined.

(** X2.  With a pool in place and a connection granted, a call logs
    exactly the acquisition, its one statement and the release, whether
    the statement succeeds, the driver raises, or what follows the
    statement raises; a call turned down by its own test logs nothing.  A
    connection that was acquired is always given back. *)
Theorem connection_always_released
  (D : Asyncpg) (o : Process.op) (w : McpServer.World) (p : Pool)
  (conn : Connection) (s1 : Server) :
  McpServer.db_pool w = Some p ->
  pool_acquire p (McpServer.server w) = (inr conn, s1) ->
  Process.added w (Process.step o w)
  = match Effects.statement_of o with
    | Some ev => [Acquire; ev; Release]
    | None => []
    end.
Proof.
  intros Hp Ha.
  destruct (EffectFacts.op_shape o) as (A & rest & _ & Hx & ->).
  rewrite McpFacts.after_init_ready by congruence.
  apply McpFacts.added_app. now apply (Hx w p conn s1).
Qed.

Lemma connection_always_released_witness :
  McpServer.db_pool Edge.blank_ready = Some 1%nat
  /\ @pool_acquire Edge.blank 1%nat [] = (inr 7%nat, [])
  /\ fst (@McpServer.list_tables Edge.blank Edge.blank_ready)
     = inl (IndexError "record index out of range")
  /\ Process.added Edge.blank_ready
       (@Process.step Edge.blank Process.ListTables Edge.blank_ready)
     = [Acquire; Fetch McpServer.list_tables_query []; Release].
Proof.
  split; [reflexivity|]. split; [reflexivity|]. split; [reflexivity|].
  exact (connection_always_released Edge.blank Process.ListTables
           Edge.blank_ready 1%nat 7%nat [] eq_refl eq_refl).
Defined.

(** X3.  Over any sequence of calls from a freshly imported module, every
    statement that was executed as a write was the argument of a
    [run_sql] call in that sequence and passed both of its tests: its
    lowercased form contains none of the four blocked words and, trimmed,
    does not start with "select". *)
Theorem executed_statements_passed_guards
  (D : Asyncpg) (env : list (string * string)) (s : Server)
  (ops : list Process.op) (q : string) :
  In (Execute q)
     (McpServer.trace (Process.run ops (Process.at_import env s))) ->
  In (Process.RunSql q) ops
  /\ PyStr.any_in blocked (PyStr.lower q) = false
  /\ PyStr.startswith (PyStr.strip (PyStr.lower q)) "select" = false.
Proof.
  assert (Hgen : forall ops w,
             In (Execute q) (McpServer.trace (Process.run ops w)) ->
             In (Execute q) (McpServer.trace w)
             \/ (In (Process.RunSql q) ops
                 /\ Effects.passes_write_guards q = true)).
  { clear ops. induction ops as [|o ops IH]; intros w Hin; [now left|].
    cbn [Process.run fold_left] in Hin.
    destruct (IH _ Hin) as [H|[H1 H2]].
    - destruct (EffectFacts.step_execute o w q H) as [H'|[-> H']].
      + now left.
      + right. split; [now left | exact H'].
    - right. split; [now right | exact H2]. }
  intros Hin. destruct (Hgen ops _ Hin) as [[]|[H1 H2]].
  split; [exact H1|]. unfold Effects.passes_write_guards in H2.
  apply andb_prop in H2 as [Ha Hb].
  split; [now apply negb_true_iff in Ha | now apply negb_true_iff in Hb].
Qed.

Lemma executed_statements_passed_guards_witness :
  In (Execute "DELETE FROM orders")
     (McpServer.trace
        (@Process.run Demo.asyncpg
           [Process.RunSql "DROP TABLE orders";
            Process.RunSql "DELETE FROM orders"]
           Demo.fresh))
  /\ PyStr.any_in blocked (PyStr.lower "DELETE FROM orders") = false.
Proof.
  assert (Hin : In (Execute "DELETE FROM orders")
                  (McpServer.trace
                     (@Process.run Demo.asyncpg
                        [Process.RunSql "DROP TABLE orders";
                         Process.RunSql "DELETE FROM orders"]
                        Demo.fresh)))
    by (vm_compute; tauto).
  split; [exact Hin|].
  exact (proj1 (proj2 (executed_statements_passed_guards Demo.asyncpg
                         Demo.env (@nil string) _ _ Hin))).
Defined.

(** X4.  Once a pool exists, no sequence of calls replaces it, creates
    another or calls [create_pool] again, whatever the calls are and
    however they end. *)
Theorem pool_survives_every_call
  (D : Asyncpg) (ops : list Process.op) (w : McpServer.World) (p : Pool) :
  McpServer.db_pool w = Some p ->
  McpServer.db_pool (Process.run ops w) = Some p
  /\ McpServer.pools (Process.run ops w) = McpServer.pools w
  /\ forall cfg,
       In (CreatePool cfg) (McpServer.trace (Process.run ops w)) ->
       In (CreatePool cfg) (McpServer.trace w).
Proof.
  revert w. induction ops as [|o ops IH]; intros w Hp; [auto|].
  cbn [Process.run fold_left].
  destruct (PoolFacts.step_keeps_pool o w p Hp) as [Hp' Hl].
  destruct (IH _ Hp') as (H1 & H2 & H3).
  split; [exact H1|]. split; [rewrite <- Hl; exact H2|].
  intros cfg Hin. apply (EffectFacts.step_create_pool o w cfg);
    [congruence | now apply H3].
Qed.

Lemma pool_survives_every_call_witness :
  McpServer.db_pool Edge.blank_ready = Some 1%nat
  /\ McpServer.db_pool
       (@Process.run Edge.blank
          [Process.ListTables; Process.RunSql "DELETE FROM orders"]
          Edge.blank_ready)
     = Some 1%nat
  /\ McpServer.pools
       (@Process.run Edge.blank
          [Process.ListTables; Process.RunSql "DELETE FROM orders"]
          Edge.blank_ready)
     = [1%nat].
Proof.
  split; [reflexivity|].
  destruct (pool_survives_every_call Edge.blank
              [Process.ListTables; Process.RunSql "DELETE FROM orders"]
              Edge.blank_ready 1%nat eq_refl) as (H1 & H2 & _).
  split; [exact H1 | exact H2].
Defined.

(** * The catalogue queries and the results of statements *)

Module QueryFacts.
Section WithDrivers.
Context {D : Asyncpg} {P : Psycopg2}.
Import Effects.

Lemma first_values_spec (rows : list Row) (vs : list value) :
  first_values rows = Some vs <-> map row_first rows = map Some vs.
Proof.
  revert vs. induction rows as [|r rows IH]; intros vs; cbn [first_values map].
  - split; intros H.
    + now injection H as <-.
    + destruct vs; [reflexivity | discriminate].
  - destruct (row_first r) as [v|].
    + destruct (first_values rows) as [vs'|].
      * split; intros H.
        -- injection H as <-. cbn [map]. f_equal. now apply IH.
        -- destruct vs as [|v0 vs]; [discriminate|]. cbn [map] in H.
           injection H as -> H. apply IH in H. now injection H as <-.
      * split; [discriminate|]. intros H.
        destruct vs as [|v0 vs]; [discriminate|]. cbn [map] in H.
        injection H as _ H. apply IH in H. discriminate.
    + split; [discriminate|]. intros H.
      destruct vs; cbn [map] in H; discriminate.
Qed.

Lemma first_values_length (rows : list Row) (vs : list value) :
  first_values rows = Some vs -> length vs = length rows.
Proof.
  intros H. apply first_values_spec in H.
  apply (f_equal (@length _)) in H. now rewrite !length_map in H.
Qed.

Lemma first_values_none (rows : list Row) :
  first_values rows = None <-> In [] rows.
Proof.
  induction rows as [|r rows IH]; cbn [first_values In].
  - split; [discriminate | intros []].
  - destruct r as [|[k v] r]; cbn [row_first hd_error option_map].
    + split; auto.
    + destruct (first_values rows).
      * split; [discriminate|]. intros [H|H]; [discriminate|].
        now apply IH in H.
      * split; [|reflexivity]. intros _. right. now apply IH.
Qed.

(** The list comprehension [[row[0] for row in ...]], in both modules. *)
Lemma mcp_first_values (rows : list Row) (w : McpServer.World) :
  for_each McpServer.first_value rows w
  = (match first_values rows with
     | Some vs => inr vs
     | None => inl (IndexError "record index out of range")
     end, w).
Proof.
  induction rows as [|r rows IH]; [reflexivity|].
  cbn [for_each first_values]. unfold bind.
  destruct r as [|[k v] r]; [reflexivity|].
  cbn [McpServer.first_value ret row_first hd_error option_map snd].
  rewrite IH. now destruct (first_values rows).
Qed.

Lemma main_first_values (rows : list Row) (m : MainPy.World) :
  for_each MainPy.first_value rows m
  = (match first_values rows with
     | Some vs => inr vs
     | None => inl (IndexError "tuple index out of range")
     end, m).
Proof.
  induction rows as [|r rows IH]; [reflexivity|].
  cbn [for_each first_values]. unfold bind.
  destruct r as [|[k v] r]; [reflexivity|].
  cbn [MainPy.first_value ret row_first hd_error option_map snd].
  rewrite IH. now destruct (first_values rows).
Qed.

(** A fetch under [with_acquire] followed by code that only computes. *)
Lemma mcp_fetch_run {B} (q : string) (args : list value)
      (k : list Row -> M McpServer.World B) (g : list Row -> exn + B)
      (w : McpServer.World) (p : Pool) (conn : Connection) (s1 : Server) :
  (forall rows w', k rows w' = (g rows, w')) ->
  McpServer.db_pool w = Some p ->
  pool_acquire p (McpServer.server w) = (inr conn, s1) ->
  McpServer.with_acquire
    (fun conn => records <- McpServer.fetch conn q args ;; k records) w
  = (match fst (conn_fetch conn q args s1) with
     | inl msg => inl (DriverError msg)
     | inr records => g records
     end,
     {| McpServer.db_pool := McpServer.db_pool w;
        McpServer.environ := McpServer.environ w;
        McpServer.server := pool_release p conn (snd (conn_fetch conn q args s1));
        McpServer.pools := McpServer.pools w;
        McpServer.trace := (McpServer.trace w
                            ++ [Acquire; Fetch q args; Release])%list |}).
Proof.
  intros Hk Hp Ha.
  unfold McpServer.with_acquire, McpServer.fetch, McpServer.call, bind,
    McpServer.log, McpServer.set_server.
  rewrite Hp.
  cbn [McpServer.server McpServer.trace McpServer.db_pool McpServer.environ
       McpServer.pools fst snd].
  rewrite Ha.
  cbn [McpServer.server McpServer.trace McpServer.db_pool McpServer.environ
       McpServer.pools fst snd].
  destruct (conn_fetch conn q args s1) as [[msg|records] s2];
    cbn [McpServer.server McpServer.trace McpServer.db_pool McpServer.environ
         McpServer.pools fst snd].
  - rewrite <- !app_assoc. reflexivity.
  - rewrite Hk.
    cbn [McpServer.server McpServer.trace McpServer.db_pool McpServer.environ
         McpServer.pools fst snd].
    rewrite <- !app_assoc. reflexivity.
Qed.

(** A statement under [with get_conn()] whose rows are fetched and then
    only computed with: what is returned, how the transaction is closed
    and where the server is left. *)
Lemma main_query_run {B} (q : string) (args : list value)
      (k : list Row -> M MainPy.World B) (g : list Row -> exn + B)
      (m : MainPy.World) (conn : PgConnection) (s1 : PgServer) :
  (forall rows m', k rows m' = (g rows, m')) ->
  pg_connect (MainPy.DB_CONFIG m) (MainPy.server m) = (inr conn, s1) ->
  MainPy.with_conn
    (fun conn => cur <- MainPy.cursor_execute conn q args ;;
                 rows <- MainPy.fetchall cur ;; k rows) m
  = match cur_execute conn q args s1 with
    | (inl msg, s2) =>
        (inl (DriverError msg),
         {| MainPy.DB_CONFIG := MainPy.DB_CONFIG m;
            MainPy.server := pg_rollback conn s2;
            MainPy.trace := (MainPy.trace m
              ++ [Connect (MainPy.DB_CONFIG m); CursorExecute q args;
                  Rollback])%list |})
    | (inr cur, s2) =>
        match match result_set cur with
              | None => inl (DriverError "no results to fetch")
              | Some rows => g rows
              end with
        | inl e =>
            (inl e,
             {| MainPy.DB_CONFIG := MainPy.DB_CONFIG m;
                MainPy.server := pg_rollback conn s2;
                MainPy.trace := (MainPy.trace m
                  ++ [Connect (MainPy.DB_CONFIG m); CursorExecute q args;
                      Rollback])%list |})
        | inr b =>
            (match fst (pg_commit conn s2) with
             | inl msg => inl (DriverError msg)
             | inr _ => inr b
             end,
             {| MainPy.DB_CONFIG := MainPy.DB_CONFIG m;
                MainPy.server := snd (pg_commit conn s2);
                MainPy.trace := (MainPy.trace m
                  ++ [Connect (MainPy.DB_CONFIG m); CursorExecute q args;
                      Commit])%list |})
        end
    end.
Proof.
  intros Hk Hc.
  unfold MainPy.with_conn, MainPy.get_conn, MainPy.cursor_execute,
    MainPy.call, bind, MainPy.log, MainPy.set_server, ret.
  cbn [MainPy.server MainPy.trace MainPy.DB_CONFIG fst snd]. rewrite Hc.
  cbn [MainPy.server MainPy.trace MainPy.DB_CONFIG fst snd].
  destruct (cur_execute conn q args s1) as [[msg|cur] s2];
    cbn [MainPy.server MainPy.trace MainPy.DB_CONFIG fst snd].
  - now rewrite <- !app_assoc.
  - unfold MainPy.fetchall, raise, ret. destruct (result_set cur) as [rows|];
      cbn [MainPy.server MainPy.trace MainPy.DB_CONFIG fst snd].
    + rewrite Hk. destruct (g rows) as [e|b];
        cbn [MainPy.server MainPy.trace MainPy.DB_CONFIG fst snd].
      * now rewrite <- !app_assoc.
      * destruct (pg_commit conn s2) as [[msg|[]] s3];
          cbn [MainPy.server MainPy.trace MainPy.DB_CONFIG fst snd];
          now rewrite <- !app_assoc.
    + now rewrite <- !app_assoc.
Qed.

End WithDrivers.
End QueryFacts.

Module SplitFacts.
Import PyStr Effects.

Lemma append_nil_r (s : string) : (s ++ "")%string = s.
Proof. induction s as [|c s IH]; cbn; [reflexivity | now rewrite IH]. Qed.

Lemma append_assoc (a b c : string) :
  ((a ++ b) ++ c)%string = (a ++ (b ++ c))%string.
Proof. induction a as [|x a IH]; cbn; [reflexivity | now rewrite IH]. Qed.

Lemma split_from_solid (n : string) :
  no_space n = true ->
  forall cur, split_from n cur
              = if is_empty (cur ++ n) then [] else [(cur ++ n)%string].
Proof.
  induction n as [|c n IH]; intros Hn cur; cbn [split_from].
  - now rewrite append_nil_r.
  - cbn [no_space] in Hn. apply andb_prop in Hn as [Hc Hn].
    apply negb_true_iff in Hc. rewrite Hc, (IH Hn), append_assoc.
    reflexivity.
Qed.

(** The last word of [s ++ " " ++ n] is [n] when [n] is one word. *)
Lemma split_from_tail (sp : ascii) (n : string) :
  isspace sp = true -> no_space n = true -> is_empty n = false ->
  forall s cur, exists pre,
    split_from (s ++ String sp n) cur = (pre ++ [n])%list.
Proof.
  intros Hsp Hn Hne. induction s as [|c s IH]; intros cur.
  - cbn [append split_from]. rewrite Hsp, (split_from_solid n Hn).
    cbn [append]. rewrite Hne.
    destruct (is_empty cur); [now exists [] | now exists [cur]].
  - cbn [append split_from]. destruct (isspace c).
    + destruct (is_empty cur).
      * apply IH.
      * destruct (IH EmptyString) as [pre Hpre].
        exists (cur :: pre). now rewrite Hpre.
    + apply IH.
Qed.

Lemma split_blank (s : string) :
  lstrip s = EmptyString -> split s = [].
Proof.
  unfold split. induction s as [|c s IH]; intros H; [reflexivity|].
  cbn [lstrip] in H. cbn [split_from is_empty].
  destruct (isspace c); [now apply IH | discriminate].
Qed.

Lemma last_of_status (tag : string) (sp : ascii) (count : string) :
  isspace sp = true -> no_space count = true -> is_empty count = false ->
  exists rest, rev (split (tag ++ String sp count)) = count :: rest.
Proof.
  intros Hsp Hn Hne. unfold split.
  destruct (split_from_tail sp count Hsp Hn Hne tag EmptyString)
    as [pre ->].
  exists (rev pre). now rewrite rev_app_distr.
Qed.

Lemma last_of_word (status : string) :
  no_space status = true -> is_empty status = false ->
  rev (split status) = [status].
Proof.
  intros Hn Hne. unfold split. rewrite (split_from_solid status Hn).
  cbn [append]. now rewrite Hne.
Qed.

End SplitFacts.

(** X5.  [describe_table] sends one fixed query text and passes the table
    name as the statement's single bound argument, never as part of the
    text, in both modules; the rows come back in order, each as a
    [dict].  In [main.py] the transaction is committed when the statement
    ran and gave a result set, and rolled back, with nothing committed,
    when the driver refused the statement or it gave no result set. *)
Theorem describe_table_binds_name
  (D : Asyncpg) (P : Psycopg2) (w : McpServer.World) (m : MainPy.World)
  (table_name : string) :
  (forall p conn s1,
      McpServer.db_pool w = Some p ->
      pool_acquire p (McpServer.server w) = (inr conn, s1) ->
      McpServer.trace (snd (McpServer.describe_table table_name w))
      = (McpServer.trace w
         ++ [Acquire;
             Fetch McpServer.describe_table_query [VStr table_name];
             Release])%list
      /\ fst (McpServer.describe_table table_name w)
         = match fst (conn_fetch conn McpServer.describe_table_query
                        [VStr table_name] s1) with
           | inl msg => inl (DriverError msg)
           | inr records => inr (map dict records)
           end)
  /\ (forall conn s1,
         pg_connect (MainPy.DB_CONFIG m) (MainPy.server m) = (inr conn, s1) ->
         MainPy.describe_table table_name m
         = match cur_execute conn MainPy.describe_table_query
                   [VStr table_name] s1 with
           | (inl msg, s2) =>
               (inl (DriverError msg),
                {| MainPy.DB_CONFIG := MainPy.DB_CONFIG m;
                   MainPy.server := pg_rollback conn s2;
                   MainPy.trace := (MainPy.trace m
                     ++ [Connect (MainPy.DB_CONFIG m);
                         CursorExecute MainPy.describe_table_query
                           [VStr table_name];
                         Rollback])%list |})
           | (inr cur, s2) =>
               match result_set cur with
               | None =>
                   (inl (DriverError "no results to fetch"),
                    {| MainPy.DB_CONFIG := MainPy.DB_CONFIG m;
                       MainPy.server := pg_rollback conn s2;
                       MainPy.trace := (MainPy.trace m
                         ++ [Connect (MainPy.DB_CONFIG m);
                             CursorExecute MainPy.describe_table_query
                               [VStr table_name];
                             Rollback])%list |})
               | Some rows =>
                   (match fst (pg_commit conn s2) with
                    | inl msg => inl (DriverError msg)
                    | inr _ => inr (map dict rows)
                    end,
                    {| MainPy.DB_CONFIG := MainPy.DB_CONFIG m;
                       MainPy.server := snd (pg_commit conn s2);
                       MainPy.trace := (MainPy.trace m
                         ++ [Connect (MainPy.DB_CONFIG m);
                             CursorExecute MainPy.describe_table_query
                               [VStr table_name];
                             Commit])%list |})
               end
           end).
Proof.
  split.
  - intros p conn s1 Hp Ha. unfold McpServer.describe_table.
    rewrite McpFacts.after_init_ready by congruence.
    rewrite (QueryFacts.mcp_fetch_run _ _ _ (fun rows => inr (map dict rows))
               w p conn s1 (fun _ _ => eq_refl) Hp Ha).
    split; reflexivity.
  - intros conn s1 Hc. unfold MainPy.describe_table.
    rewrite (QueryFacts.main_query_run _ _ _ (fun rows => inr (map dict rows))
               m conn s1 (fun _ _ => eq_refl) Hc).
    destruct (cur_execute conn MainPy.describe_table_query [VStr table_name] s1)
      as [[msg|cur] s2]; [reflexivity|].
    now destruct (result_set cur).
Qed.

Lemma describe_table_binds_name_witness :
  McpServer.db_pool Demo.ready = Some 1%nat
  /\ McpServer.trace
       (snd (@McpServer.describe_table Demo.asyncpg "x'; DROP TABLE y; --"
               Demo.ready))
     = [Acquire;
        Fetch McpServer.describe_table_query [VStr "x'; DROP TABLE y; --"];
        Release]
  /\ @MainPy.describe_table Demo.psycopg2 "orders" Demo.main_world
     = (inr (map dict Demo.rows),
        @MainPy.Build_World Demo.psycopg2 Demo.config
          [MainPy.describe_table_query]
          [Connect Demo.config;
           CursorExecute MainPy.describe_table_query [VStr "orders"];
           Commit])
  /\ @MainPy.describe_table Edge.no_rows "orders" Edge.no_rows_world
     = (inl (DriverError "no results to fetch"),
        @MainPy.Build_World Edge.no_rows Demo.config []
          [Connect Demo.config;
           CursorExecute MainPy.describe_table_query [VStr "orders"];
           Rollback])
  /\ @MainPy.describe_table Edge.refusing "orders" Edge.refusing_world
     = (inl (DriverError "syntax error"),
        @MainPy.Build_World Edge.refusing Demo.config []
          [Connect Demo.config;
           CursorExecute MainPy.describe_table_query [VStr "orders"];
           Rollback]).
Proof.
  split; [reflexivity|].
  destruct (describe_table_binds_name Demo.asyncpg Demo.psycopg2 Demo.ready
              Demo.main_world "x'; DROP TABLE y; --") as [Hmcp _].
  split; [exact (proj1 (Hmcp 1%nat 7%nat [] eq_refl eq_refl))|].
  destruct (describe_table_binds_name Demo.asyncpg Demo.psycopg2 Demo.ready
              Demo.main_world "orders") as [_ Hmain].
  split; [rewrite (Hmain 3%nat [] eq_refl); reflexivity|].
  destruct (describe_table_binds_name Demo.asyncpg Edge.no_rows Demo.ready
              Edge.no_rows_world "orders") as [_ Hnone].
  split; [rewrite (Hnone 3%nat [] eq_refl); reflexivity|].
  destruct (describe_table_binds_name Demo.asyncpg Edge.refusing Demo.ready
              Edge.refusing_world "orders") as [_ Href].
  rewrite (Href 3%nat [] eq_refl). reflexivity.
Defined.

(** X6.  [list_tables] sends its fixed catalogue query with no
    arguments and returns, in row order, the first value of every row the
    driver produced: as many names as rows.  If some row has no column the
    call raises [IndexError] instead; in [mcp_server.py] the connection
    has been released by then, in [main.py] the transaction is rolled
    back. *)
Theorem list_tables_first_column
  (D : Asyncpg) (P : Psycopg2) (w : McpServer.World) (m : MainPy.World) :
  (forall p conn s1,
      McpServer.db_pool w = Some p ->
      pool_acquire p (McpServer.server w) = (inr conn, s1) ->
      McpServer.trace (snd (McpServer.list_tables w))
      = (McpServer.trace w
         ++ [Acquire; Fetch McpServer.list_tables_query []; Release])%list
      /\ fst (McpServer.list_tables w)
         = match fst (conn_fetch conn McpServer.list_tables_query [] s1) with
           | inl msg => inl (DriverError msg)
           | inr records =>
               match Effects.first_values records with
               | Some names => inr names
               | None => inl (IndexError "record index out of range")
               end
           end)
  /\ (forall conn s1,
         pg_connect (MainPy.DB_CONFIG m) (MainPy.server m) = (inr conn, s1) ->
         MainPy.list_tables m
         = match cur_execute conn MainPy.list_tables_query [] s1 with
           | (inl msg, s2) =>
               (inl (DriverError msg),
                {| MainPy.DB_CONFIG := MainPy.DB_CONFIG m;
                   MainPy.server := pg_rollback conn s2;
                   MainPy.trace := (MainPy.trace m
                     ++ [Connect (MainPy.DB_CONFIG m);
                         CursorExecute MainPy.list_tables_query [];
                         Rollback])%list |})
           | (inr cur, s2) =>
               match match result_set cur with
                     | None => None
                     | Some rows => Effects.first_values rows
                     end with
               | None =>
                   (inl (match result_set cur with
                         | None => DriverError "no results to fetch"
                         | Some _ => IndexError "tuple index out of range"
                         end),
                    {| MainPy.DB_CONFIG := MainPy.DB_CONFIG m;
                       MainPy.server := pg_rollback conn s2;
                       MainPy.trace := (MainPy.trace m
                         ++ [Connect (MainPy.DB_CONFIG m);
                             CursorExecute MainPy.list_tables_query [];
                             Rollback])%list |})
               | Some names =>
                   (match fst (pg_commit conn s2) with
                    | inl msg => inl (DriverError msg)
                    | inr _ => inr names
                    end,
                    {| MainPy.DB_CONFIG := MainPy.DB_CONFIG m;
                       MainPy.server := snd (pg_commit conn s2);
                       MainPy.trace := (MainPy.trace m
                         ++ [Connect (MainPy.DB_CONFIG m);
                             CursorExecute MainPy.list_tables_query [];
                             Commit])%list |})
               end
           end)
  /\ (forall rows names,
         Effects.first_values rows = Some names
         <-> map Effects.row_first rows = map Some names)
  /\ (forall rows names,
         Effects.first_values rows = Some names ->
         length names = length rows)
  /\ (forall rows, Effects.first_values rows = None <-> In [] rows).
Proof.
  split; [|split; [|split; [|split]]].
  - intros p conn s1 Hp Ha. unfold McpServer.list_tables.
    rewrite McpFacts.after_init_ready by congruence.
    rewrite (QueryFacts.mcp_fetch_run _ _ _
               (fun rows => match Effects.first_values rows with
                            | Some names => inr names
                            | None => inl (IndexError "record index out of range")
                            end)
               w p conn s1 QueryFacts.mcp_first_values Hp Ha).
    split; reflexivity.
  - intros conn s1 Hc. unfold MainPy.list_tables.
    rewrite (QueryFacts.main_query_run _ _ _
               (fun rows => match Effects.first_values rows with
                            | Some names => inr names
                            | None => inl (IndexError "tuple index out of range")
                            end)
               m conn s1 QueryFacts.main_first_values Hc).
    destruct (cur_execute conn MainPy.list_tables_query [] s1)
      as [[msg|cur] s2]; [reflexivity|].
    destruct (result_set cur) as [rows|]; [|reflexivity].
    now destruct (Effects.first_values rows).
  - apply QueryFacts.first_values_spec.
  - apply QueryFacts.first_values_length.
  - apply QueryFacts.first_values_none.
Qed.

Lemma list_tables_first_column_witness :
  McpServer.db_pool Demo.ready = Some 1%nat
  /\ fst (@McpServer.list_tables Demo.asyncpg Demo.ready)
     = inr [VInt 1; VInt 2]
  /\ fst (@McpServer.list_tables Edge.blank Edge.blank_ready)
     = inl (IndexError "record index out of range")
  /\ fst (@MainPy.list_tables Demo.psycopg2 Demo.main_world)
     = inr [VInt 1; VInt 2].
Proof.
  split; [reflexivity|].
  destruct (list_tables_first_column Demo.asyncpg Demo.psycopg2 Demo.ready
              Demo.main_world) as (Hmcp & Hmain & _).
  split; [exact (proj2 (Hmcp 1%nat 7%nat [] eq_refl eq_refl))|].
  destruct (list_tables_first_column Edge.blank Demo.psycopg2 Edge.blank_ready
              Demo.main_world) as (Hblank & _).
  split; [exact (proj2 (Hblank 1%nat 7%nat [] eq_refl eq_refl))|].
  rewrite (Hmain 3%nat [] eq_refl). reflexivity.
Defined.

(** * Writes *)

(** X7.  When [run_sql] in [mcp_server.py] has executed its statement,
    the number it reports is the last white-space-separated word of the
    driver's status: for a status [tag ++ " " ++ count] it reports
    [count]; for a status of one word it reports that word, number or
    not; and for a status that is empty or all white space it raises
    [IndexError], after the statement has been executed and the
    connection released. *)
Theorem run_sql_reports_last_word
  (D : Asyncpg) (w : McpServer.World) (p : Pool) (conn : Connection)
  (s1 s2 : Server) (query status : string) :
  McpServer.db_pool w = Some p ->
  pool_acquire p (McpServer.server w) = (inr conn, s1) ->
  PyStr.any_in blocked (PyStr.lower query) = false ->
  PyStr.startswith (PyStr.lower (PyStr.strip query)) "select" = false ->
  conn_execute conn query s1 = (inr status, s2) ->
  McpServer.trace (snd (McpServer.run_sql query w))
  = (McpServer.trace w ++ [Acquire; Execute query; Release])%list
  /\ (forall tag sp count,
         status = (tag ++ String sp count)%string ->
         PyStr.isspace sp = true -> Effects.no_space count = true ->
         count <> EmptyString ->
         fst (McpServer.run_sql query w)
         = inr ("Executed successfully. Rows affected: " ++ count))
  /\ (Effects.no_space status = true -> status <> EmptyString ->
      fst (McpServer.run_sql query w)
      = inr ("Executed successfully. Rows affected: " ++ status))
  /\ (PyStr.lstrip status = EmptyString ->
      fst (McpServer.run_sql query w)
      = inl (IndexError "list index out of range")).
Proof.
  intros Hp Ha Hb Hs He.
  destruct (McpFacts.run_sql_admits query w p conn s1 Hp Ha Hb Hs)
    as [Ht Hr].
  rewrite He in Hr. cbn [fst] in Hr. split; [exact Ht|].
  split; [|split].
  - intros tag sp count -> Hsp Hn Hne. rewrite Hr.
    destruct (SplitFacts.last_of_status tag sp count Hsp Hn) as [rest ->];
      [now destruct count | reflexivity].
  - intros Hn Hne. rewrite Hr, SplitFacts.last_of_word; auto.
    now destruct status.
  - intros Hblank. now rewrite Hr, SplitFacts.split_blank.
Qed.

Lemma run_sql_reports_last_word_witness :
  McpServer.db_pool Demo.ready = Some 1%nat
  /\ @conn_execute Demo.asyncpg 7%nat "DELETE FROM orders" []
     = (inr "UPDATE 1", ["DELETE FROM orders"])
  /\ fst (@McpServer.run_sql Demo.asyncpg "DELETE FROM orders" Demo.ready)
     = inr "Executed successfully. Rows affected: 1"
  /\ fst (@McpServer.run_sql Edge.blank "DELETE FROM orders" Edge.blank_ready)
     = inl (IndexError "list index out of range").
Proof.
  split; [reflexivity|]. split; [reflexivity|].
  destruct (run_sql_reports_last_word Demo.asyncpg Demo.ready 1%nat 7%nat []
              ["DELETE FROM orders"] "DELETE FROM orders" "UPDATE 1"
              eq_refl eq_refl eq_refl eq_refl eq_refl) as (_ & Hcount & _).
  split.
  - apply (Hcount "UPDATE" " "%char "1"); try reflexivity. discriminate.
  - destruct (run_sql_reports_last_word Edge.blank Edge.blank_ready 1%nat
                7%nat [] ["DELETE FROM orders"] "DELETE FROM orders" ""
                eq_refl eq_refl eq_refl eq_refl eq_refl) as (_ & _ & _ & Hb).
    now apply Hb.
Defined.

Module MainWriteFacts.
Section WithDriver.
Context {P : Psycopg2}.
Import MainPy.

(** [run_sql] past its two tests, outcome by outcome. *)
Lemma run_sql_run (query : string) (m : World) (conn : PgConnection)
      (s1 : PgServer) :
  pg_connect (DB_CONFIG m) (server m) = (inr conn, s1) ->
  PyStr.any_in blocked (PyStr.lower query) = false ->
  PyStr.startswith (PyStr.strip (PyStr.lower query)) "select" = false ->
  run_sql query m
  = match cur_execute conn query [] s1 with
    | (inl msg, s2) =>
        (inl (DriverError msg),
         {| DB_CONFIG := DB_CONFIG m; server := pg_rollback conn s2;
            trace := (trace m ++ [Connect (DB_CONFIG m);
                                  CursorExecute query []; Rollback])%list |})
    | (inr cur, s2) =>
        match pg_commit conn s2 with
        | (inl msg, s3) =>
            (inl (DriverError msg),
             {| DB_CONFIG := DB_CONFIG m; server := pg_rollback conn s3;
                trace := (trace m ++ [Connect (DB_CONFIG m);
                                      CursorExecute query []; Commit;
                                      Rollback])%list |})
        | (inr _, s3) =>
            (match fst (pg_commit conn s3) with
             | inl msg => inl (DriverError msg)
             | inr _ =>
                 inr ("Executed successfully. Rows affected: "
                      ++ PyStr.str_of_int (rowcount cur))
             end,
             {| DB_CONFIG := DB_CONFIG m; server := snd (pg_commit conn s3);
                trace := (trace m ++ [Connect (DB_CONFIG m);
                                      CursorExecute query []; Commit;
                                      Commit])%list |})
        end
    end.
Proof.
  intros Hc Hb Hs. unfold run_sql. rewrite Hb, Hs.
  unfold with_conn, get_conn, cursor_execute, call, bind, log, set_server,
    ret.
  cbn [server trace DB_CONFIG fst snd]. rewrite Hc.
  cbn [server trace DB_CONFIG fst snd].
  destruct (cur_execute conn query [] s1) as [[msg|cur] s2];
    cbn [server trace DB_CONFIG fst snd].
  - now rewrite <- !app_assoc.
  - destruct (pg_commit conn s2) as [[msg|[]] s3];
      cbn [server trace DB_CONFIG fst snd].
    + now rewrite <- !app_assoc.
    + destruct (pg_commit conn s3) as [[msg|[]] s4];
        cbn [server trace DB_CONFIG fst snd]; now rewrite <- !app_assoc.
Qed.

End WithDriver.
End MainWriteFacts.

(** X8.  In [main.py], a statement that passes both tests of [run_sql] is
    executed on a new connection.  If the driver refuses it the
    transaction is rolled back and nothing is committed.  If it runs, it
    is committed by [run_sql] itself and committed once more when the
    connection block is left, and the message carries the cursor's
    [rowcount]; if the first commit fails the transaction is rolled
    back. *)
Theorem main_run_sql_commits
  (P : Psycopg2) (m : MainPy.World) (conn : PgConnection) (s1 : PgServer)
  (query : string) :
  pg_connect (MainPy.DB_CONFIG m) (MainPy.server m) = (inr conn, s1) ->
  PyStr.any_in blocked (PyStr.lower query) = false ->
  PyStr.startswith (PyStr.strip (PyStr.lower query)) "select" = false ->
  (forall msg s2,
      cur_execute conn query [] s1 = (inl msg, s2) ->
      fst (MainPy.run_sql query m) = inl (DriverError msg)
      /\ MainPy.server (snd (MainPy.run_sql query m)) = pg_rollback conn s2
      /\ MainPy.trace (snd (MainPy.run_sql query m))
         = (MainPy.trace m ++ [Connect (MainPy.DB_CONFIG m);
                               CursorExecute query []; Rollback])%list)
  /\ (forall cur s2 s3 s4,
         cur_execute conn query [] s1 = (inr cur, s2) ->
         pg_commit conn s2 = (inr tt, s3) ->
         pg_commit conn s3 = (inr tt, s4) ->
         MainPy.run_sql query m
         = (inr ("Executed successfully. Rows affected: "
                 ++ PyStr.str_of_int (rowcount cur)),
            {| MainPy.DB_CONFIG := MainPy.DB_CONFIG m;
               MainPy.server := s4;
               MainPy.trace := (MainPy.trace m
                 ++ [Connect (MainPy.DB_CONFIG m); CursorExecute query [];
                     Commit; Commit])%list |}))
  /\ (forall cur s2 msg s3,
         cur_execute conn query [] s1 = (inr cur, s2) ->
         pg_commit conn s2 = (inl msg, s3) ->
         fst (MainPy.run_sql query m) = inl (DriverError msg)
         /\ MainPy.trace (snd (MainPy.run_sql query m))
            = (MainPy.trace m ++ [Connect (MainPy.DB_CONFIG m);
                                  CursorExecute query []; Commit;
                                  Rollback])%list).
Proof.
  intros Hc Hb Hs.
  rewrite (MainWriteFacts.run_sql_run query m conn s1 Hc Hb Hs).
  split; [|split].
  - intros msg s2 He. rewrite He. auto.
  - intros cur s2 s3 s4 He H1 H2. now rewrite He, H1, H2.
  - intros cur s2 msg s3 He H1. rewrite He, H1. auto.
Qed.

Lemma main_run_sql_commits_witness :
  @pg_connect Demo.psycopg2 Demo.config [] = (inr 3%nat, [])
  /\ @MainPy.run_sql Demo.psycopg2 "DELETE FROM orders" Demo.main_world
     = (inr "Executed successfully. Rows affected: 2",
        @MainPy.Build_World Demo.psycopg2 Demo.config ["DELETE FROM orders"]
          [Connect Demo.config; CursorExecute "DELETE FROM orders" [];
           Commit; Commit])
  /\ MainPy.trace
       (snd (@MainPy.run_sql Edge.refusing "DELETE FROM orders"
               Edge.refusing_world))
     = [Connect Demo.config; CursorExecute "DELETE FROM orders" []; Rollback].
Proof.
  split; [reflexivity|].
  destruct (main_run_sql_commits Demo.psycopg2 Demo.main_world 3%nat []
              "DELETE FROM orders" eq_refl eq_refl eq_refl) as (_ & Hok & _).
  split.
  - exact (Hok {| result_set := Some Demo.rows; rowcount := 2 |}
             ["DELETE FROM orders"] ["DELETE FROM orders"]
             ["DELETE FROM orders"] eq_refl eq_refl eq_refl).
  - destruct (main_run_sql_commits Edge.refusing Edge.refusing_world 3%nat []
                "DELETE FROM orders" eq_refl eq_refl eq_refl) as (Hno & _).
    exact (proj2 (proj2 (Hno "syntax error" [] eq_refl))).
Defined.

(** X9.  In [main.py], [run_select] commits only after rows have been
    fetched.  A statement that its test admits but that produces no
    result set (an UPDATE that mentions "select", say) is executed, then
    [fetchall] raises and the transaction is rolled back; so is one the
    driver refuses. *)
Theorem main_run_select_commits_after_fetch
  (P : Psycopg2) (m : MainPy.World) (conn : PgConnection) (s1 : PgServer)
  (query : string) :
  pg_connect (MainPy.DB_CONFIG m) (MainPy.server m) = (inr conn, s1) ->
  PyStr.contains (PyStr.lower query) "select" = true ->
  (forall cur s2,
      cur_execute conn query [] s1 = (inr cur, s2) ->
      result_set cur = None ->
      MainPy.run_select query m
      = (inl (DriverError "no results to fetch"),
         {| MainPy.DB_CONFIG := MainPy.DB_CONFIG m;
            MainPy.server := pg_rollback conn s2;
            MainPy.trace := (MainPy.trace m
              ++ [Connect (MainPy.DB_CONFIG m); CursorExecute query [];
                  Rollback])%list |}))
  /\ (forall msg s2,
         cur_execute conn query [] s1 = (inl msg, s2) ->
         MainPy.run_select query m
         = (inl (DriverError msg),
            {| MainPy.DB_CONFIG := MainPy.DB_CONFIG m;
               MainPy.server := pg_rollback conn s2;
               MainPy.trace := (MainPy.trace m
                 ++ [Connect (MainPy.DB_CONFIG m); CursorExecute query [];
                     Rollback])%list |}))
  /\ (In Commit (skipn (length (MainPy.trace m))
                   (MainPy.trace (snd (MainPy.run_select query m)))) ->
      exists cur s2 rows,
        cur_execute conn query [] s1 = (inr cur, s2)
        /\ result_set cur = Some rows
        /\ MainPy.server (snd (MainPy.run_select query m))
           = snd (pg_commit conn s2)).
Proof.
  intros Hc Hs. unfold MainPy.run_select. rewrite Hs. cbn [negb].
  rewrite (QueryFacts.main_query_run _ _ _ (fun rows => inr (map dict rows))
             m conn s1 (fun _ _ => eq_refl) Hc).
  split; [|split].
  - intros cur s2 He Hn. now rewrite He, Hn.
  - intros msg s2 He. now rewrite He.
  - destruct (cur_execute conn query [] s1) as [[msg|cur] s2];
      cbn [snd MainPy.trace MainPy.server].
    + rewrite skipn_app, Nat.sub_diag, skipn_all. cbn.
      intros [H|[H|[H|[]]]]; discriminate.
    + destruct (result_set cur) as [rows|] eqn:Hr;
        cbn [snd MainPy.trace MainPy.server].
      * intros _. exists cur, s2, rows. repeat split. exact Hr.
      * rewrite skipn_app, Nat.sub_diag, skipn_all. cbn.
        intros [H|[H|[H|[]]]]; discriminate.
Qed.

Lemma main_run_select_commits_after_fetch_witness :
  @pg_connect Edge.no_rows Demo.config [] = (inr 3%nat, [])
  /\ PyStr.contains (PyStr.lower Demo.overlap_query) "select" = true
  /\ @MainPy.run_select Edge.no_rows Demo.overlap_query Edge.no_rows_world
     = (inl (DriverError "no results to fetch"),
        @MainPy.Build_World Edge.no_rows Demo.config []
          [Connect Demo.config; CursorExecute Demo.overlap_query [];
           Rollback]).
Proof.
  split; [reflexivity|]. split; [reflexivity|].
  destruct (main_run_select_commits_after_fetch Edge.no_rows
              Edge.no_rows_world 3%nat [] Demo.overlap_query eq_refl eq_refl)
    as (Hnone & _).
  exact (Hnone {| result_set := None; rowcount := 1 |}
           [Demo.overlap_query] eq_refl eq_refl).
Defined.


(** * The two modules side by side *)

Module GuardFacts.
Section WithDrivers.
Context {D : Asyncpg} {P : Psycopg2}.
Import Effects.

Lemma mcp_sql_body_raises (query : string) :
  raises_only not_value_error
    (McpServer.with_acquire (fun conn =>
       result <- McpServer.execute conn query ;;
       rows_affected <- McpServer.last_word result ;;
       ret ("Executed successfully. Rows affected: " ++ rows_affected))).
Proof.
  apply McpFacts.raises_only_with_acquire; try (intros msg msg'; discriminate).
  intros conn. apply MonadFacts.raises_only_bind.
  - apply McpFacts.raises_only_call. intros msg msg'. discriminate.
  - intros result. apply MonadFacts.raises_only_bind.
    + unfold McpServer.last_word. destruct (rev (PyStr.split result)).
      * apply MonadFacts.raises_only_raise. intros msg. discriminate.
      * apply MonadFacts.raises_only_ret.
    + intros. apply MonadFacts.raises_only_ret.
Qed.

Lemma main_sql_body_raises (query : string) :
  raises_only not_value_error
    (MainPy.with_conn (fun conn =>
       cur <- MainPy.cursor_execute conn query [] ;;
       MainPy.call Commit (pg_commit conn) ;;
       ret ("Executed successfully. Rows affected: "
            ++ PyStr.str_of_int (rowcount cur)))).
Proof.
  assert (Hd : forall msg, not_value_error (DriverError msg))
    by (intros msg msg'; discriminate).
  apply MainFacts.raises_only_with_conn; [exact Hd | intros conn].
  apply MonadFacts.raises_only_bind;
    [now apply MainFacts.main_raises_only_call | intros cur].
  apply MonadFacts.raises_only_bind;
    [now apply MainFacts.main_raises_only_call | intros].
  apply MonadFacts.raises_only_ret.
Qed.

(** Which [ValueError] [run_sql] raises, if any, is decided by its two
    tests alone. *)
Lemma mcp_run_sql_value_error (query msg : string) (w w' : McpServer.World) :
  McpServer.db_pool w <> None ->
  McpServer.run_sql query w = (inl (ValueError msg), w') ->
  (PyStr.any_in blocked (PyStr.lower query) = true
   /\ msg = "DDL commands not allowed.")
  \/ (PyStr.any_in blocked (PyStr.lower query) = false
      /\ PyStr.startswith (PyStr.strip (PyStr.lower query)) "select" = true
      /\ msg = "Use run_select() for SELECT queries.").
Proof.
  intros Hp H. unfold McpServer.run_sql in H.
  rewrite McpFacts.after_init_ready in H by exact Hp.
  rewrite PyStrFacts.select_prefix_order in H.
  destruct (PyStr.any_in blocked (PyStr.lower query)).
  - left. now injection H as <- _.
  - destruct (PyStr.startswith (PyStr.strip (PyStr.lower query)) "select").
    + right. now injection H as <- _.
    + exfalso. exact (mcp_sql_body_raises query _ _ _ H msg eq_refl).
Qed.

Lemma main_run_sql_value_error (query msg : string) (m m' : MainPy.World) :
  MainPy.run_sql query m = (inl (ValueError msg), m') ->
  (PyStr.any_in blocked (PyStr.lower query) = true
   /\ msg = "DDL commands not allowed.")
  \/ (PyStr.any_in blocked (PyStr.lower query) = false
      /\ PyStr.startswith (PyStr.strip (PyStr.lower query)) "select" = true
      /\ msg = "Use run_select() for SELECT.").
Proof.
  intros H. unfold MainPy.run_sql in H.
  destruct (PyStr.any_in blocked (PyStr.lower query)).
  - left. now injection H as <- _.
  - destruct (PyStr.startswith (PyStr.strip (PyStr.lower query)) "select").
    + right. now injection H as <- _.
    + exfalso. exact (main_sql_body_raises query _ _ _ H msg eq_refl).
Qed.

Lemma lower_app (a b : string) :
  PyStr.lower (a ++ b) = (PyStr.lower a ++ PyStr.lower b)%string.
Proof. induction a as [|c a IH]; cbn; [reflexivity | now rewrite IH]. Qed.

Lemma startswith_app (t b : string) : PyStr.startswith (t ++ b) t = true.
Proof.
  induction t as [|c t IH]; [now destruct b|].
  cbn. now rewrite Ascii.eqb_refl, IH.
Qed.

Lemma contains_app (a t b : string) :
  PyStr.contains (a ++ t ++ b) t = true.
Proof.
  induction a as [|c a IH].
  - cbn [append]. apply PyStrFacts.startswith_contains, startswith_app.
  - cbn [append PyStr.contains]. rewrite IH. apply orb_true_r.
Qed.

Lemma any_in_word (s tok : string) :
  In tok blocked -> PyStr.contains s tok = true ->
  PyStr.any_in blocked s = true.
Proof.
  intros Hin Hc. unfold PyStr.any_in. apply existsb_exists. now exists tok.
Qed.

End WithDrivers.
End GuardFacts.

(** X10.  With a pool in place, the two modules' tests turn down exactly
    the same statements: [run_sql] raises its DDL error for the same
    queries in both, its pointer to [run_select] for the same queries in
    both, and [run_select] refuses the same queries in both.  The order
    of [strip()] and [lower()], and the [strip()] that only
    [mcp_server.py] applies in [run_select], make no difference. *)
Theorem guards_agree_across_modules
  (D : Asyncpg) (P : Psycopg2) (w : McpServer.World) (m : MainPy.World)
  (query : string) :
  McpServer.db_pool w <> None ->
  ((exists w', McpServer.run_sql query w
               = (inl (ValueError "DDL commands not allowed."), w'))
   <-> (exists m', MainPy.run_sql query m
                   = (inl (ValueError "DDL commands not allowed."), m')))
  /\ ((exists w', McpServer.run_sql query w
                  = (inl (ValueError "Use run_select() for SELECT queries."), w'))
      <-> (exists m', MainPy.run_sql query m
                      = (inl (ValueError "Use run_select() for SELECT."), m')))
  /\ ((exists w', McpServer.run_select query w
                  = (inl (ValueError "Only SELECT queries allowed for data retrieval."), w'))
      <-> (exists m', MainPy.run_select query m
                      = (inl (ValueError "Only SELECT queries allowed."), m'))).
Proof.
  intros Hp. split; [|split].
  - split.
    + intros [w' H].
      destruct (GuardFacts.mcp_run_sql_value_error _ _ _ _ Hp H)
        as [[Hb _]|(_ & _ & Hm)]; [|discriminate].
      exists m. now apply MainFacts.main_run_sql_blocked.
    + intros [m' H].
      destruct (GuardFacts.main_run_sql_value_error _ _ _ _ H)
        as [[Hb _]|(_ & _ & Hm)]; [|discriminate].
      exists w. rewrite McpFacts.run_sql_blocked by exact Hb.
      now rewrite McpFacts.after_init_ready.
  - split.
    + intros [w' H].
      destruct (GuardFacts.mcp_run_sql_value_error _ _ _ _ Hp H)
        as [[_ Hm]|(Hb & Hs & _)]; [discriminate|].
      exists m. now apply MainFacts.main_run_sql_select.
    + intros [m' H].
      destruct (GuardFacts.main_run_sql_value_error _ _ _ _ H)
        as [[_ Hm]|(Hb & Hs & _)]; [discriminate|].
      exists w. rewrite McpFacts.run_sql_select;
        [now rewrite McpFacts.after_init_ready | exact Hb
        | now rewrite PyStrFacts.select_prefix_order].
  - rewrite McpFacts.run_select_mismatch_iff,
      MainFacts.main_run_select_mismatch_iff.
    split; [now intros [H _]|]. intros H. split; [exact H|].
    exists w. now apply McpFacts.init_when_ready.
Qed.

Lemma guards_agree_across_modules_witness :
  McpServer.db_pool Demo.ready <> None
  /\ ((exists w', @McpServer.run_sql Demo.asyncpg "  SeLeCt 1" Demo.ready
                  = (inl (ValueError "Use run_select() for SELECT queries."), w'))
      <-> (exists m', @MainPy.run_sql Demo.psycopg2 "  SeLeCt 1" Demo.main_world
                      = (inl (ValueError "Use run_select() for SELECT."), m'))).
Proof.
  split; [discriminate|].
  exact (proj1 (proj2 (guards_agree_across_modules Demo.asyncpg Demo.psycopg2
                         Demo.ready Demo.main_world "  SeLeCt 1"
                         ltac:(discriminate)))).
Defined.

(** X11.  The blocked-word test of [run_sql] is a plain substring test on
    the lowercased statement: a statement is turned down as DDL as soon
    as one of the four words occurs anywhere in it, in any letter case,
    inside an identifier or a string literal as well ([created_at],
    ['Dropbox']), whatever comes before and after. *)
Theorem blocked_word_anywhere_rejects
  (D : Asyncpg) (P : Psycopg2) (w : McpServer.World) (m : MainPy.World)
  (before word after : string) :
  In (PyStr.lower word) blocked ->
  MainPy.run_sql (before ++ word ++ after) m
  = (inl (ValueError "DDL commands not allowed."), m)
  /\ McpServer.run_sql (before ++ word ++ after) w
     = (McpServer.initialize_db_pool ;;
        raise (ValueError "DDL commands not allowed.")) w.
Proof.
  intros Hin.
  assert (Hb : PyStr.any_in blocked
                 (PyStr.lower (before ++ word ++ after)) = true).
  { rewrite !GuardFacts.lower_app.
    apply (GuardFacts.any_in_word _ _ Hin), GuardFacts.contains_app. }
  split.
  - now apply MainFacts.main_run_sql_blocked.
  - now apply McpFacts.run_sql_blocked.
Qed.

Lemma blocked_word_anywhere_rejects_witness :
  In (PyStr.lower "Create") blocked
  /\ @MainPy.run_sql Demo.psycopg2
       ("UPDATE orders SET " ++ "Create" ++ "d_at = now()") Demo.main_world
     = (inl (ValueError "DDL commands not allowed."), Demo.main_world).
Proof.
  assert (Hin : In (PyStr.lower "Create") blocked) by (vm_compute; tauto).
  split; [exact Hin|].
  exact (proj1 (blocked_word_anywhere_rejects Demo.asyncpg Demo.psycopg2
                  Demo.ready Demo.main_world "UPDATE orders SET " "Create"
                  "d_at = now()" Hin)).
Defined.

(** * Configuration *)

Module ConfigFacts.
Section WithDriver.
Context {D : Asyncpg}.
Import McpServer.

Lemma bad_db_port_config (env : list (string * string)) (s : string)
      (e : exn) :
  getenv env "DB_PORT" = Some s -> py_int s = inl e ->
  DB_CONFIG env = inl e.
Proof.
  intros Hg Hi. unfold DB_CONFIG, getenv_int. now rewrite Hg, Hi.
Qed.


(** What [int()] raises is one of its two [ValueError]s. *)
Lemma py_int_raises (s : string) (e : exn) :
  py_int s = inl e ->
  e = invalid_literal s \/ exists n, e = too_many_digits n.
Proof.
  unfold py_int. destruct (PyStr.int s) as [z| |n]; intros H;
    [discriminate | |]; injection H as <-; [now left | right; now exists n].
Qed.

Lemma getenv_app (e : list (string * string)) (k v name : string) :
  getenv (e ++ [(k, v)]) name
  = match getenv e name with
    | Some x => Some x
    | None => if String.eqb name k then Some v else None
    end.
Proof.
  induction e as [|[k' v'] e IH]; cbn [app getenv]; [reflexivity|].
  now destruct (String.eqb name k').
Qed.

(** After [load_dotenv] a variable has its value from the process
    environment if it has one there, and from the file otherwise. *)
Lemma getenv_load_dotenv (entries env : list (string * string))
      (name : string) :
  getenv (MainPy.load_dotenv entries env) name
  = match getenv env name with
    | Some v => Some v
    | None => getenv entries name
    end.
Proof.
  unfold MainPy.load_dotenv. revert env.
  induction entries as [|[k v] entries IH]; intros env; cbn [fold_left].
  - now destruct (getenv env name).
  - rewrite IH. cbn [fst getenv].
    destruct (getenv env k) as [x|] eqn:Hk.
    + destruct (getenv env name) as [y|] eqn:Hn; [reflexivity|].
      destruct (String.eqb_spec name k) as [->|]; [congruence | reflexivity].
    + rewrite getenv_app. destruct (getenv env name); [reflexivity|].
      now destruct (String.eqb name k).
Qed.

End WithDriver.
End ConfigFacts.

(** X12.  In a process without a pool, a [DB_PORT] for which [int()]
    raises makes every call fail with that very exception before the
    driver is called at all: [initialize_db_pool], each of the five tools
    and [start_server] raise it and leave the world exactly as it was, so
    the same happens on the next call.  The exception is one of the two
    [ValueError]s of [int()]: the invalid literal, quoting the value as
    [repr] writes it, or the refusal of a value of more than 4300
    digits. *)
Theorem malformed_db_port_stops_every_call
  (D : Asyncpg) (w : McpServer.World) (s : string) (e : exn) :
  McpServer.db_pool w = None ->
  getenv (McpServer.environ w) "DB_PORT" = Some s ->
  py_int s = inl e ->
  McpServer.initialize_db_pool w = (inl e, w)
  /\ (forall o, Process.step o w = w)
  /\ (forall ops, Process.run ops w = w)
  /\ (forall q, fst (McpServer.run_sql q w) = inl e)
  /\ (forall q, fst (McpServer.run_select q w) = inl e)
  /\ App.start_server w = (inl e, w)
  /\ (e = invalid_literal s \/ exists n, e = too_many_digits n).
Proof.
  intros Hp Hg Hi.
  assert (E : McpServer.initialize_db_pool w = (inl e, w)).
  { unfold McpServer.initialize_db_pool.
    now rewrite Hp, (ConfigFacts.bad_db_port_config _ _ _ Hg Hi). }
  assert (Hstep : forall o, Process.step o w = w)
    by (intros o; exact (PoolFacts.step_init_failure o w w _ E)).
  split; [exact E|]. split; [exact Hstep|].
  split; [|split; [|split; [|split]]].
  - induction ops as [|o ops IH]; [reflexivity|].
    cbn [Process.run fold_left]. rewrite Hstep. exact IH.
  - intros q. unfold McpServer.run_sql.
    now rewrite (McpFacts.after_init_failure _ w w _ E).
  - intros q. unfold McpServer.run_select.
    now rewrite (McpFacts.after_init_failure _ w w _ E).
  - now rewrite AppFacts.start_server_cases, E.
  - now apply ConfigFacts.py_int_raises.
Qed.

Lemma malformed_db_port_stops_every_call_witness :
  McpServer.db_pool Edge.bad_db_port = None
  /\ getenv (McpServer.environ Edge.bad_db_port) "DB_PORT" = Some "54'32"
  /\ py_int "54'32"
     = inl (ValueError
              ("invalid literal for int() with base 10: "
               ++ String PyStr.dquote ("54'32" ++ String PyStr.dquote "")))
  /\ @Process.run Demo.asyncpg
       [Process.ListTables; Process.RunSelect "select 1"] Edge.bad_db_port
     = Edge.bad_db_port
  /\ fst (@McpServer.run_sql Demo.asyncpg "DROP TABLE orders" Edge.bad_db_port)
     = inl (invalid_literal "54'32").
Proof.
  split; [reflexivity|]. split; [reflexivity|]. split; [reflexivity|].
  destruct (malformed_db_port_stops_every_call Demo.asyncpg Edge.bad_db_port
              "54'32" (invalid_literal "54'32") eq_refl eq_refl eq_refl)
    as (_ & _ & Hrun & Hsql & _).
  split; [apply Hrun | apply Hsql].
Defined.



(** X14.  [main.py] builds its connection settings from the environment
    as [load_dotenv()] leaves it, where a variable of the process keeps
    its value and the [.env] file supplies the ones the process lacks;
    [mcp_server.py] reads the process environment as it is.  Read from
    one and the same environment, the two fail together, with the same
    exception of [int()], exactly when [int()] raises on the value of
    [DB_PORT]; otherwise they agree on port (5432 when [DB_PORT] is
    unset), database, user and password, and differ only in the host:
    [main.py] falls back to "localhost" where [mcp_server.py] passes no
    host at all.  When the file supplies nothing the process lacks, that
    one environment is the process environment. *)
Theorem connection_settings_compared
  (entries env : list (string * string)) :
  (forall name,
      getenv (MainPy.load_dotenv entries env) name
      = match getenv env name with
        | Some v => Some v
        | None => getenv entries name
        end)
  /\ (forall merged,
         match McpServer.DB_CONFIG merged, MainPy.load_config merged with
         | inr c, inr c' =>
             port c = port c'
             /\ inr (port c) = getenv_int merged "DB_PORT" 5432
             /\ database c = database c'
             /\ database c = getenv merged "DB_NAME"
             /\ user c = user c' /\ user c = getenv merged "DB_USER"
             /\ password c = password c'
             /\ password c = getenv merged "DB_PASSWORD"
             /\ host c = getenv merged "DB_HOST"
             /\ host c' = Some match getenv merged "DB_HOST" with
                               | Some h => h
                               | None => "localhost"
                               end
         | inl e, inl e' =>
             e = e'
             /\ exists s, getenv merged "DB_PORT" = Some s
                          /\ py_int s = inl e
         | _, _ => False
         end)
  /\ ((forall name, getenv env name = None -> getenv entries name = None) ->
      McpServer.DB_CONFIG (MainPy.load_dotenv entries env)
      = McpServer.DB_CONFIG env
      /\ MainPy.load_config (MainPy.load_dotenv entries env)
         = MainPy.load_config env).
Proof.
  split; [apply ConfigFacts.getenv_load_dotenv|]. split.
  - intros merged.
    unfold McpServer.DB_CONFIG, MainPy.load_config, getenv_int.
    destruct (getenv merged "DB_PORT") as [s|].
    + destruct (py_int s) as [e|z] eqn:Hi.
      * split; [reflexivity|]. now exists s.
      * cbn [port database user password host]. repeat split.
        now destruct (getenv merged "DB_HOST").
    + cbn [port database user password host]. repeat split.
      now destruct (getenv merged "DB_HOST").
  - intros Hnone.
    assert (Hsame : forall name,
               getenv (MainPy.load_dotenv entries env) name = getenv env name).
    { intros name. rewrite ConfigFacts.getenv_load_dotenv.
      destruct (getenv env name) eqn:Hn; [reflexivity | now apply Hnone]. }
    unfold McpServer.DB_CONFIG, MainPy.load_config, getenv_int.
    now rewrite !Hsame.
Qed.

Lemma connection_settings_compared_witness :
  (forall name, getenv Demo.env name = None ->
                getenv [("DB_HOST", "other.internal")] name = None)
  /\ MainPy.load_config
       (MainPy.load_dotenv [("DB_HOST", "other.internal")] Demo.env)
     = inr Demo.config
  /\ MainPy.load_config (MainPy.load_dotenv [("DB_NAME", "shop")] [])
     = inr {| host := Some "localhost"; port := 5432;
              database := Some "shop"; user := None; password := None |}.
Proof.
  assert (H : forall name, getenv Demo.env name = None ->
                           getenv [("DB_HOST", "other.internal")] name = None).
  { intros name Hn. cbn [getenv].
    destruct (String.eqb_spec name "DB_HOST") as [->|]; [discriminate|].
    reflexivity. }
  split; [exact H|].
  destruct (connection_settings_compared [("DB_HOST", "other.internal")]
              Demo.env) as (_ & _ & Hsame).
  destruct (Hsame H) as [_ Hmain].
  split; [rewrite Hmain; reflexivity | reflexivity].
Defined.

(** * Rows and prompts *)

Module DictFacts.
Import Effects.

Lemma dict_set_fresh (k : string) (v : value) (d : Dict) :
  ~ In k (column_names d) -> dict_set k v d = (d ++ [(k, v)])%list.
Proof.
  induction d as [|[k' v'] d IH]; intros Hn; [reflexivity|].
  cbn [dict_set column_names map fst In] in *.
  destruct (String.eqb_spec k k') as [->|Hne]; [tauto|].
  cbn [app]. rewrite IH; [reflexivity | tauto].
Qed.

Lemma fold_distinct (r : Row) :
  NoDup (column_names r) ->
  forall d, (forall k, In k (column_names r) -> ~ In k (column_names d)) ->
  fold_left (fun d kv => dict_set (fst kv) (snd kv) d) r d = (d ++ r)%list.
Proof.
  induction r as [|[k v] r IH]; intros Hnd d Hdis; cbn [fold_left].
  - now rewrite app_nil_r.
  - cbn [column_names map fst] in Hnd, Hdis.
    apply NoDup_cons_iff in Hnd as [Hk Hnd]. cbn [fst snd].
    rewrite dict_set_fresh by (apply Hdis; now left).
    rewrite (IH Hnd).
    + now rewrite <- app_assoc.
    + intros k' Hin. unfold column_names. rewrite map_app, in_app_iff.
      cbn [map fst In]. intros [H|[H|[]]].
      * apply (Hdis k'); [now right | exact H].
      * subst k'. contradiction.
Qed.

(** A row whose column names are all different is its own [dict]. *)
Lemma dict_distinct (r : Row) : NoDup (column_names r) -> dict r = r.
Proof.
  intros Hnd. unfold dict. rewrite (fold_distinct r Hnd []); [reflexivity|].
  intros k _ [].
Qed.

Lemma dict_set_names (k : string) (v : value) (d : Dict) :
  column_names (dict_set k v d)
  = if existsb (String.eqb k) (column_names d)
    then column_names d else (column_names d ++ [k])%list.
Proof.
  induction d as [|[k' v'] d IH]; [reflexivity|].
  cbn [dict_set column_names map fst existsb].
  destruct (String.eqb k k'); [reflexivity|].
  cbn [map fst orb]. fold (column_names (dict_set k v d)).
  fold (column_names d). rewrite IH.
  now destruct (existsb (String.eqb k) (column_names d)).
Qed.

Lemma existsb_eqb (k : string) (l : list string) :
  existsb (String.eqb k) l = true <-> In k l.
Proof.
  rewrite existsb_exists. split.
  - intros (x & Hin & He). apply String.eqb_eq in He. now subst.
  - intros H. exists k. split; [exact H | apply String.eqb_refl].
Qed.

Lemma dict_set_nodup (k : string) (v : value) (d : Dict) :
  NoDup (column_names d) -> NoDup (column_names (dict_set k v d)).
Proof.
  intros Hnd. rewrite dict_set_names.
  destruct (existsb (String.eqb k) (column_names d)) eqn:He; [exact Hnd|].
  apply NoDup_app; [exact Hnd | repeat constructor; intros [] |].
  intros x Hx [<-|[]]. apply existsb_eqb in Hx. congruence.
Qed.

Lemma fold_nodup (r : Row) :
  forall d, NoDup (column_names d) ->
  NoDup (column_names
           (fold_left (fun d kv => dict_set (fst kv) (snd kv) d) r d)).
Proof.
  induction r as [|[k v] r IH]; intros d Hnd; cbn [fold_left]; [exact Hnd|].
  apply IH, dict_set_nodup, Hnd.
Qed.

(** No key occurs twice in a [dict]. *)
Lemma dict_nodup (r : Row) : NoDup (column_names (dict r)).
Proof. apply fold_nodup. constructor. Qed.

Lemma map_dict_distinct (records : list Row) :
  Forall (fun r => NoDup (column_names r)) records ->
  map dict records = records.
Proof.
  induction 1 as [|r records Hr _ IH]; [reflexivity|].
  cbn [map]. now rewrite dict_distinct, IH.
Qed.

Lemma append_inj (a x y : string) : (a ++ x = a ++ y)%string -> x = y.
Proof.
  induction a as [|c a IH]; cbn; [auto|].
  intros H. injection H as H. now apply IH.
Qed.

Lemma length_append (a b : string) :
  String.length (a ++ b) = String.length a + String.length b.
Proof. induction a as [|c a IH]; cbn; [reflexivity | now rewrite IH]. Qed.

End DictFacts.

(** X15.  The rows a query returns are handed back one [dict] per row, in
    row order.  A [dict] never holds a column name twice, and a repeated
    name keeps the value of its last column.  When every row's column
    names are distinct, [run_select] returns the driver's rows exactly as
    they came: same rows, same columns, same order. *)
Theorem rows_come_back_unchanged
  (D : Asyncpg) (w : McpServer.World) (p : Pool) (conn : Connection)
  (s1 s2 : Server) (query : string) (records : list Row) :
  McpServer.db_pool w = Some p ->
  pool_acquire p (McpServer.server w) = (inr conn, s1) ->
  PyStr.contains (PyStr.lower query) "select" = true ->
  conn_fetch conn query [] s1 = (inr records, s2) ->
  fst (McpServer.run_select query w) = inr (map dict records)
  /\ length (map dict records) = length records
  /\ (forall r, NoDup (Effects.column_names (dict r)))
  /\ (forall r k, dict_get k (dict r) = row_get k r)
  /\ (Forall (fun r => NoDup (Effects.column_names r)) records ->
      fst (McpServer.run_select query w) = inr records).
Proof.
  intros Hp Ha Hs Hf.
  destruct (McpFacts.run_select_admits query w p conn s1 Hp Ha Hs)
    as (_ & Hr & _).
  rewrite Hf in Hr. cbn [fst] in Hr.
  split; [exact Hr|]. split; [apply length_map|].
  split; [apply DictFacts.dict_nodup|].
  split; [intros r k; apply MonadFacts.dict_get_dict|].
  intros Hall. now rewrite Hr, DictFacts.map_dict_distinct.
Qed.

Lemma rows_come_back_unchanged_witness :
  McpServer.db_pool Demo.ready = Some 1%nat
  /\ Forall (fun r => NoDup (Effects.column_names r)) Demo.rows
  /\ fst (@McpServer.run_select Demo.asyncpg "select * from orders" Demo.ready)
     = inr Demo.rows
  /\ dict [("id", VInt 1); ("id", VInt 2)] = [("id", VInt 2)].
Proof.
  split; [reflexivity|].
  assert (Hall : Forall (fun r => NoDup (Effects.column_names r)) Demo.rows).
  { repeat constructor; cbn; intros H; repeat destruct H as [H|H];
      try discriminate; auto. }
  split; [exact Hall|].
  destruct (rows_come_back_unchanged Demo.asyncpg Demo.ready 1%nat 7%nat []
              ["select * from orders"] "select * from orders" Demo.rows
              eq_refl eq_refl eq_refl eq_refl) as (_ & _ & _ & _ & Hsame).
  split; [exact (Hsame Hall) | reflexivity].
Defined.

(** X16.  [sql_prompt] puts its fixed instruction in front of the
    request and changes nothing in the request: the prompt is the prompt
    of the empty request followed by the request itself, so the request
    can be read back from it and different requests give different
    prompts.  Both modules build the same prompt. *)
Theorem sql_prompt_keeps_request (request other : string) :
  McpServer.sql_prompt request
  = (McpServer.sql_prompt "" ++ request)%string
  /\ MainPy.sql_prompt request = McpServer.sql_prompt request
  /\ String.length (McpServer.sql_prompt request)
     = 93 + String.length request
  /\ substring 93 (String.length request) (McpServer.sql_prompt request)
     = request
  /\ (McpServer.sql_prompt request = McpServer.sql_prompt other <->
      request = other).
Proof.
  assert (E : forall r, McpServer.sql_prompt r
                        = (McpServer.sql_prompt "" ++ r)%string)
    by reflexivity.
  split; [apply E|]. split; [reflexivity|]. split; [|split].
  - rewrite E, DictFacts.length_append. reflexivity.
  - rewrite E.
    change 93 with (String.length (McpServer.sql_prompt "")).
    generalize (McpServer.sql_prompt ""). intros h.
    induction h as [|c h IH]; cbn [append String.length substring].
    + induction request as [|c r IHr]; cbn; [reflexivity | now rewrite IHr].
    + exact IH.
  - split; [|now intros ->]. rewrite (E request), (E other).
    apply DictFacts.append_inj.
Qed.

(** X17.  A request passes the protected endpoint exactly as follows.  If
    the bearer scheme rejects it, the scheme's exception is raised and
    [check_auth] is not consulted, so nothing is printed even on a server
    without a key.  If the scheme yields credentials equal to a
    configured, non-empty key, the request is handed to the transport,
    once.  *)
Theorem endpoint_passes_valid_token
  (D : Asyncpg) (w : McpServer.World)
  (security : option string -> exn + string) (authorization : option string) :
  (forall e,
      security authorization = inl e ->
      App.protected_mcp_endpoint security authorization w = (inl e, w))
  /\ (forall k,
         security authorization = inr k ->
         getenv (McpServer.environ w) "MCP_API_KEY" = Some k ->
         k <> EmptyString ->
         fst (App.protected_mcp_endpoint security authorization w) = inr tt
         /\ Process.added w
              (snd (App.protected_mcp_endpoint security authorization w))
            = [HandleRequest])
  /\ (forall k key,
         security authorization = inr k ->
         getenv (McpServer.environ w) "MCP_API_KEY" = Some key ->
         key <> EmptyString -> k <> key ->
         App.protected_mcp_endpoint security authorization w
         = (inl (HTTPException 401 "Unauthorized access. Invalid MCP_API_KEY."
                   [("WWW-Authenticate", "Bearer")]), w)).
Proof.
  unfold App.protected_mcp_endpoint, bind, McpServer.liftE.
  split; [|split].
  - intros e ->. reflexivity.
  - intros k -> Hk Hne.
    pose proof (AppFacts.check_auth_cases k w) as Hc. rewrite Hk in Hc.
    destruct k as [|c k]; [congruence|].
    rewrite Hc, String.eqb_refl. split; [reflexivity|].
    now apply McpFacts.added_app.
  - intros k key -> Hk Hne Hd.
    pose proof (AppFacts.check_auth_cases k w) as Hc. rewrite Hk in Hc.
    destruct key as [|c key]; [congruence|].
    rewrite Hc. now destruct (String.eqb_spec k (String c key)).
Qed.

Lemma endpoint_passes_valid_token_witness :
  Demo.bearer (Some "Bearer s3cret") = inr "s3cret"
  /\ getenv (McpServer.environ Demo.ready) "MCP_API_KEY" = Some "s3cret"
  /\ fst (@App.protected_mcp_endpoint Demo.asyncpg Demo.bearer
            (Some "Bearer s3cret") Demo.ready) = inr tt
  /\ @App.protected_mcp_endpoint Demo.asyncpg Demo.bearer None Demo.offline
     = (inl (HTTPException 403 "Not authenticated" []), Demo.offline).
Proof.
  split; [reflexivity|]. split; [reflexivity|].
  destruct (endpoint_passes_valid_token Demo.asyncpg Demo.ready Demo.bearer
              (Some "Bearer s3cret")) as (_ & Hok & _).
  split; [apply (Hok "s3cret" eq_refl eq_refl); discriminate|].
  destruct (endpoint_passes_valid_token Demo.asyncpg Demo.offline Demo.bearer
              None) as (Hrej & _).
  exact (Hrej _ eq_refl).
Defined.
